(** * top-github-repositories: the fetcher and the processor

    A shallow embedding of [scripts/fetch_data.py] and
    [scripts/process_data.py], and the properties of the specification
    stated on it.

    - Python integers are [Z].  The [stars] and [forks] columns of a frame
      are int64 columns: their cells are [Z] and the arithmetic of the
      processor on them wraps around modulo 2^64, as numpy's does.
    - A pandas frame is a record of columns, each column a list; a vectorised
      operation on a column is a map over the list, one on two columns a
      [zip_with].  Row [i] of a frame is position [i] of its columns.
    - A float cell is an IEEE 754 binary64 number, with the operations of
      the Standard Library's specification of floating-point arithmetic.
    - Logging and HTTP requests are events appended to a trace; an exception
      ends the computation with [Raise].  Both are threaded by the monad [M].
    - The clock ([Timestamp.now]) and the environment ([os.getenv]) are read
      once and are arguments of the functions that read them; so are the
      remote server and the date parser of pandas, which works on a whole
      column.
    - The entry points and the load and save functions run in a world made
      of the file tree below the current directory and the trace; the CSV
      text of a frame and its parsing are pandas' and are parameters. *)

From Stdlib Require Import ZArith QArith Qcanon SpecFloat.
From stdpp Require Import base tactics option list numbers strings pretty gmap.

Local Open Scope string_scope.
Local Open Scope list_scope.
Local Open Scope Z_scope.

(** ** The Python runtime the two scripts rely on *)

Inductive exn : Type :=
| EnvironmentError (msg : string)
| ValueError
| TypeError
| OverflowError.

Inductive outcome (A : Type) : Type :=
| Return (a : A)
| Raise (e : exn).
Arguments Return {A} a.
Arguments Raise {A} e.

Inductive level : Type := INFO | WARNING | ERROR.

(** *** The [requests] library and the search endpoint's JSON *)

Module github.
(** One element of the ["items"] array of a repository search result, with
    the fields the fetcher reads. *)
Record Repo : Type := mkRepo {
  name : string;
  language : option string;
  stargazers_count : Z;
  forks_count : Z;
  created_at : string;
  pushed_at : string;
  html_url : string
}.

(** The decoded body: the ["items"] key may be absent. *)
Record SearchResult : Type := mkResult { items : option (list Repo) }.
End github.

Module requests.
(** The [params] dict: ["page"] is absent until the loop sets it. *)
Record Params : Type := mkParams {
  q : string;
  sort : string;
  order : string;
  per_page : Z;
  page : option Z
}.

Definition set_page (p : Params) (n : Z) : Params :=
  {| q := q p; sort := sort p; order := order p; per_page := per_page p;
     page := Some n |}.

Record Request : Type := mkRequest {
  url : string;
  headers : list (string * string);
  params : Params
}.

Record Response : Type := mkResponse {
  status_code : Z;
  text : string;
  json : github.SearchResult
}.
End requests.

(** The remote side: what a GET answers.  The loop asks for each page once
    and in order, so a sequence of page responses is the function that sends
    the request for page p to the p-th response.  A server always answers:
    transport failures and bodies that are not JSON are outside the model. *)
Definition Server : Type := requests.Request → requests.Response.

(** *** Effects *)

Inductive event : Type :=
| Log (lvl : level) (msg : string)
| HttpGet (r : requests.Request).

Definition trace : Type := list event.

Definition M (A : Type) : Type := trace → outcome A * trace.

#[global] Instance M_ret : MRet M := λ A a tr, (Return a, tr).

#[global] Instance M_bind : MBind M := λ A B f m tr,
  match m tr with
  | (Return a, tr') => f a tr'
  | (Raise e, tr') => (Raise e, tr')
  end.

Definition raise {A : Type} (e : exn) : M A := λ tr, (Raise e, tr).

Definition emit (e : event) : M unit := λ tr, (Return (), tr ++ [e]).

Module logging.
Definition info (msg : string) : M unit := emit (Log INFO msg).
Definition warning (msg : string) : M unit := emit (Log WARNING msg).
Definition error (msg : string) : M unit := emit (Log ERROR msg).
End logging.

Definition requests_get (srv : Server) (r : requests.Request) : M requests.Response :=
  λ tr, (Return (srv r), tr ++ [HttpGet r]).

(** The HTTP requests of a trace, oldest first. *)
Definition http_requests (tr : trace) : list requests.Request :=
  omap (λ e, match e with HttpGet r => Some r | Log _ _ => None end) tr.

(** ** The raw table *)

(** The dict the fetcher builds for one repository. *)
Module RawRepoRecord.
Record t : Type := mk {
  name : string;
  language : option string;
  stars : Z;
  forks : Z;
  creation_date : string;
  last_commit_date : string;
  repo_url : string
}.
End RawRepoRecord.

(** The frame of raw records, column by column.  A missing value of the
    [language] column (None in a dict, an empty CSV field) is [None].  The
    [stars] and [forks] columns are int64 columns, the two date columns hold
    strings. *)
Module RawTable.
Record t : Type := mk {
  name : list string;
  language : list (option string);
  stars : list Z;
  forks : list Z;
  creation_date : list string;
  last_commit_date : list string;
  repo_url : list string
}.

(** [len(df)]: the length of the index. *)
Definition len (df : t) : nat := length (name df).

(** [df.empty] *)
Definition empty (df : t) : bool := bool_decide (len df = 0%nat).
End RawTable.

(** [pd.DataFrame(repos)] for a list of dicts with the seven keys; on the
    empty list this is the frame without rows that [pd.DataFrame()] builds. *)
Definition pd_DataFrame (repos : list RawRepoRecord.t) : RawTable.t :=
  {| RawTable.name := RawRepoRecord.name <$> repos;
     RawTable.language := RawRepoRecord.language <$> repos;
     RawTable.stars := RawRepoRecord.stars <$> repos;
     RawTable.forks := RawRepoRecord.forks <$> repos;
     RawTable.creation_date := RawRepoRecord.creation_date <$> repos;
     RawTable.last_commit_date := RawRepoRecord.last_commit_date <$> repos;
     RawTable.repo_url := RawRepoRecord.repo_url <$> repos |}.

(** ** scripts/fetch_data.py *)

Module fetch_data.

(** The dict comprehension of the loop body, for one item. *)
Definition record_of (repo : github.Repo) : RawRepoRecord.t :=
  {| RawRepoRecord.name := github.name repo;
     RawRepoRecord.language := github.language repo;
     RawRepoRecord.stars := github.stargazers_count repo;
     RawRepoRecord.forks := github.forks_count repo;
     RawRepoRecord.creation_date := github.created_at repo;
     RawRepoRecord.last_commit_date := github.pushed_at repo;
     RawRepoRecord.repo_url := github.html_url repo |}.

Definition url : string := "https://api.github.com/search/repositories".

Definition params0 : requests.Params :=
  {| requests.q := "stars:>27500";
     requests.sort := "stars";
     requests.order := "desc";
     requests.per_page := 100;
     requests.page := None |}.

Definition headers_of (github_token : string) : list (string * string) :=
  [("Authorization", "Bearer " +:+ github_token)].

Section loop.
Context (srv : Server) (headers : list (string * string)).

(** [while page <= 10: ...].  Each iteration spends one unit of [fuel];
    [None] is returned when the fuel runs out with the condition still
    true. *)
Fixpoint while_page (fuel : nat) (page : Z) (params : requests.Params)
    (repos : list RawRepoRecord.t) : M (option (list RawRepoRecord.t)) :=
  if bool_decide (page ≤ 10) then
    match fuel with
    | O => mret None
    | S fuel =>
      logging.info ("Fetching page " +:+ pretty page +:+ "...");;
      let params := requests.set_page params page in
      response ← requests_get srv
        {| requests.url := url; requests.headers := headers;
           requests.params := params |};
      if bool_decide (requests.status_code response = 200) then
        let data := requests.json response in
        match github.items data with
        | None | Some [] =>
          logging.info "No more data to fetch.";;
          mret (Some repos)
        | Some its =>
          let repos := repos ++ (record_of <$> its) in
          logging.info ("Fetched " +:+ pretty (length its)
                        +:+ " repositories from page " +:+ pretty page +:+ ".");;
          while_page fuel (page + 1) params repos
        end
      else
        logging.error ("Error fetching page " +:+ pretty page +:+ ": "
                       +:+ pretty (requests.status_code response) +:+ " - "
                       +:+ requests.text response);;
        mret (Some repos)
    end
  else mret (Some repos).
End loop.

(** [fetch_github_repos()], given the environment and the server.  The
    result is [None] only if the loop ran out of fuel. *)
Definition fetch_github_repos (fuel : nat) (environ : string → option string)
    (srv : Server) : M (option RawTable.t) :=
  match environ "GITHUB_TOKEN" with
  | None | Some EmptyString =>
    logging.error "GitHub token not found. Please set the GITHUB_TOKEN environment variable.";;
    raise (EnvironmentError "GitHub token not found.")
  | Some github_token =>
    r ← while_page srv (headers_of github_token) fuel 1 params0 [];
    match r with
    | None => mret None
    | Some [] =>
      logging.warning "No data fetched.";;
      mret (Some (pd_DataFrame []))
    | Some repos => mret (Some (pd_DataFrame repos))
    end
  end.

(** *** Vocabulary for the statements about the fetcher *)

(** The request the loop sends for page [p]. *)
Definition request_of (github_token : string) (p : Z) : requests.Request :=
  {| requests.url := url;
     requests.headers := headers_of github_token;
     requests.params := requests.set_page params0 p |}.

(** The items a response carries; a body without ["items"] carries none. *)
Definition page_items (response : requests.Response) : list github.Repo :=
  default [] (github.items (requests.json response)).

(** The records the loop appends for page [p]. *)
Definition page_records (srv : Server) (github_token : string) (p : Z)
    : list RawRepoRecord.t :=
  record_of <$> page_items (srv (request_of github_token p)).

(** Page [p] lets the loop go on: it is answered with status 200 and
    carries at least one item. *)
Definition good_page (srv : Server) (github_token : string) (p : Z) : Prop :=
  requests.status_code (srv (request_of github_token p)) = 200
  ∧ page_items (srv (request_of github_token p)) ≠ [].

(** The [n] consecutive page numbers from [p] on. *)
Fixpoint page_range (p : Z) (n : nat) : list Z :=
  match n with
  | O => []
  | S n => p :: page_range (p + 1) n
  end.

(** The number of pages, among the [n] pages from [p] on, that come before
    the first page without items. *)
Fixpoint pages_before_empty (srv : Server) (github_token : string)
    (p : Z) (n : nat) : nat :=
  match n with
  | O => O
  | S n =>
    match page_items (srv (request_of github_token p)) with
    | [] => O
    | _ :: _ => S (pages_before_empty srv github_token (p + 1) n)
    end
  end.

(** The test's mock server: two items, one item, then empty pages, every
    answer successful. *)
Definition sample_items (p : option Z) : list github.Repo :=
  match p with
  | Some 1 =>
    [ github.mkRepo "repo1" (Some "Python") 15000 300
        "2021-01-01T00:00:00Z" "2022-01-01T00:00:00Z" "www.some_example.com";
      github.mkRepo "repo2" (Some "JavaScript") 12000 200
        "2020-01-01T00:00:00Z" "2021-01-01T00:00:00Z" "www.some_other_example.com" ]
  | Some 2 =>
    [ github.mkRepo "repo3" (Some "Ruby") 11000 150
        "2022-01-01T00:00:00Z" "2023-01-01T00:00:00Z" "www.third_example.com" ]
  | _ => []
  end.

Definition sample_server : Server := λ r,
  {| requests.status_code := 200;
     requests.text := EmptyString;
     requests.json :=
       {| github.items := Some (sample_items (requests.page (requests.params r))) |} |}.

(** The same server with the rate limit hit from page 3 on. *)
Definition limited_server : Server := λ r,
  match requests.page (requests.params r) with
  | Some 1 | Some 2 => sample_server r
  | _ =>
    {| requests.status_code := 403;
       requests.text := "API rate limit exceeded";
       requests.json := {| github.items := None |} |}
  end.

(** A server that ignores [per_page]: every page is answered with 101
    items. *)
Definition crowded_server : Server := λ r,
  {| requests.status_code := 200;
     requests.text := EmptyString;
     requests.json :=
       {| github.items :=
            Some (replicate 101
                    (github.mkRepo "repo" (Some "Python") 30000 100
                       "2021-01-01T00:00:00Z" "2022-01-01T00:00:00Z"
                       "www.example.com")) |} |}.

Definition sample_environ (key : string) : option string :=
  if decide (key = "GITHUB_TOKEN") then Some "fake_token" else None.

(** An environment where the variable is set to the empty string. *)
Definition blank_environ (key : string) : option string :=
  if decide (key = "GITHUB_TOKEN") then Some EmptyString else None.

End fetch_data.

(** ** pandas scalars and column operations used by the processor *)

(** The integers of an int64 column.  numpy computes on them modulo 2^64: a
    result outside the range wraps around, without an exception. *)
Module int64.
Definition min_value : Z := - 2 ^ 63.
Definition max_value : Z := 2 ^ 63 - 1.

Definition in_range (z : Z) : Prop := min_value ≤ z ≤ max_value.

Definition wrap (z : Z) : Z := (z + 2 ^ 63) `mod` 2 ^ 64 - 2 ^ 63.

Definition add (a b : Z) : Z := wrap (a + b).
Definition sub (a b : Z) : Z := wrap (a - b).
Definition mul (a b : Z) : Z := wrap (a * b).
End int64.

(** A UTC instant and a difference of two instants, in nanoseconds. *)
Definition Timestamp : Type := Z.
Definition Timedelta : Type := Z.

(** A difference of two instants is kept in 64 bits, whose least value
    stands for a missing difference. *)
Definition Timedelta_fits (td : Z) : Prop :=
  - int64.max_value ≤ td ≤ int64.max_value.

#[global] Instance Timedelta_fits_dec (td : Z) : Decision (Timedelta_fits td).
Proof. unfold Timedelta_fits. apply _. Defined.

(** A datetime column: its instants, and whether the column carries a time
    zone (dtype [datetime64[ns, UTC]]) or none (dtype [datetime64[ns]]). *)
Module Datetimes.
Record t : Type := mk { tz_aware : bool; instants : list Timestamp }.
End Datetimes.

Definition ns_per_day : Z := 86400 * 1000000000.

(** [.dt.days]: the whole days of a difference, rounded towards minus
    infinity as pandas does for negative differences. *)
Definition dt_days (td : Timedelta) : Z := td `div` ns_per_day.

(** A value of a float column: a binary64 number, that is a signed zero, a
    signed infinity, NaN, or [S754_finite s m e], which stands for
    (-1)^s * m * 2^e. *)
Definition float64 : Type := spec_float.

(** The conversion of an integer cell to float64, to the nearest number and
    to the even one of two nearest. *)
Definition of_int (n : Z) : float64 := binary_normalize 53 1024 n 0 false.

(** [a / b] on float columns: the quotient rounded to the nearest number;
    a zero divisor raises nothing and gives an infinity or NaN. *)
Definition truediv (a b : float64) : float64 := SFdiv 53 1024 a b.

(** The number a float stands for, when it is finite. *)
Definition float_value (x : float64) : option Qc :=
  match x with
  | S754_zero _ => Some (Qc_of_Z 0)
  | S754_finite s m e =>
    let magnitude :=
      if decide (0 ≤ e) then Qc_of_Z (Z.pos m * 2 ^ e)
      else (Qc_of_Z (Z.pos m) / Qc_of_Z (2 ^ (- e)))%Qc in
    Some (if s then (- magnitude)%Qc else magnitude)
  | S754_infinity _ | S754_nan => None
  end.


(** A cell that holds a Python int or a float. *)
Inductive number : Type :=
| Int (n : Z)
| Float (x : float64).

(** [Series.fillna(value)] on one cell. *)
Definition fillna {A : Type} (value : A) (cell : option A) : A :=
  match cell with
  | Some v => v
  | None => value
  end.

(** [Series.replace(to_replace, value)] on one cell. *)
Definition replace (to_replace value cell : Z) : Z :=
  if bool_decide (cell = to_replace) then value else cell.

(** A bin edge of [pd.cut]: an integer or [float("inf")]. *)
Inductive edge : Type :=
| Edge (n : Z)
| inf.

Definition edge_lt_int (e : edge) (x : Z) : bool :=
  match e with
  | Edge n => bool_decide (n < x)
  | inf => false
  end.

Definition int_le_edge (x : Z) (e : edge) : bool :=
  match e with
  | Edge n => bool_decide (x ≤ n)
  | inf => true
  end.

(** [pd.cut(x, bins, labels)] on one cell, with pandas' defaults
    [right=True] and [include_lowest=False]: the i-th label is given to the
    values of the half-open interval (bins[i], bins[i+1]], and a value in no
    interval gets the missing category [None]. *)
Fixpoint cut {L : Type} (bins : list edge) (labels : list L) (x : Z) : option L :=
  match bins, labels with
  | lo :: (hi :: _) as rest, label :: labels' =>
    if edge_lt_int lo x && int_le_edge x hi then Some label
    else cut rest labels' x
  | _, _ => None
  end.

(** [Series.min()] and [Series.max()] of an integer column; the empty
    column gives NaN, here [None]. *)
Definition series_min (col : list Z) : option Z :=
  match col with
  | [] => None
  | x :: col' => Some (foldr Z.min x col')
  end.

Definition series_max (col : list Z) : option Z :=
  match col with
  | [] => None
  | x :: col' => Some (foldr Z.max x col')
  end.

(** [a == b] on two such results: NaN is equal to nothing, itself included. *)
Definition val_eq (a b : option Z) : bool :=
  match a, b with
  | Some x, Some y => bool_decide (x = y)
  | _, _ => false
  end.

(** ** The processed table *)

Module ProcessedTable.
Record t : Type := mk {
  name : list string;
  language : list string;
  stars : list Z;
  forks : list Z;
  creation_date : list Timestamp;
  last_commit_date : list Timestamp;
  repo_url : list string;
  repo_age_years : list float64;
  repo_age_days : list Z;
  days_since_last_commit : list Z;
  is_active : list bool;
  stars_per_year : list float64;
  forks_per_year : list float64;
  popularity_score : list Z;
  engagement_rate : list float64;
  star_to_fork_ratio : list float64;
  language_known : list bool;
  category : list (option string);
  popularity_score_normalized : list number
}.
End ProcessedTable.

(** ** scripts/process_data.py *)

Module process_data.

Definition bins : list edge := [Edge 0; Edge 10000; Edge 50000; inf].

Definition labels : list string :=
  ["Low Popularity"; "Moderate Popularity"; "High Popularity"].

Section processor.
(** [pd.to_datetime] on a column of strings that is not empty.  pandas
    settles on one format for the whole column, from its first string, so
    what a string parses to is a matter of the column: the result is the
    column of instants, with or without a time zone, or [None] when pandas
    raises because some string does not fit. *)
Context (to_datetime : list string → option Datetimes.t).

(** The column without rows becomes the datetime column without rows, which
    has no time zone. *)
Definition pd_to_datetime (col : list string) : M Datetimes.t :=
  match col with
  | [] => mret (Datetimes.mk false [])
  | _ :: _ =>
    match to_datetime col with
    | Some dates => mret dates
    | None => raise ValueError
    end
  end.

(** [now - column], where [now] has a time zone: a column without one
    cannot be subtracted from it, and a difference that does not fit in 64
    bits stops the subtraction. *)
Definition Timestamp_sub (now : Timestamp) (col : Datetimes.t) : M (list Timedelta) :=
  if Datetimes.tz_aware col then
    let differences := (λ t, now - t) <$> Datetimes.instants col in
    if decide (Forall Timedelta_fits differences) then mret differences
    else raise OverflowError
  else raise TypeError.

(** [process_data(df)]; [now] is the value of [Timestamp.now(tz="UTC")],
    read once. *)
Definition process_data (now : Timestamp) (df : RawTable.t) : M ProcessedTable.t :=
  logging.info "Processing data...";;
  let language := fillna "Unknown" <$> RawTable.language df in
  creation_date ← pd_to_datetime (RawTable.creation_date df);
  last_commit_date ← pd_to_datetime (RawTable.last_commit_date df);
  let stars := RawTable.stars df in
  let forks := RawTable.forks df in
  age ← Timestamp_sub now creation_date;
  let repo_age_years := (λ td, truediv (of_int (dt_days td)) (of_int 365)) <$> age in
  age ← Timestamp_sub now creation_date;
  let repo_age_days := dt_days <$> age in
  since ← Timestamp_sub now last_commit_date;
  let days_since_last_commit := dt_days <$> since in
  let is_active := (λ d, bool_decide (d ≤ 180)) <$> days_since_last_commit in
  let stars_per_year := zip_with (λ s y, truediv (of_int s) y) stars repo_age_years in
  let forks_per_year := zip_with (λ f y, truediv (of_int f) y) forks repo_age_years in
  let popularity_score :=
    zip_with (λ s f, int64.add s (int64.mul 2 f)) stars forks in
  let engagement_rate :=
    zip_with (λ sf y, truediv (of_int sf) y) (zip_with int64.add stars forks)
      repo_age_years in
  let star_to_fork_ratio :=
    zip_with (λ s f, truediv (of_int s) (of_int f)) stars (replace 0 1 <$> forks) in
  let language_known := (λ l, bool_decide (l ≠ "Unknown")) <$> language in
  let category := cut bins labels <$> stars in
  let min_val := series_min popularity_score in
  let max_val := series_max popularity_score in
  let popularity_score_normalized :=
    if val_eq min_val max_val then
      (λ x, Int (if val_eq (Some x) max_val then 100 else 0)) <$> popularity_score
    else
      match min_val, max_val with
      | Some lo, Some hi =>
        (λ x, Float (truediv (of_int (int64.mul 100 (int64.sub x lo)))
                             (of_int (int64.sub hi lo))))
          <$> popularity_score
      | _, _ => (λ _, Float S754_nan) <$> popularity_score
      end in
  logging.info "Data processing complete.";;
  mret {| ProcessedTable.name := RawTable.name df;
          ProcessedTable.language := language;
          ProcessedTable.stars := stars;
          ProcessedTable.forks := forks;
          ProcessedTable.creation_date := Datetimes.instants creation_date;
          ProcessedTable.last_commit_date := Datetimes.instants last_commit_date;
          ProcessedTable.repo_url := RawTable.repo_url df;
          ProcessedTable.repo_age_years := repo_age_years;
          ProcessedTable.repo_age_days := repo_age_days;
          ProcessedTable.days_since_last_commit := days_since_last_commit;
          ProcessedTable.is_active := is_active;
          ProcessedTable.stars_per_year := stars_per_year;
          ProcessedTable.forks_per_year := forks_per_year;
          ProcessedTable.popularity_score := popularity_score;
          ProcessedTable.engagement_rate := engagement_rate;
          ProcessedTable.star_to_fork_ratio := star_to_fork_ratio;
          ProcessedTable.language_known := language_known;
          ProcessedTable.category := category;
          ProcessedTable.popularity_score_normalized := popularity_score_normalized |}.

(** pandas parses the column, which has rows, into as many instants, with a
    time zone, and [now] can be subtracted from them. *)
Definition parses (now : Timestamp) (col : list string) (instants : list Timestamp)
    : Prop :=
  col ≠ []
  ∧ to_datetime col = Some (Datetimes.mk true instants)
  ∧ length instants = length col
  ∧ Forall (λ t, Timedelta_fits (now - t)) instants.

(** Both date columns parse, into instants with a time zone that [now] can
    be subtracted from. *)
Definition dates_parse (now : Timestamp) (df : RawTable.t) : Prop :=
  (∃ instants, parses now (RawTable.creation_date df) instants)
  ∧ (∃ instants, parses now (RawTable.last_commit_date df) instants).
End processor.

(** The frame of the repository's own processor test, with the instants
    its four date strings denote. *)
Definition sample_raw_data : RawTable.t :=
  {| RawTable.name := ["repo1"; "repo2"];
     RawTable.language := [Some "Python"; None];
     RawTable.stars := [100; 50];
     RawTable.forks := [10; 5];
     RawTable.creation_date := ["2020-01-01T00:00:00Z"; "2019-01-01T00:00:00Z"];
     RawTable.last_commit_date := ["2022-01-01T00:00:00Z"; "2021-01-01T00:00:00Z"];
     RawTable.repo_url := ["https://github.com/o/repo1"; "https://github.com/o/repo2"] |}.

Definition sample_instant (s : string) : option Timestamp :=
  if decide (s = "2019-01-01T00:00:00Z") then Some (1546300800 * 1000000000)
  else if decide (s = "2020-01-01T00:00:00Z") then Some (1577836800 * 1000000000)
  else if decide (s = "2021-01-01T00:00:00Z") then Some (1609459200 * 1000000000)
  else if decide (s = "2022-01-01T00:00:00Z") then Some (1640995200 * 1000000000)
  else None.

(** The four strings have one format and name the zone UTC. *)
Definition sample_to_datetime (col : list string) : option Datetimes.t :=
  Datetimes.mk true <$> mapM sample_instant col.

(** 2022-03-01T00:00:00Z *)
Definition sample_now : Timestamp := 1646092800 * 1000000000.

(** Two repositories with the same popularity score, 120. *)
Definition uniform_raw_data : RawTable.t :=
  {| RawTable.name := ["repo1"; "repo2"];
     RawTable.language := [Some "Python"; Some "Go"];
     RawTable.stars := [100; 80];
     RawTable.forks := [10; 20];
     RawTable.creation_date := ["2020-01-01T00:00:00Z"; "2019-01-01T00:00:00Z"];
     RawTable.last_commit_date := ["2022-01-01T00:00:00Z"; "2021-01-01T00:00:00Z"];
     RawTable.repo_url := ["https://github.com/o/repo1"; "https://github.com/o/repo2"] |}.

(** One repository that nobody has starred yet. *)
Definition unstarred_raw_data : RawTable.t :=
  {| RawTable.name := ["repo0"];
     RawTable.language := [Some "Python"];
     RawTable.stars := [0];
     RawTable.forks := [0];
     RawTable.creation_date := ["2020-01-01T00:00:00Z"];
     RawTable.last_commit_date := ["2022-01-01T00:00:00Z"];
     RawTable.repo_url := ["https://github.com/o/repo0"] |}.

(** A repository whose popularity score does not fit in 64 bits. *)
Definition overflowing_raw_data : RawTable.t :=
  {| RawTable.name := ["repo1"];
     RawTable.language := [Some "Python"];
     RawTable.stars := [2 ^ 63 - 1];
     RawTable.forks := [1];
     RawTable.creation_date := ["2020-01-01T00:00:00Z"];
     RawTable.last_commit_date := ["2022-01-01T00:00:00Z"];
     RawTable.repo_url := ["https://github.com/o/repo1"] |}.


(** A repository without forks whose star count is not a float64 number. *)
Definition odd_raw_data : RawTable.t :=
  {| RawTable.name := ["repo1"];
     RawTable.language := [Some "Python"];
     RawTable.stars := [2 ^ 53 + 1];
     RawTable.forks := [0];
     RawTable.creation_date := ["2020-01-01T00:00:00Z"];
     RawTable.last_commit_date := ["2022-01-01T00:00:00Z"];
     RawTable.repo_url := ["https://github.com/o/repo1"] |}.

End process_data.

(** ** The file tree and the exceptions of the two scripts *)

(** Exceptions that carry a message.  [OSError] has the subclasses the file
    system raises; Python's [EnvironmentError] is another name of
    [OSError]. *)
Module py.
Inductive kind : Type :=
| OSError
| FileNotFoundError
| FileExistsError
| NotADirectoryError
| IsADirectoryError
| ValueError
| TypeError
| OverflowError.

Record error : Type := Error { kind_of : kind; message : string }.

(** [except OSError], [except FileNotFoundError] and [except Exception]. *)
Definition is_OSError (e : error) : bool :=
  match kind_of e with
  | ValueError | TypeError | OverflowError => false
  | _ => true
  end.

Definition is_FileNotFoundError (e : error) : bool :=
  match kind_of e with
  | FileNotFoundError => true
  | _ => false
  end.

Definition is_Exception (e : error) : bool := true.

Inductive result (A : Type) : Type :=
| Ok (a : A)
| Err (e : error).
Arguments Ok {A} a.
Arguments Err {A} e.
End py.

Module os.
(** A path is the list of its components below the current directory. *)
Abbreviation path := (list string).

Inductive entry : Type :=
| Dir
| File (content : string).

(** The entries of the tree below the current directory, by path.  The
    current directory itself, the empty path, is a directory.  The files the
    logging handlers append to are not entries: what is logged is kept in
    the trace, and the handlers are set up when a script is loaded, before
    any of its functions runs.  Every entry may be read and written: there
    are no permissions, no symbolic links and no limits on names or space. *)
Abbreviation tree := (gmap path entry).

(** The components of a path string, split at the slashes. *)
Fixpoint components (s : string) (cur : string) : list string :=
  match s with
  | EmptyString => [cur]
  | String c s' =>
    if decide (String c EmptyString = "/") then cur :: components s' EmptyString
    else components s' (cur +:+ String c EmptyString)
  end.

(** Empty components and ["."] name no step; a leading slash is dropped,
    so the current directory is the root.  [".."] and symbolic links are
    not resolved. *)
Definition path_of (s : string) : path :=
  filter (λ c, c ≠ EmptyString ∧ c ≠ ".") (components s EmptyString).

(** The path strings the tree answers for as the file system does: relative
    paths of plain names, one slash between two names and none at the end;
    no name is ["."] or [".."], and there is no NUL character, which Python
    refuses before it asks the file system. *)
Definition plain (s : string) : Prop :=
  (Ascii.zero ∉ String.list_ascii_of_string s)
  ∧ Forall (λ c, c ≠ EmptyString ∧ c ≠ "." ∧ c ≠ "..") (components s EmptyString).

#[global] Instance plain_dec (s : string) : Decision (plain s).
Proof. unfold plain. apply _. Defined.

(** Path resolution: from the directory [cur], whose entry is [e], follow
    [rest]. *)
Fixpoint resolve_from (t : tree) (cur : path) (e : entry) (rest : list string)
    : py.kind + entry :=
  match rest with
  | [] => inr e
  | c :: rest' =>
    match e with
    | File _ => inl py.NotADirectoryError
    | Dir =>
      match t !! (cur ++ [c]) with
      | None => inl py.FileNotFoundError
      | Some e' => resolve_from t (cur ++ [c]) e' rest'
      end
    end
  end.

Definition stat (t : tree) (p : path) : py.kind + entry :=
  resolve_from t [] Dir p.

(** [os.path.isdir] *)
Definition isdir (t : tree) (p : path) : bool :=
  match stat t p with
  | inr Dir => true
  | _ => false
  end.

(** [os.makedirs(name, exist_ok=True)] from the directory [cur] on: every
    missing directory on the way is created, an existing one is entered, and
    a file in the way stops the call with the tree as it is by then. *)
Fixpoint makedirs_from (cur : path) (rest : list string) (t : tree)
    : option py.kind * tree :=
  match rest with
  | [] => (None, t)
  | c :: rest' =>
    let p := cur ++ [c] in
    match t !! p with
    | None => makedirs_from p rest' (<[p := Dir]> t)
    | Some Dir => makedirs_from p rest' t
    | Some (File _) =>
      (Some (match rest' with
             | [] => py.FileExistsError
             | _ :: _ => py.NotADirectoryError
             end), t)
    end
  end.

Definition makedirs (p : path) (t : tree) : option py.kind * tree :=
  makedirs_from [] p t.

(** The directories [makedirs_from cur rest] makes sure of, outermost
    first. *)
Fixpoint chain_from (cur : path) (rest : list string) : list path :=
  match rest with
  | [] => []
  | c :: rest' => (cur ++ [c]) :: chain_from (cur ++ [c]) rest'
  end.

(** The tree with the directories [ps] added. *)
Definition with_dirs (ps : list path) (t : tree) : tree :=
  foldl (λ t p, <[p := Dir]> t) t ps.

Definition no_file (t : tree) (p : path) : Prop :=
  ∀ content, t !! p ≠ Some (File content).

Definition is_file (t : tree) (p : path) : Prop :=
  ∃ content, t !! p = Some (File content).

(** The directory a path lies in. *)
Definition parent (p : path) : path := take (length p - 1) p.

(** Writing a file as [DataFrame.to_csv] does: pandas refuses a path whose
    parent is not a directory, then the file is opened for writing, which
    fails on a directory and otherwise creates or replaces the file. *)
Definition write_file (p : path) (content : string) (t : tree)
    : option py.kind * tree :=
  if isdir t (parent p) then
    match p, t !! p with
    | [], _ | _, Some Dir => (Some py.IsADirectoryError, t)
    | _, _ => (None, <[p := File content]> t)
    end
  else (Some py.OSError, t).

(** Opening a file for reading. *)
Definition read_file (p : path) (t : tree) : py.kind + string :=
  match stat t p with
  | inl k => inl k
  | inr Dir => inl py.IsADirectoryError
  | inr (File content) => inr content
  end.
End os.

(** ** Effects of the scripts: the file tree and the trace *)

Record world : Type := World { files : os.tree; logged : trace }.

Definition IO (A : Type) : Type := world → py.result A * world.

#[global] Instance IO_ret : MRet IO := λ A a w, (py.Ok a, w).

#[global] Instance IO_bind : MBind IO := λ A B f m w,
  match m w with
  | (py.Ok a, w') => f a w'
  | (py.Err e, w') => (py.Err e, w')
  end.

Definition io_raise {A : Type} (e : py.error) : IO A := λ w, (py.Err e, w).

(** [try: body except <handles> as e: handler(e)] *)
Definition try_except {A : Type} (body : IO A) (handles : py.error → bool)
    (handler : py.error → IO A) : IO A := λ w,
  match body w with
  | (py.Ok a, w') => (py.Ok a, w')
  | (py.Err e, w') => if handles e then handler e w' else (py.Err e, w')
  end.

(** The computation changes no entry of the tree outside the paths [ps]. *)
Definition touches_only {A : Type} (ps : list os.path) (m : IO A) : Prop :=
  ∀ w r w', m w = (r, w') → ∀ p, p ∉ ps → files w' !! p = files w !! p.

Section scripts.
(** What the libraries contribute and the scripts only pass on: the CSV text
    of a frame, the frame a CSV text parses to ([None] when pandas rejects
    the text), and the message of an exception a library raises about a
    path. *)
Context (to_csv_raw : RawTable.t → string).
Context (to_csv_processed : ProcessedTable.t → string).
Context (read_csv : string → option RawTable.t).
Context (strerror : py.kind → string → string).

(** An exception of the code modelled above, as the scripts see it. *)
Definition of_exn (e : exn) : py.error :=
  match e with
  | EnvironmentError msg => py.Error py.OSError msg
  | ValueError => py.Error py.ValueError (strerror py.ValueError EmptyString)
  | TypeError => py.Error py.TypeError (strerror py.TypeError EmptyString)
  | OverflowError => py.Error py.OverflowError (strerror py.OverflowError EmptyString)
  end.

(** A computation that only logs and sends requests, run in the world. *)
Definition lift {A : Type} (m : M A) : IO A := λ w,
  match m (logged w) with
  | (Return a, tr) => (py.Ok a, {| files := files w; logged := tr |})
  | (Raise e, tr) => (py.Err (of_exn e), {| files := files w; logged := tr |})
  end.

(** [logging.exception(msg)]: an ERROR line; the traceback that follows it
    is not modelled. *)
Definition logging_exception (msg : string) : IO unit := lift (logging.error msg).

Definition os_makedirs (name : string) : IO unit := λ w,
  match os.makedirs (os.path_of name) (files w) with
  | (None, t) => (py.Ok (), {| files := t; logged := logged w |})
  | (Some k, t) =>
    (py.Err (py.Error k (strerror k name)), {| files := t; logged := logged w |})
  end.

(** [df.to_csv(path, index=False)], given the text of the frame. *)
Definition DataFrame_to_csv (text : string) (path : string) : IO unit := λ w,
  match os.write_file (os.path_of path) text (files w) with
  | (None, t) => (py.Ok (), {| files := t; logged := logged w |})
  | (Some k, t) =>
    (py.Err (py.Error k (strerror k path)), {| files := t; logged := logged w |})
  end.

(** [pd.read_csv(path)] *)
Definition pd_read_csv (path : string) : IO RawTable.t := λ w,
  match os.read_file (os.path_of path) (files w) with
  | inl k => (py.Err (py.Error k (strerror k path)), w)
  | inr text =>
    match read_csv text with
    | Some df => (py.Ok df, w)
    | None => (py.Err (py.Error py.ValueError (strerror py.ValueError path)), w)
    end
  end.

(** *** scripts/fetch_data.py, the rest *)

Definition ensure_directories : IO unit :=
  os_makedirs "logs";;
  os_makedirs "data/raw".

(** [_main()] of the fetcher.  The result is [None] only if the loop of
    [fetch_github_repos] ran out of fuel. *)
Definition fetch_data_main (fuel : nat) (environ : string → option string)
    (srv : Server) : IO (option unit) :=
  try_except
    (ensure_directories;;
     r ← lift (fetch_data.fetch_github_repos fuel environ srv);
     match r with
     | None => mret None
     | Some df =>
       if negb (RawTable.empty df) then
         let output_path := "data/raw/github_repos.csv" in
         DataFrame_to_csv (to_csv_raw df) output_path;;
         lift (logging.info ("Data saved to " +:+ output_path));;
         mret (Some ())
       else
         lift (logging.warning "No data fetched.");;
         mret (Some ())
     end)
    py.is_Exception
    (λ e, logging_exception "An error occurred during execution.";;
          mret (Some ())).

(** *** scripts/process_data.py, the rest *)

Definition load_raw_data (input_path : string) : IO RawTable.t :=
  try_except
    (lift (logging.info ("Loading raw data from " +:+ input_path +:+ "..."));;
     pd_read_csv input_path)
    py.is_FileNotFoundError
    (λ e, lift (logging.error ("Error loading raw data: " +:+ py.message e));;
          io_raise (py.Error py.FileNotFoundError
                      "Error loading raw data: File not found.")).

Definition save_processed_data (df : ProcessedTable.t) (output_path : string)
    : IO unit :=
  try_except
    (lift (logging.info ("Saving processed data to " +:+ output_path +:+ "..."));;
     DataFrame_to_csv (to_csv_processed df) output_path;;
     lift (logging.info "Processed data saved successfully."))
    py.is_OSError
    (λ e, lift (logging.error ("Error saving processed data: " +:+ py.message e));;
          io_raise (py.Error py.OSError
                      "Error saving processed data: Invalid file path.")).

(** [_main()] of the processor, given the date parser and the clock. *)
Definition process_data_main (to_datetime : list string → option Datetimes.t)
    (now : Timestamp) : IO unit :=
  let input_path := "data/raw/github_repos.csv" in
  let output_path := "data/processed/github_repos_processed.csv" in
  try_except
    (os_makedirs "logs";;
     os_makedirs "data/processed";;
     raw_data ← load_raw_data input_path;
     processed_data ← lift (process_data.process_data to_datetime now raw_data);
     save_processed_data processed_data output_path)
    py.is_Exception
    (λ e, logging_exception "An error occurred during data processing.").
End scripts.

(** The paths the two entry points work on. *)
Definition fetch_paths : list os.path :=
  [["logs"]; ["data"]; ["data"; "raw"]; ["data"; "raw"; "github_repos.csv"]].

Definition process_paths : list os.path :=
  [["logs"]; ["data"]; ["data"; "processed"];
   ["data"; "processed"; "github_repos_processed.csv"]].

(** A stand-in for the libraries, to run the scripts on examples: the CSV
    text of a frame is the list of its names, every text but the empty one
    parses to the frame of the processor's test, and the message of an
    exception about a path is the path. *)
Definition sample_to_csv_raw (df : RawTable.t) : string :=
  String.concat "," (RawTable.name df).

Definition sample_to_csv_processed (df : ProcessedTable.t) : string :=
  String.concat "," (ProcessedTable.name df).

Definition sample_read_csv (text : string) : option RawTable.t :=
  match text with
  | EmptyString => None
  | String _ _ => Some process_data.sample_raw_data
  end.

Definition sample_strerror (k : py.kind) (path : string) : string := path.

(** A tree with the raw file in place. *)
Definition sample_tree : os.tree :=
  {[ ["data"] := os.Dir;
     ["data"; "raw"] := os.Dir;
     ["data"; "raw"; "github_repos.csv"] := os.File "repo1,repo2" ]}.

(** ** Vocabulary for further statements *)

Module pages.
Import fetch_data.

(** The loop goes past page [p]: status 200 and at least one item. *)
Definition goes_on (srv : Server) (github_token : string) (p : Z) : bool :=
  bool_decide (requests.status_code (srv (request_of github_token p)) = 200)
  && match page_items (srv (request_of github_token p)) with
     | [] => false
     | _ :: _ => true
     end.

(** The number of pages the loop goes past, among the [n] pages from [p]
    on. *)
Fixpoint pages_passed (srv : Server) (github_token : string) (p : Z) (n : nat)
    : nat :=
  match n with
  | O => O
  | S n =>
    if goes_on srv github_token p
    then S (pages_passed srv github_token (p + 1) n)
    else O
  end.

Definition is_warning (e : event) : bool :=
  match e with
  | Log WARNING _ => true
  | _ => false
  end.
End pages.

(** A frame of [n] rows: each of its columns has [n] cells. *)
Definition raw_rows (df : RawTable.t) (n : nat) : Prop :=
  length (RawTable.name df) = n
  ∧ length (RawTable.language df) = n
  ∧ length (RawTable.stars df) = n
  ∧ length (RawTable.forks df) = n
  ∧ length (RawTable.creation_date df) = n
  ∧ length (RawTable.last_commit_date df) = n
  ∧ length (RawTable.repo_url df) = n.

Definition processed_rows (df : ProcessedTable.t) (n : nat) : Prop :=
  length (ProcessedTable.name df) = n
  ∧ length (ProcessedTable.language df) = n
  ∧ length (ProcessedTable.stars df) = n
  ∧ length (ProcessedTable.forks df) = n
  ∧ length (ProcessedTable.creation_date df) = n
  ∧ length (ProcessedTable.last_commit_date df) = n
  ∧ length (ProcessedTable.repo_url df) = n
  ∧ length (ProcessedTable.repo_age_years df) = n
  ∧ length (ProcessedTable.repo_age_days df) = n
  ∧ length (ProcessedTable.days_since_last_commit df) = n
  ∧ length (ProcessedTable.is_active df) = n
  ∧ length (ProcessedTable.stars_per_year df) = n
  ∧ length (ProcessedTable.forks_per_year df) = n
  ∧ length (ProcessedTable.popularity_score df) = n
  ∧ length (ProcessedTable.engagement_rate df) = n
  ∧ length (ProcessedTable.star_to_fork_ratio df) = n
  ∧ length (ProcessedTable.language_known df) = n
  ∧ length (ProcessedTable.category df) = n
  ∧ length (ProcessedTable.popularity_score_normalized df) = n.


Module fetch_data_spec.
Import fetch_data.

Lemma http_requests_app tr1 tr2 :
  http_requests (tr1 ++ tr2) = http_requests tr1 ++ http_requests tr2.
Proof. apply omap_app. Qed.

Lemma http_requests_nil : http_requests [] = [].
Proof. done. Qed.

Lemma http_requests_log lvl msg tr :
  http_requests (Log lvl msg :: tr) = http_requests tr.
Proof. done. Qed.

Lemma http_requests_get r tr :
  http_requests (HttpGet r :: tr) = r :: http_requests tr.
Proof. done. Qed.

Ltac requests_of_trace :=
  rewrite ?http_requests_app, ?http_requests_log, ?http_requests_get,
    ?http_requests_log, ?http_requests_nil, ?app_nil_r.

Section loop_facts.
Context (srv : Server) (github_token : string).

Lemma while_page_done fuel page params repos tr :
  10 < page →
  while_page srv (headers_of github_token) fuel page params repos tr
  = (Return (Some repos), tr).
Proof.
  intros Hp. destruct fuel; simpl; rewrite bool_decide_eq_false_2 by lia; done.
Qed.

Lemma while_page_step fuel page params repos tr :
  page ≤ 10 →
  (∀ p, requests.set_page params p = requests.set_page params0 p) →
  while_page srv (headers_of github_token) (S fuel) page params repos tr
  = let response := srv (request_of github_token page) in
    let tr1 := tr ++ [Log INFO ("Fetching page " +:+ pretty page +:+ "...");
                      HttpGet (request_of github_token page)] in
    if bool_decide (requests.status_code response = 200) then
      match page_items response with
      | [] => (Return (Some repos), tr1 ++ [Log INFO "No more data to fetch."])
      | _ :: _ =>
        while_page srv (headers_of github_token) fuel (page + 1)
          (requests.set_page params page)
          (repos ++ page_records srv github_token page)
          (tr1 ++ [Log INFO ("Fetched " +:+ pretty (length (page_items response))
                            +:+ " repositories from page " +:+ pretty page +:+ ".")])
      end
    else
      (Return (Some repos),
       tr1 ++ [Log ERROR ("Error fetching page " +:+ pretty page +:+ ": "
                          +:+ pretty (requests.status_code response) +:+ " - "
                          +:+ requests.text response)]).
Proof.
  intros Hp Hpar.
  cbn [while_page]. rewrite bool_decide_eq_true_2 by done.
  unfold mbind, M_bind, logging.info, logging.error, emit, requests_get, mret, M_ret.
  rewrite Hpar. fold (request_of github_token page).
  unfold page_records, page_items.
  cbn zeta.
  destruct (bool_decide _); [|by rewrite <-!app_assoc].
  destruct (github.items _) as [[|x l]|]; by rewrite <-!app_assoc.
Qed.

Lemma set_page_params0 params page :
  (∀ p, requests.set_page params p = requests.set_page params0 p) →
  ∀ p, requests.set_page (requests.set_page params page) p
       = requests.set_page params0 p.
Proof. intros Hpar p. specialize (Hpar p). by destruct params; simplify_eq/=. Qed.

Lemma while_page_run (n : nat) :
  ∀ (p0 : Z) params repos tr (fuel : nat),
    (∀ p, requests.set_page params p = requests.set_page params0 p) →
    p0 + Z.of_nat n ≤ 11 →
    (∀ p, p0 ≤ p < p0 + Z.of_nat n → good_page srv github_token p) →
    (p0 + Z.of_nat n ≤ 10 → ¬ good_page srv github_token (p0 + Z.of_nat n)) →
    11 - p0 ≤ Z.of_nat fuel →
    ∃ tr',
      while_page srv (headers_of github_token) fuel p0 params repos tr
      = (Return (Some (repos ++ concat (page_records srv github_token
                                          <$> page_range p0 n))), tr')
      ∧ http_requests tr'
        = http_requests tr
          ++ (request_of github_token
                <$> page_range p0 (if decide (p0 + Z.of_nat n ≤ 10) then S n else n)).
Proof.
  induction n as [|n IH]; intros p0 params repos tr fuel Hpar Hle Hgood Hstop Hfuel.
  - rewrite Z.add_0_r in *. simpl. rewrite app_nil_r.
    case_decide as Hp0.
    + destruct fuel as [|fuel]; [lia|].
      rewrite while_page_step by done. cbn zeta.
      case_bool_decide as Hst.
      * destruct (page_items _) as [|x l] eqn:Hit.
        -- eexists; split; [done|]. by requests_of_trace.
        -- destruct (Hstop Hp0). split; [done|]. by rewrite Hit.
      * eexists; split; [done|]. by requests_of_trace.
    + exists tr. rewrite while_page_done by lia. by rewrite app_nil_r.
  - assert (p0 ≤ 10) as Hp0 by lia.
    destruct fuel as [|fuel]; [lia|].
    destruct (Hgood p0) as [Hst Hit]; [lia|].
    rewrite while_page_step by done. cbn zeta.
    rewrite bool_decide_eq_true_2 by done.
    destruct (page_items _) as [|x l] eqn:Hitems; [done|].
    rewrite <-Hitems.
    match goal with
    | |- ∃ _, while_page _ _ ?f ?p ?pa ?re ?t = _ ∧ _ =>
      destruct (IH p pa re t f) as (tr' & Hrun & Htr')
    end.
    { by apply set_page_params0. }
    { lia. }
    { intros p ?. apply Hgood. lia. }
    { replace (p0 + 1 + Z.of_nat n) with (p0 + Z.of_nat (S n)) by lia. done. }
    { lia. }
    exists tr'. split.
    + rewrite Hrun. simpl. by rewrite <-app_assoc.
    + rewrite Htr'. requests_of_trace. rewrite <-app_assoc.
      repeat case_decide; try lia; done.
Qed.

Lemma fetch_github_repos_with_token environ fuel tr :
  environ "GITHUB_TOKEN" = Some github_token →
  github_token ≠ EmptyString →
  fetch_github_repos fuel environ srv tr
  = match while_page srv (headers_of github_token) fuel 1 params0 [] tr with
    | (Return None, tr') => (Return None, tr')
    | (Return (Some []), tr') =>
      (Return (Some (pd_DataFrame [])), tr' ++ [Log WARNING "No data fetched."])
    | (Return (Some repos), tr') => (Return (Some (pd_DataFrame repos)), tr')
    | (Raise e, tr') => (Raise e, tr')
    end.
Proof.
  intros Henv Htok. unfold fetch_github_repos. rewrite Henv.
  destruct github_token as [|c s]; [done|].
  unfold mbind, M_bind.
  destruct (while_page _ _ _ _ _ _ _) as [[[[|r repos]|]|e] tr']; done.
Qed.

Lemma pages_before_empty_le (n : nat) p :
  (pages_before_empty srv github_token p n ≤ n)%nat.
Proof.
  revert p. induction n as [|n IH]; intros p; simpl; [done|].
  destruct (page_items _); [lia|]. specialize (IH (p + 1)). lia.
Qed.

Lemma pages_before_empty_nonempty (n : nat) p q :
  p ≤ q < p + Z.of_nat (pages_before_empty srv github_token p n) →
  page_items (srv (request_of github_token q)) ≠ [].
Proof.
  revert p. induction n as [|n IH]; intros p; simpl; [lia|].
  destruct (page_items (srv (request_of github_token p))) as [|x l] eqn:Hp; [lia|].
  intros Hq. destruct (decide (q = p)) as [->|Hne]; [by rewrite Hp|].
  apply (IH (p + 1)). lia.
Qed.

Lemma pages_before_empty_stop (n : nat) p :
  (pages_before_empty srv github_token p n < n)%nat →
  page_items (srv (request_of github_token
                     (p + Z.of_nat (pages_before_empty srv github_token p n)))) = [].
Proof.
  revert p. induction n as [|n IH]; intros p; simpl; [lia|].
  destruct (page_items (srv (request_of github_token p))) as [|x l] eqn:Hp.
  - intros _. by rewrite Z.add_0_r.
  - intros Hlt. rewrite Nat2Z.inj_succ, <-Z.add_succ_comm. apply IH. lia.
Qed.

Lemma length_page_records p :
  length (page_records srv github_token p)
  = length (page_items (srv (request_of github_token p))).
Proof. apply length_fmap. Qed.

Lemma length_concat_page_records (pages : list Z) :
  length (concat (page_records srv github_token <$> pages))
  = sum_list ((λ p, length (page_items (srv (request_of github_token p)))) <$> pages).
Proof.
  induction pages as [|p pages IH]; csimpl; [done|].
  by rewrite length_app, length_page_records, IH.
Qed.
End loop_facts.

Lemma length_page_range p n : length (page_range p n) = n.
Proof. revert p. induction n as [|n IH]; intros p; simpl; [done|]. by rewrite IH. Qed.

Lemma elem_of_page_range q p n :
  q ∈ page_range p n ↔ p ≤ q < p + Z.of_nat n.
Proof.
  revert p. induction n as [|n IH]; intros p; simpl.
  - rewrite elem_of_nil. lia.
  - rewrite elem_of_cons, IH. lia.
Qed.

Lemma sum_list_bounded (b : nat) (l : list nat) :
  Forall (λ x, x ≤ b)%nat l → (sum_list l ≤ length l * b)%nat.
Proof. induction 1 as [|x l Hx _ IH]; simpl; lia. Qed.

Lemma len_pd_DataFrame repos : RawTable.len (pd_DataFrame repos) = length repos.
Proof. unfold RawTable.len. simpl. apply length_fmap. Qed.

(** What the function returns once the loop has returned [repos]. *)
Lemma fetch_github_repos_returns environ srv github_token fuel tr repos tr1 :
  environ "GITHUB_TOKEN" = Some github_token →
  github_token ≠ EmptyString →
  while_page srv (headers_of github_token) fuel 1 params0 [] tr
  = (Return (Some repos), tr1) →
  ∃ tr', fetch_github_repos fuel environ srv tr
         = (Return (Some (pd_DataFrame repos)), tr')
         ∧ http_requests tr' = http_requests tr1.
Proof.
  intros Henv Htok Hrun.
  rewrite (fetch_github_repos_with_token srv github_token) by done.
  rewrite Hrun. destruct repos as [|r repos]; eexists; (split; [done|]).
  - by requests_of_trace.
  - done.
Qed.

(** A column of the frame of the records of some pages, read off the items
    of those pages. *)
Lemma column_of_page_records {A : Type} (column : RawRepoRecord.t → A)
    (srv : Server) (github_token : string) (pages : list Z) :
  column <$> concat (page_records srv github_token <$> pages)
  = (λ item, column (record_of item))
      <$> concat ((λ p, page_items (srv (request_of github_token p))) <$> pages).
Proof.
  induction pages as [|p pages IH]; [done|].
  cbn [fmap list_fmap concat]. rewrite !fmap_app. f_equal; [|exact IH].
  unfold page_records. by rewrite <-list_fmap_compose.
Qed.

(** C1: when page N (1 ≤ N ≤ 10) is the first page answered with a status
    other than 200 and every earlier page is answered with 200 and carries
    items, the fetcher does not raise and returns the frame of exactly the
    items of pages 1..N-1, in page order and in the order of each page: each
    of its seven columns is the matching field of these items.  For N = 1
    that frame has no rows.  Exactly the pages 1..N are requested. *)
Theorem C1_non_success_truncates
    (environ : string → option string) (srv : Server) (github_token : string)
    (N : Z) (fuel : nat) (tr : trace) :
  environ "GITHUB_TOKEN" = Some github_token →
  github_token ≠ EmptyString →
  1 ≤ N ≤ 10 →
  (∀ p, 1 ≤ p < N →
     requests.status_code (srv (request_of github_token p)) = 200
     ∧ page_items (srv (request_of github_token p)) ≠ []) →
  requests.status_code (srv (request_of github_token N)) ≠ 200 →
  (10 ≤ fuel)%nat →
  let items :=
    concat ((λ p, page_items (srv (request_of github_token p)))
              <$> page_range 1 (Z.to_nat (N - 1))) in
  ∃ df tr',
    fetch_github_repos fuel environ srv tr = (Return (Some df), tr')
    ∧ RawTable.name df = github.name <$> items
    ∧ RawTable.language df = github.language <$> items
    ∧ RawTable.stars df = github.stargazers_count <$> items
    ∧ RawTable.forks df = github.forks_count <$> items
    ∧ RawTable.creation_date df = github.created_at <$> items
    ∧ RawTable.last_commit_date df = github.pushed_at <$> items
    ∧ RawTable.repo_url df = github.html_url <$> items
    ∧ (N = 1 → items = [] ∧ RawTable.len df = 0%nat ∧ RawTable.empty df = true)
    ∧ http_requests tr'
      = http_requests tr ++ (request_of github_token <$> page_range 1 (Z.to_nat N)).
Proof.
  intros Henv Htok HN Hgood Hbad Hfuel items.
  destruct (while_page_run srv github_token (Z.to_nat (N - 1)) 1 params0 [] tr fuel)
    as (tr1 & Hrun & Htr1).
  - done.
  - lia.
  - intros p Hp. apply Hgood. lia.
  - intros _ [Hst _]. apply Hbad.
    by replace (1 + Z.of_nat (Z.to_nat (N - 1))) with N in Hst by lia.
  - lia.
  - destruct (fetch_github_repos_returns environ srv github_token fuel tr _ tr1
                Henv Htok Hrun) as (tr' & Hret & Htr').
    eexists _, tr'. split; [exact Hret|].
    rewrite app_nil_l. unfold pd_DataFrame.
    cbn [RawTable.name RawTable.language RawTable.stars RawTable.forks
         RawTable.creation_date RawTable.last_commit_date RawTable.repo_url].
    do 7 (split; [apply column_of_page_records|]).
    split.
    + intros ->. done.
    + rewrite Htr', Htr1, decide_True by lia.
      by replace (S (Z.to_nat (N - 1))) with (Z.to_nat N) by lia.
Qed.

Lemma C1_non_success_truncates_witness :
  sample_environ "GITHUB_TOKEN" = Some "fake_token"
  ∧ "fake_token" ≠ EmptyString
  ∧ 1 ≤ 3 ≤ 10
  ∧ (∀ p, 1 ≤ p < 3 →
       requests.status_code (limited_server (request_of "fake_token" p)) = 200
       ∧ page_items (limited_server (request_of "fake_token" p)) ≠ [])
  ∧ requests.status_code (limited_server (request_of "fake_token" 3)) ≠ 200
  ∧ (10 ≤ 10)%nat
  ∧ let items :=
      concat ((λ p, page_items (limited_server (request_of "fake_token" p)))
                <$> page_range 1 (Z.to_nat (3 - 1))) in
    ∃ df tr',
      fetch_github_repos 10 sample_environ limited_server [] = (Return (Some df), tr')
      ∧ RawTable.name df = github.name <$> items
      ∧ RawTable.language df = github.language <$> items
      ∧ RawTable.stars df = github.stargazers_count <$> items
      ∧ RawTable.forks df = github.forks_count <$> items
      ∧ RawTable.creation_date df = github.created_at <$> items
      ∧ RawTable.last_commit_date df = github.pushed_at <$> items
      ∧ RawTable.repo_url df = github.html_url <$> items
      ∧ (3 = 1 → items = [] ∧ RawTable.len df = 0%nat ∧ RawTable.empty df = true)
      ∧ http_requests tr'
        = http_requests [] ++ (request_of "fake_token" <$> page_range 1 (Z.to_nat 3)).
Proof.
  assert (sample_environ "GITHUB_TOKEN" = Some "fake_token") as Henv by reflexivity.
  assert ("fake_token" ≠ EmptyString) as Htok by discriminate.
  assert (1 ≤ 3 ≤ 10) as HN by lia.
  assert (∀ p, 1 ≤ p < 3 →
            requests.status_code (limited_server (request_of "fake_token" p)) = 200
            ∧ page_items (limited_server (request_of "fake_token" p)) ≠ []) as Hgood.
  { intros p Hp. assert (p = 1 ∨ p = 2) as [-> | ->] by lia;
      (split; [reflexivity|discriminate]). }
  assert (requests.status_code (limited_server (request_of "fake_token" 3)) ≠ 200)
    as Hbad by discriminate.
  assert (10 ≤ 10)%nat as Hfuel by lia.
  repeat (split; [assumption|]).
  exact (C1_non_success_truncates sample_environ limited_server "fake_token" 3 10 []
           Henv Htok HN Hgood Hbad Hfuel).
Defined.

(** C2, as amended: when every answer has status 200, the fetcher returns a
    frame whose row count is the sum of the item counts of the pages that
    come before the first page without items (of all ten pages when none of
    them is empty).  The pages requested are 1, 2, ... up to that first
    empty page and at most ten, each with [per_page] = 100.  The loop takes
    every item of a page, so the frame has at most 1000 rows when the server
    returns no more items than its request asks for on each of the pages
    1..10. *)
Theorem C2_row_count_until_first_empty_page
    (environ : string → option string) (srv : Server) (github_token : string)
    (fuel : nat) (tr : trace) :
  environ "GITHUB_TOKEN" = Some github_token →
  github_token ≠ EmptyString →
  (∀ r, requests.status_code (srv r) = 200) →
  (10 ≤ fuel)%nat →
  let k := pages_before_empty srv github_token 1 10 in
  let count := λ p, length (page_items (srv (request_of github_token p))) in
  ∃ df tr',
    fetch_github_repos fuel environ srv tr = (Return (Some df), tr')
    ∧ (k ≤ 10)%nat
    ∧ (∀ p, 1 ≤ p < 1 + Z.of_nat k → count p ≠ 0%nat)
    ∧ ((k < 10)%nat → count (1 + Z.of_nat k) = 0%nat)
    ∧ RawTable.len df = sum_list (count <$> page_range 1 k)
    ∧ http_requests tr'
      = http_requests tr
        ++ (request_of github_token <$> page_range 1 (Nat.min (S k) 10))
    ∧ Forall (λ r, requests.per_page (requests.params r) = 100)
             (request_of github_token <$> page_range 1 (Nat.min (S k) 10))
    ∧ ((∀ p, 1 ≤ p ≤ 10 →
          Z.of_nat (count p)
          ≤ requests.per_page (requests.params (request_of github_token p))) →
       (RawTable.len df ≤ 1000)%nat).
Proof.
  intros Henv Htok Hok Hfuel k count.
  pose proof (pages_before_empty_le srv github_token 10 1) as Hk. fold k in Hk.
  destruct (while_page_run srv github_token k 1 params0 [] tr fuel)
    as (tr1 & Hrun & Htr1).
  - done.
  - lia.
  - intros p Hp. split; [apply Hok|].
    by apply (pages_before_empty_nonempty srv github_token 10 1).
  - intros Hlt [_ Hne]. apply Hne.
    apply (pages_before_empty_stop srv github_token 10 1). fold k. lia.
  - lia.
  - destruct (fetch_github_repos_returns environ srv github_token fuel tr _ tr1
                Henv Htok Hrun) as (tr' & Hret & Htr').
    eexists _, tr'. split; [exact Hret|].
    assert (RawTable.len (pd_DataFrame
              ([] ++ concat (page_records srv github_token <$> page_range 1 k)))
            = sum_list (count <$> page_range 1 k)) as Hlen.
    { by rewrite len_pd_DataFrame, app_nil_l, length_concat_page_records. }
    assert ((if decide (1 + Z.of_nat k ≤ 10) then S k else k) = Nat.min (S k) 10)
      as Hm by (case_decide; lia).
    rewrite Hm in Htr1.
    split; [done|]. split; [|split; [|split; [done|split; [|split]]]].
    + intros p Hp. unfold count.
      pose proof (pages_before_empty_nonempty srv github_token 10 1 p Hp) as Hne.
      by destruct (page_items _).
    + intros Hlt. unfold count, k in *.
      by rewrite (pages_before_empty_stop srv github_token 10 1 Hlt).
    + by rewrite Htr', Htr1.
    + apply Forall_fmap, Forall_forall. done.
    + intros Hserver. rewrite Hlen.
      trans (length (count <$> page_range 1 k) * 100)%nat.
      * apply sum_list_bounded, Forall_fmap, Forall_forall.
        intros p Hin%elem_of_page_range.
        pose proof (Hserver p ltac:(lia)) as Hp.
        change (requests.per_page _) with 100 in Hp. simpl. lia.
      * rewrite length_fmap, length_page_range. lia.
Qed.

Lemma C2_row_count_until_first_empty_page_witness :
  sample_environ "GITHUB_TOKEN" = Some "fake_token"
  ∧ "fake_token" ≠ EmptyString
  ∧ (∀ r, requests.status_code (sample_server r) = 200)
  ∧ (10 ≤ 10)%nat
  ∧ let k := pages_before_empty sample_server "fake_token" 1 10 in
    let count := λ p, length (page_items (sample_server (request_of "fake_token" p))) in
    ∃ df tr',
      fetch_github_repos 10 sample_environ sample_server [] = (Return (Some df), tr')
      ∧ (k ≤ 10)%nat
      ∧ (∀ p, 1 ≤ p < 1 + Z.of_nat k → count p ≠ 0%nat)
      ∧ ((k < 10)%nat → count (1 + Z.of_nat k) = 0%nat)
      ∧ RawTable.len df = sum_list (count <$> page_range 1 k)
      ∧ http_requests tr'
        = http_requests []
          ++ (request_of "fake_token" <$> page_range 1 (Nat.min (S k) 10))
      ∧ Forall (λ r, requests.per_page (requests.params r) = 100)
               (request_of "fake_token" <$> page_range 1 (Nat.min (S k) 10))
      ∧ ((∀ p, 1 ≤ p ≤ 10 →
            Z.of_nat (count p)
            ≤ requests.per_page (requests.params (request_of "fake_token" p))) →
         (RawTable.len df ≤ 1000)%nat).
Proof.
  assert (sample_environ "GITHUB_TOKEN" = Some "fake_token") as Henv by reflexivity.
  assert ("fake_token" ≠ EmptyString) as Htok by discriminate.
  assert (∀ r, requests.status_code (sample_server r) = 200) as Hok
    by (intros r; reflexivity).
  assert (10 ≤ 10)%nat as Hfuel by lia.
  repeat (split; [assumption|]).
  exact (C2_row_count_until_first_empty_page
           sample_environ sample_server "fake_token" 10 [] Henv Htok Hok Hfuel).
Defined.

(** C2, where the claim as stated fails: every answer has status 200 and
    the frame has more than 1000 rows.  The server puts 101 items on each
    page, the loop takes them all, and ten requests give 1010 rows. *)
Lemma C2_more_items_than_per_page :
  (∀ r, requests.status_code (crowded_server r) = 200)
  ∧ ∃ df tr',
      fetch_github_repos 10 sample_environ crowded_server [] = (Return (Some df), tr')
      ∧ length (http_requests tr') = 10%nat
      ∧ RawTable.len df = 1010%nat
      ∧ ¬ (RawTable.len df ≤ 1000)%nat.
Proof.
  split; [done|]. eexists _, _. split; [vm_compute; reflexivity|].
  split; [reflexivity|]. split; [reflexivity|]. vm_compute. lia.
Qed.

(** The mock server of the repository's test: three rows from two pages and
    three requests, the third one answered by the empty page. *)
Example fetch_sample_server :
  ∃ df tr',
    fetch_github_repos 10 sample_environ sample_server [] = (Return (Some df), tr')
    ∧ RawTable.len df = 3%nat
    ∧ RawTable.name df = ["repo1"; "repo2"; "repo3"]
    ∧ http_requests tr' = request_of "fake_token" <$> [1; 2; 3].
Proof. eexists _, _. split; [vm_compute; reflexivity|]. repeat split. Qed.

(** C5: when GITHUB_TOKEN is unset or empty, the fetcher raises
    EnvironmentError after logging the error and before any HTTP request: the
    trace gains one log line and no request. *)
Theorem C5_missing_token_raises_before_any_request
    (environ : string → option string) (srv : Server) (fuel : nat) (tr : trace) :
  environ "GITHUB_TOKEN" = None ∨ environ "GITHUB_TOKEN" = Some EmptyString →
  ∃ tr',
    fetch_github_repos fuel environ srv tr
    = (Raise (EnvironmentError "GitHub token not found."), tr')
    ∧ tr' = tr ++ [Log ERROR
        "GitHub token not found. Please set the GITHUB_TOKEN environment variable."]
    ∧ http_requests tr' = http_requests tr.
Proof.
  intros Henv. eexists. split; [|split; [reflexivity|by requests_of_trace]].
  unfold fetch_github_repos. by destruct Henv as [-> | ->].
Qed.

Lemma C5_missing_token_raises_before_any_request_witness :
  (blank_environ "GITHUB_TOKEN" = None
   ∨ blank_environ "GITHUB_TOKEN" = Some EmptyString)
  ∧ ∃ tr',
      fetch_github_repos 10 blank_environ sample_server []
      = (Raise (EnvironmentError "GitHub token not found."), tr')
      ∧ tr' = [] ++ [Log ERROR
          "GitHub token not found. Please set the GITHUB_TOKEN environment variable."]
      ∧ http_requests tr' = http_requests [].
Proof.
  assert (blank_environ "GITHUB_TOKEN" = None
          ∨ blank_environ "GITHUB_TOKEN" = Some EmptyString) as Henv
    by (right; reflexivity).
  split; [exact Henv|].
  exact (C5_missing_token_raises_before_any_request blank_environ sample_server 10 []
           Henv).
Defined.

End fetch_data_spec.

(** * Integers of 64 bits and binary64 numbers *)

Module int64_facts.
Import int64.

Lemma wrap_in_range (z : Z) : in_range (wrap z).
Proof.
  unfold in_range, wrap, min_value, max_value.
  pose proof (Z.mod_pos_bound (z + 2 ^ 63) (2 ^ 64) ltac:(done)). lia.
Qed.

Lemma wrap_id (z : Z) : in_range z → wrap z = z.
Proof.
  unfold in_range, wrap, min_value, max_value. intros Hz.
  rewrite Z.mod_small; lia.
Qed.

Lemma wrap_add_wrap (a b : Z) : wrap (a + wrap b) = wrap (a + b).
Proof.
  unfold wrap.
  replace (a + ((b + 2 ^ 63) `mod` 2 ^ 64 - 2 ^ 63) + 2 ^ 63)
    with (a + (b + 2 ^ 63) `mod` 2 ^ 64) by lia.
  rewrite Zplus_mod_idemp_r. do 2 f_equal. lia.
Qed.


Lemma wrap_bounds (z : Z) : - 2 ^ 64 < wrap z < 2 ^ 64.
Proof.
  pose proof (wrap_in_range z) as Hz.
  unfold in_range, min_value, max_value in Hz.
  change (2 ^ 64) with 18446744073709551616.
  change (2 ^ 63) with 9223372036854775808 in *. lia.
Qed.
End int64_facts.

Module float64_facts.

Lemma digits2_pos_log2 (p : positive) :
  Z.pos (digits2_pos p) = Z.log2 (Z.pos p) + 1.
Proof.
  induction p as [p IH|p IH|]; simpl digits2_pos; [| |done].
  - rewrite Pos2Z.inj_succ, IH.
    change (Z.pos p~1) with (2 * Z.pos p + 1). rewrite Z.log2_succ_double; lia.
  - rewrite Pos2Z.inj_succ, IH.
    change (Z.pos p~0) with (2 * Z.pos p). rewrite Z.log2_double; lia.
Qed.

Lemma fexp_normal (e : Z) : -1021 ≤ e → fexp 53 1024 e = e - 53.
Proof. intros. unfold fexp, emin. lia. Qed.

Lemma iter_pos_nat {A} (f : A → A) (n : positive) (x : A) :
  SpecFloat.iter_pos f n x = Nat.iter (Pos.to_nat n) f x.
Proof.
  revert x. induction n as [n IH|n IH|]; intros x; simpl SpecFloat.iter_pos; [| |done].
  - rewrite !IH, Pos2Nat.inj_xI.
    replace (S (2 * Pos.to_nat n)) with (Pos.to_nat n + (Pos.to_nat n + 1))%nat by lia.
    rewrite !Nat.iter_add. simpl. done.
  - rewrite !IH, Pos2Nat.inj_xO.
    replace (2 * Pos.to_nat n)%nat with (Pos.to_nat n + Pos.to_nat n)%nat by lia.
    by rewrite Nat.iter_add.
Qed.

Lemma shr_m_shr_1 (mrs : shr_record) :
  0 ≤ shr_m mrs → shr_m (shr_1 mrs) = shr_m mrs `div` 2.
Proof.
  destruct mrs as [m r s]. simpl. intros Hm.
  destruct m as [|q|q]; [done| |lia].
  destruct q as [p|p|]; simpl shr_m.
  - change (Z.pos p~1) with (2 * Z.pos p + 1).
    apply Z.div_unique with 1; lia.
  - change (Z.pos p~0) with (2 * Z.pos p).
    apply Z.div_unique with 0; lia.
  - done.
Qed.

Lemma shr_m_iter (k : nat) (mrs : shr_record) :
  0 ≤ shr_m mrs →
  shr_m (Nat.iter k shr_1 mrs) = shr_m mrs `div` 2 ^ Z.of_nat k.
Proof.
  intros Hm. induction k as [|k IH].
  - simpl. by rewrite Z.div_1_r.
  - rewrite Nat2Z.inj_succ, Z.pow_succ_r by lia. simpl Nat.iter.
    rewrite shr_m_shr_1; rewrite IH.
    + rewrite Z.div_div by lia. f_equal. lia.
    + apply Z.div_pos; lia.
Qed.

Lemma digits2_pos_bounds (p : positive) (k : Z) :
  Z.pos (digits2_pos p) = k ↔ 2 ^ (k - 1) ≤ Z.pos p < 2 ^ k.
Proof.
  rewrite digits2_pos_log2. split.
  - intros <-. replace (Z.log2 (Z.pos p) + 1 - 1) with (Z.log2 (Z.pos p)) by lia.
    rewrite Z.add_1_r. apply Z.log2_spec. lia.
  - intros Hk.
    assert (0 ≤ k - 1).
    { destruct (decide (0 ≤ k - 1)) as [|Hneg]; [done|].
      destruct (decide (k = 0)) as [->|Hk0]; [simpl in Hk; lia|].
      rewrite (Z.pow_neg_r 2 k) in Hk by lia. lia. }
    rewrite (Z.log2_unique (Z.pos p) (k - 1)); [lia|done|].
    replace (Z.succ (k - 1)) with k by lia. done.
Qed.

Lemma shr_shift (mrs : shr_record) (e n : Z) :
  0 ≤ shr_m mrs → 0 < n →
  ∃ mrs', shr mrs e n = (mrs', e + n) ∧ shr_m mrs' = shr_m mrs `div` 2 ^ n.
Proof.
  intros Hm Hn. destruct n as [|p|p]; [lia| |lia]. simpl shr.
  eexists. split; [done|].
  rewrite iter_pos_nat, shr_m_iter by done. by rewrite positive_nat_Z.
Qed.

Lemma binary_round_aux_normal (sx : bool) (m : positive) (e : Z) :
  Z.pos (digits2_pos m) = 53 → -1074 ≤ e ≤ 971 →
  binary_round_aux 53 1024 sx (Z.pos m) e loc_Exact = S754_finite sx m e.
Proof.
  intros Hd He. unfold binary_round_aux, shr_fexp. simpl Zdigits2. rewrite Hd.
  assert (fexp 53 1024 (53 + e) - e = 0) as -> by (unfold fexp, emin; lia).
  simpl. rewrite Hd.
  assert (fexp 53 1024 (53 + e) - e = 0) as -> by (unfold fexp, emin; lia).
  simpl. by rewrite (proj2 (Z.leb_le e (1024 - 53))) by lia.
Qed.

Lemma round_nearest_even_bounds (m : Z) (l : location) :
  m ≤ round_nearest_even m l ≤ m + 1.
Proof. destruct l as [|[]]; simpl; [lia| |lia|lia]. destruct (Z.even m); lia. Qed.

(** Rounding a mantissa with more than 53 digits. *)
Lemma binary_round_aux_shift (sx : bool) (m : positive) (e n : Z) (l : location) :
  Z.pos (digits2_pos m) = 53 + n → 0 < n → -1074 ≤ e → e + n + 1 ≤ 971 →
  ∃ m' e',
    binary_round_aux 53 1024 sx (Z.pos m) e l = S754_finite sx m' e'
    ∧ Z.pos (digits2_pos m') = 53
    ∧ e + n ≤ e' ≤ e + n + 1.
Proof.
  intros Hd Hn He He'. unfold binary_round_aux, shr_fexp. simpl Zdigits2. rewrite Hd.
  assert (fexp 53 1024 (53 + n + e) - e = n) as -> by (unfold fexp, emin; lia).
  destruct (shr_shift (shr_record_of_loc (Z.pos m) l) e n) as (mrs1 & -> & Hm1);
    [by destruct l as [|[]]|done|].
  assert (shr_m (shr_record_of_loc (Z.pos m) l) = Z.pos m) as Hrec
    by (by destruct l as [|[]]).
  rewrite Hrec in Hm1.
  apply digits2_pos_bounds in Hd.
  replace (53 + n - 1) with (52 + n) in Hd by lia.
  rewrite !Z.pow_add_r in Hd by lia.
  assert (0 < 2 ^ n) by (apply Z.pow_pos_nonneg; lia).
  assert (2 ^ 52 ≤ shr_m mrs1 < 2 ^ 53) as Hm1b.
  { rewrite Hm1. split.
    - apply Z.div_le_lower_bound; lia.
    - apply Z.div_lt_upper_bound; lia. }
  pose proof (round_nearest_even_bounds (shr_m mrs1) (loc_of_shr_record mrs1)) as Hr.
  set (m2 := round_nearest_even (shr_m mrs1) (loc_of_shr_record mrs1)) in *.
  clearbody m2. destruct m2 as [|p2|p2]; [lia| |lia].
  destruct (decide (Z.pos p2 < 2 ^ 53)) as [Hlt|Hge].
  - assert (Z.pos (digits2_pos p2) = 53) as Hd2
      by (apply digits2_pos_bounds; change (53 - 1) with 52; lia).
    simpl Zdigits2. rewrite Hd2.
    assert (fexp 53 1024 (53 + (e + n)) - (e + n) = 0) as ->
      by (unfold fexp, emin; lia).
    simpl. rewrite (proj2 (Z.leb_le (e + n) (1024 - 53))) by lia.
    eexists _, _. split; [done|]. split; [done|lia].
  - assert (Z.pos p2 = 2 ^ 53) as Hp2 by lia.
    assert (Z.pos (digits2_pos p2) = 54) as Hd2
      by (apply digits2_pos_bounds; rewrite Hp2; change (54 - 1) with 53; lia).
    simpl Zdigits2. rewrite Hd2.
    assert (fexp 53 1024 (54 + (e + n)) - (e + n) = 1) as ->
      by (unfold fexp, emin; lia).
    assert (p2 = 9007199254740992%positive) as -> by lia.
    simpl. rewrite (proj2 (Z.leb_le (e + n + 1) (1024 - 53))) by lia.
    eexists _, _. split; [done|]. split; [done|lia].
Qed.

Lemma pos_iter_xO (p k : positive) :
  Z.pos (Pos.iter xO p k) = Z.pos p * 2 ^ Z.pos k.
Proof.
  induction k as [|k IH] using Pos.peano_ind.
  - simpl. lia.
  - rewrite Pos.iter_succ, Pos2Z.inj_succ, Z.pow_succ_r by lia.
    rewrite Pos2Z.inj_xO, IH. lia.
Qed.

(** The conversion of a positive integer below 2^64: a normal number, and
    the integer itself below 2^53. *)
Lemma binary_round_int (sx : bool) (p : positive) :
  Z.pos p < 2 ^ 64 →
  ∃ m e,
    binary_round 53 1024 sx p 0 = S754_finite sx m e
    ∧ Z.pos (digits2_pos m) = 53
    ∧ -52 ≤ e ≤ 12
    ∧ (Z.pos p < 2 ^ 53 → e ≤ 0 ∧ Z.pos m = Z.pos p * 2 ^ (- e)).
Proof.
  intros Hp. unfold binary_round, shl_align. rewrite Z.add_0_r.
  set (k := Z.pos (digits2_pos p)).
  assert (Z.pos (digits2_pos p) = k) as Hd by done.
  pose proof (proj1 (digits2_pos_bounds p k) Hd) as Hb.
  assert (1 ≤ k ≤ 64) as Hk.
  { split; [subst k; lia|].
    destruct (decide (k ≤ 64)) as [|Hgt]; [done|].
    assert (2 ^ 64 ≤ 2 ^ (k - 1)) by (apply Z.pow_le_mono_r; lia). lia. }
  clearbody k. rewrite fexp_normal by lia.
  destruct (k - 53 - 0) as [|s|s] eqn:Hs.
  - rewrite binary_round_aux_normal by lia.
    eexists _, _. split; [done|]. split; [lia|]. split; [lia|].
    intros _. split; [lia|]. simpl. lia.
  - assert (Z.pos (digits2_pos p) = 53 + Z.pos s) as Hd' by lia.
    destruct (binary_round_aux_shift sx p 0 (Z.pos s) loc_Exact Hd')
      as (m' & e' & -> & Hm' & He'); [lia..|].
    exists m', e'. split; [done|]. split; [done|]. split; [lia|].
    intros Hlt.
    assert (2 ^ 53 ≤ 2 ^ (k - 1)) by (apply Z.pow_le_mono_r; lia). lia.
  - pose proof (pos_iter_xO p s) as Hm.
    assert (0 < 2 ^ Z.pos s) by (apply Z.pow_pos_nonneg; lia).
    assert (Z.pos (digits2_pos (Pos.iter xO p s)) = 53) as Hd'.
    { apply digits2_pos_bounds. rewrite Hm.
      assert (2 ^ (53 - 1) = 2 ^ (k - 1) * 2 ^ Z.pos s) as ->
        by (rewrite <-Z.pow_add_r by lia; f_equal; lia).
      assert (2 ^ 53 = 2 ^ k * 2 ^ Z.pos s) as ->
        by (rewrite <-Z.pow_add_r by lia; f_equal; lia).
      split.
      - apply Z.mul_le_mono_nonneg_r; lia.
      - apply Z.mul_lt_mono_pos_r; lia. }
    rewrite binary_round_aux_normal by (done || lia).
    eexists _, _. split; [done|]. split; [done|]. split; [lia|].
    intros _. split; [lia|]. rewrite Hm. do 2 f_equal. lia.
Qed.

Lemma of_int_normal (z : Z) :
  z ≠ 0 → - 2 ^ 64 < z < 2 ^ 64 →
  ∃ m e,
    of_int z = S754_finite (bool_decide (z < 0)) m e
    ∧ Z.pos (digits2_pos m) = 53
    ∧ -52 ≤ e ≤ 12
    ∧ (Z.abs z < 2 ^ 53 → e ≤ 0 ∧ Z.pos m = Z.abs z * 2 ^ (- e)).
Proof.
  intros Hz Hb. unfold of_int, binary_normalize.
  destruct z as [|p|p]; [done| |].
  - rewrite bool_decide_eq_false_2 by lia. apply binary_round_int. lia.
  - rewrite bool_decide_eq_true_2 by lia. apply binary_round_int. lia.
Qed.

Lemma truediv_one (sx : bool) (m : positive) (e : Z) :
  Z.pos (digits2_pos m) = 53 → -52 ≤ e ≤ 970 →
  truediv (S754_finite sx m e) (of_int 1) = S754_finite sx m e.
Proof.
  intros Hd He.
  change (of_int 1) with (S754_finite false 4503599627370496 (-52)).
  unfold truediv, SFdiv, SFdiv_core_binary.
  change (Zdigits2 (Z.pos m)) with (Z.pos (digits2_pos m)). rewrite Hd.
  change (Zdigits2 (Z.pos 4503599627370496)) with 53.
  assert (Z.min (fexp 53 1024 (53 + e - (53 + -52))) (e - -52) = e - 1) as ->
    by (unfold fexp, emin; lia).
  replace (e - -52 - (e - 1)) with 53 by lia.
  rewrite Z.shiftl_mul_pow2 by lia.
  assert (Z.div_eucl (Z.pos m * 2 ^ 53) 4503599627370496 = (Z.pos m~0, 0)) as ->.
  { destruct (Z.div_eucl _ _) as [q r] eqn:Hqr.
    assert (q = (Z.pos m * 2 ^ 53) `div` 4503599627370496) as ->
      by (unfold Z.div; by rewrite Hqr).
    assert (r = (Z.pos m * 2 ^ 53) `mod` 4503599627370496) as ->
      by (unfold Z.modulo; by rewrite Hqr).
    replace (Z.pos m * 2 ^ 53) with (Z.pos m~0 * 4503599627370496) by lia.
    by rewrite Z.div_mul, Z.mod_mul. }
  change (new_location 4503599627370496 0) with loc_Exact.
  rewrite xorb_false_r.
  unfold binary_round_aux at 1, shr_fexp at 1.
  change (Zdigits2 (Z.pos m~0)) with (Z.pos (Pos.succ (digits2_pos m))).
  rewrite Pos2Z.inj_succ, Hd.
  assert (fexp 53 1024 (Z.succ 53 + (e - 1)) - (e - 1) = 1) as ->
    by (unfold fexp, emin; lia).
  cbn [shr SpecFloat.iter_pos shr_record_of_loc shr_1 shr_m loc_of_shr_record
       round_nearest_even].
  replace (e - 1 + 1) with e by lia.
  cbn [orb round_nearest_even].
  unfold shr_fexp. change (Zdigits2 (Z.pos m)) with (Z.pos (digits2_pos m)).
  rewrite Hd.
  assert (fexp 53 1024 (53 + e) - e = 0) as -> by (unfold fexp, emin; lia).
  simpl. by rewrite (proj2 (Z.leb_le e (1024 - 53))) by lia.
Qed.

Lemma of_int_0 : of_int 0 = S754_zero false.
Proof. reflexivity. Qed.

(** A non-zero int64 number becomes a non-zero finite float of its sign. *)
Lemma of_int_nonzero (z : Z) :
  z ≠ 0 → int64.in_range z →
  ∃ m e, of_int z = S754_finite (bool_decide (z < 0)) m e.
Proof.
  intros Hz Hr. unfold int64.in_range, int64.min_value, int64.max_value in Hr.
  destruct (of_int_normal z Hz) as (m & e & -> & _).
  - change (2 ^ 64) with 18446744073709551616.
    change (2 ^ 63) with 9223372036854775808 in *. lia.
  - by exists m, e.
Qed.

(** Dividing the float of an int64 number by 1.0 changes nothing. *)
Lemma truediv_of_int_one (z : Z) :
  int64.in_range z → truediv (of_int z) (of_int 1) = of_int z.
Proof.
  intros Hr. destruct (decide (z = 0)) as [->|Hz]; [reflexivity|].
  unfold int64.in_range, int64.min_value, int64.max_value in Hr.
  destruct (of_int_normal z Hz) as (m & e & -> & Hd & He & _).
  - change (2 ^ 64) with 18446744073709551616.
    change (2 ^ 63) with 9223372036854775808 in *. lia.
  - apply truediv_one; [done|lia].
Qed.

(** Below 2^53 in magnitude the conversion is exact. *)
Lemma float_value_of_int (z : Z) :
  Z.abs z < 2 ^ 53 → float_value (of_int z) = Some (Qc_of_Z z).
Proof.
  intros Hz. destruct (decide (z = 0)) as [->|Hne]; [reflexivity|].
  destruct (of_int_normal z Hne) as (m & e & -> & _ & _ & Hexact).
  { change (2 ^ 64) with 18446744073709551616.
    change (2 ^ 53) with 9007199254740992 in Hz. lia. }
  destruct (Hexact Hz) as [He Hm]. unfold float_value.
  assert ((if decide (0 ≤ e) then Qc_of_Z (Z.pos m * 2 ^ e)
           else (Qc_of_Z (Z.pos m) / Qc_of_Z (2 ^ (- e)))%Qc)
          = Qc_of_Z (Z.abs z)) as ->.
  { case_decide.
    - assert (e = 0) as -> by lia. simpl in Hm. f_equal. lia.
    - rewrite Hm, Z2Qc_inj_mul.
      assert (Qc_of_Z (2 ^ (- e)) ≠ 0%Qc).
      { rewrite <-Z2Qc_inj_0. intros Heq%Z2Qc_inj.
        assert (0 < 2 ^ (- e)) by (apply Z.pow_pos_nonneg; lia). lia. }
      by rewrite Qcdiv_mult_l. }
  f_equal. case_bool_decide.
  - rewrite <-Z2Qc_inj_opp. f_equal. lia.
  - f_equal. lia.
Qed.
Lemma float_value_of_int_2_53 :
  float_value (of_int (2 ^ 53)) = Some (Qc_of_Z (2 ^ 53)).
Proof. reflexivity. Qed.
End float64_facts.

(** The dates of the example frames parse, and the clock of the examples
    can be subtracted from them. *)
Ltac sample_dates :=
  split; eexists;
  (split; [done|split; [reflexivity|split; [reflexivity|
     apply (bool_decide_unpack _); vm_compute; exact I]]]).

Module process_data_spec.
Import process_data.

(** *** Column operations *)






Lemma replace_0_1_nonzero (f : Z) : replace 0 1 f ≠ 0.
Proof. unfold replace. case_bool_decide; lia. Qed.

(** The category of a star count, interval by interval. *)
Lemma cut_stars (s : Z) :
  cut bins labels s
  = if decide (s ≤ 0) then None
    else if decide (s ≤ 10000) then Some "Low Popularity"
    else if decide (s ≤ 50000) then Some "Moderate Popularity"
    else Some "High Popularity".
Proof.
  unfold bins, labels. cbn [cut edge_lt_int int_le_edge].
  repeat case_decide; repeat case_bool_decide; simpl; try done; lia.
Qed.


(** *** What a run of [process_data] produces *)

Section run.
Context (to_datetime : list string → option Datetimes.t) (now : Timestamp).

(** When both date columns parse into instants with a time zone the
    function returns, after its two log lines, and its columns are the
    following functions of the input columns. *)
Lemma process_data_run (df : RawTable.t) (tr : trace) :
  dates_parse to_datetime now df →
  ∃ out creation last,
    process_data to_datetime now df tr
    = (Return out,
       tr ++ [Log INFO "Processing data..."; Log INFO "Data processing complete."])
    ∧ parses to_datetime now (RawTable.creation_date df) creation
    ∧ parses to_datetime now (RawTable.last_commit_date df) last
    ∧ ProcessedTable.name out = RawTable.name df
    ∧ ProcessedTable.stars out = RawTable.stars df
    ∧ ProcessedTable.forks out = RawTable.forks df
    ∧ ProcessedTable.repo_url out = RawTable.repo_url df
    ∧ ProcessedTable.creation_date out = creation
    ∧ ProcessedTable.last_commit_date out = last
    ∧ ProcessedTable.language out = fillna "Unknown" <$> RawTable.language df
    ∧ ProcessedTable.language_known out
      = (λ l, bool_decide (l ≠ "Unknown")) <$> ProcessedTable.language out
    ∧ ProcessedTable.repo_age_days out = (λ t, dt_days (now - t)) <$> creation
    ∧ ProcessedTable.repo_age_years out
      = (λ t, truediv (of_int (dt_days (now - t))) (of_int 365)) <$> creation
    ∧ ProcessedTable.days_since_last_commit out = (λ t, dt_days (now - t)) <$> last
    ∧ ProcessedTable.is_active out
      = (λ d, bool_decide (d ≤ 180)) <$> ProcessedTable.days_since_last_commit out
    ∧ ProcessedTable.stars_per_year out
      = zip_with (λ s y, truediv (of_int s) y) (RawTable.stars df)
          (ProcessedTable.repo_age_years out)
    ∧ ProcessedTable.forks_per_year out
      = zip_with (λ f y, truediv (of_int f) y) (RawTable.forks df)
          (ProcessedTable.repo_age_years out)
    ∧ ProcessedTable.engagement_rate out
      = zip_with (λ sf y, truediv (of_int sf) y)
          (zip_with int64.add (RawTable.stars df) (RawTable.forks df))
          (ProcessedTable.repo_age_years out)
    ∧ ProcessedTable.popularity_score out
      = zip_with (λ s f, int64.add s (int64.mul 2 f))
          (RawTable.stars df) (RawTable.forks df)
    ∧ ProcessedTable.star_to_fork_ratio out
      = zip_with (λ s f, truediv (of_int s) (of_int f))
          (RawTable.stars df) (replace 0 1 <$> RawTable.forks df)
    ∧ ProcessedTable.category out = cut bins labels <$> RawTable.stars df
    ∧ ProcessedTable.popularity_score_normalized out
      = let ps := ProcessedTable.popularity_score out in
        if val_eq (series_min ps) (series_max ps) then
          (λ x, Int (if val_eq (Some x) (series_max ps) then 100 else 0)) <$> ps
        else
          match series_min ps, series_max ps with
          | Some lo, Some hi =>
            (λ x, Float (truediv (of_int (int64.mul 100 (int64.sub x lo)))
                                 (of_int (int64.sub hi lo)))) <$> ps
          | _, _ => (λ _, Float S754_nan) <$> ps
          end.
Proof.
  intros [[creation Hcreation] [last Hlast]].
  pose proof Hcreation as (Hc_ne & Hc & _ & Hc_fits).
  pose proof Hlast as (Hl_ne & Hl & _ & Hl_fits).
  assert (Forall Timedelta_fits ((λ t, now - t) <$> creation)) as Hc_fits'
    by (by apply Forall_fmap).
  assert (Forall Timedelta_fits ((λ t, now - t) <$> last)) as Hl_fits'
    by (by apply Forall_fmap).
  unfold process_data, pd_to_datetime.
  destruct (RawTable.creation_date df) as [|c cs] eqn:Hcs; [done|].
  destruct (RawTable.last_commit_date df) as [|l ls] eqn:Hls; [done|].
  rewrite Hc, Hl.
  eexists _, creation, last. split; [|split; [done|split; [done|]]].
  - unfold Timestamp_sub, mbind, M_bind, logging.info, emit, mret, M_ret.
    cbn [Datetimes.tz_aware Datetimes.instants].
    rewrite !(decide_True _ _ Hc_fits'), (decide_True _ _ Hl_fits').
    rewrite <-app_assoc. reflexivity.
  - cbn [ProcessedTable.name ProcessedTable.stars ProcessedTable.forks
         ProcessedTable.repo_url ProcessedTable.creation_date
         ProcessedTable.last_commit_date ProcessedTable.language
         ProcessedTable.language_known ProcessedTable.repo_age_days
         ProcessedTable.repo_age_years ProcessedTable.days_since_last_commit
         ProcessedTable.is_active ProcessedTable.stars_per_year
         ProcessedTable.forks_per_year ProcessedTable.engagement_rate
         ProcessedTable.popularity_score ProcessedTable.star_to_fork_ratio
         ProcessedTable.category ProcessedTable.popularity_score_normalized
         Datetimes.instants].
    rewrite <-!list_fmap_compose. repeat split.
Qed.
End run.

Ltac run_process_data to_datetime now df tr Hdates :=
  let out := fresh "out" in
  let creation := fresh "creation" in
  let last := fresh "last" in
  destruct (process_data_run to_datetime now df tr Hdates)
    as (out & creation & last & Hrun & Hcreation & Hlast & Hname & Hstars & Hforks
        & Hurl & Hcdate & Hldate & Hlanguage & Hknown & Hagedays & Hageyears & Hdays
        & Hactive & Hspy & Hfpy & Hengagement & Hscore & Hratio & Hcategory
        & Hnormalized);
  exists out; eexists; split; [exact Hrun|].

(** C8, as amended: in every row of the processed table popularity_score is
    stars + 2 * forks computed in 64 bits, which is stars + 2 * forks itself
    whenever that number is an int64 number and that number wrapped around
    otherwise; a row with 100 stars and 10 forks gets 120. *)
Theorem C8_popularity_score
    (to_datetime : list string → option Datetimes.t) (now : Timestamp)
    (df : RawTable.t) (tr : trace) :
  dates_parse to_datetime now df →
  ∃ out tr',
    process_data to_datetime now df tr = (Return out, tr')
    ∧ ∀ (i : nat) (s f : Z),
        RawTable.stars df !! i = Some s →
        RawTable.forks df !! i = Some f →
        ProcessedTable.popularity_score out !! i = Some (int64.wrap (s + 2 * f))
        ∧ (int64.in_range (s + 2 * f) →
           ProcessedTable.popularity_score out !! i = Some (s + 2 * f))
        ∧ (s = 100 → f = 10 → ProcessedTable.popularity_score out !! i = Some 120).
Proof.
  intros Hdates. run_process_data to_datetime now df tr Hdates.
  intros i s f Hs Hf.
  assert (ProcessedTable.popularity_score out !! i = Some (int64.wrap (s + 2 * f)))
    as Hi.
  { rewrite Hscore. apply lookup_zip_with_Some. exists s, f.
    split; [|done]. unfold int64.add, int64.mul.
    by rewrite int64_facts.wrap_add_wrap. }
  split; [done|]. split.
  - intros Hr. by rewrite Hi, int64_facts.wrap_id.
  - intros -> ->. by rewrite Hi.
Qed.

Lemma C8_popularity_score_witness :
  dates_parse sample_to_datetime sample_now sample_raw_data ∧
  ∃ out tr',
    process_data sample_to_datetime sample_now sample_raw_data [] = (Return out, tr')
    ∧ ∀ (i : nat) (s f : Z),
        RawTable.stars sample_raw_data !! i = Some s →
        RawTable.forks sample_raw_data !! i = Some f →
        ProcessedTable.popularity_score out !! i = Some (int64.wrap (s + 2 * f))
        ∧ (int64.in_range (s + 2 * f) →
           ProcessedTable.popularity_score out !! i = Some (s + 2 * f))
        ∧ (s = 100 → f = 10 → ProcessedTable.popularity_score out !! i = Some 120).
Proof.
  assert (dates_parse sample_to_datetime sample_now sample_raw_data) as Hdates
    by sample_dates.
  split; [exact Hdates|].
  exact (C8_popularity_score sample_to_datetime sample_now sample_raw_data [] Hdates).
Defined.

(** C8, where the claim as stated fails: with 2^63 - 1 stars and 1 fork,
    stars + 2 * forks is 2^63 + 1, and the score of the row is
    -(2^63 - 1). *)
Lemma C8_score_wraps_around :
  ∃ out tr',
    process_data sample_to_datetime sample_now overflowing_raw_data []
    = (Return out, tr')
    ∧ RawTable.stars overflowing_raw_data !! 0%nat = Some (2 ^ 63 - 1)
    ∧ RawTable.forks overflowing_raw_data !! 0%nat = Some 1
    ∧ ProcessedTable.popularity_score out !! 0%nat = Some (- (2 ^ 63 - 1))
    ∧ ProcessedTable.popularity_score out !! 0%nat ≠ Some ((2 ^ 63 - 1) + 2 * 1).
Proof.
  eexists _, _. split; [vm_compute; reflexivity|]. repeat split. discriminate.
Qed.

(** C6, as amended: in every row star_to_fork_ratio is the float64 quotient
    of stars by forks, both converted to float64, with 1 in the place of
    forks when forks = 0.  The divisor is never zero, as an integer and as
    a float.  When forks = 0 the ratio is stars converted to float64, which
    is stars itself below 2^53. *)
Theorem C6_star_to_fork_ratio
    (to_datetime : list string → option Datetimes.t) (now : Timestamp)
    (df : RawTable.t) (tr : trace) :
  dates_parse to_datetime now df →
  ∃ out tr',
    process_data to_datetime now df tr = (Return out, tr')
    ∧ ∀ (i : nat) (s f : Z),
        RawTable.stars df !! i = Some s →
        RawTable.forks df !! i = Some f →
        int64.in_range s →
        int64.in_range f →
        let divisor := if decide (f = 0) then 1 else f in
        ProcessedTable.star_to_fork_ratio out !! i
        = Some (truediv (of_int s) (of_int divisor))
        ∧ divisor ≠ 0
        ∧ (∃ m e, of_int divisor = S754_finite (bool_decide (divisor < 0)) m e)
        ∧ (f = 0 → ProcessedTable.star_to_fork_ratio out !! i = Some (of_int s))
        ∧ (f = 0 → Z.abs s < 2 ^ 53 →
           ∃ ratio,
             ProcessedTable.star_to_fork_ratio out !! i = Some ratio
             ∧ float_value ratio = Some (Qc_of_Z s)).
Proof.
  intros Hdates. run_process_data to_datetime now df tr Hdates.
  intros i s f Hs Hf Hsr Hfr divisor.
  assert (replace 0 1 f = divisor) as Hd.
  { unfold replace, divisor. case_bool_decide; by case_decide. }
  assert (divisor ≠ 0) as Hne by (rewrite <-Hd; apply replace_0_1_nonzero).
  assert (int64.in_range divisor) as Hdr by (unfold divisor; by case_decide).
  assert (ProcessedTable.star_to_fork_ratio out !! i
          = Some (truediv (of_int s) (of_int divisor))) as Hi.
  { rewrite Hratio. apply lookup_zip_with_Some. exists s, divisor.
    split; [done|]. split; [done|]. by rewrite list_lookup_fmap, Hf, <-Hd. }
  split; [done|]. split; [done|].
  split; [by apply float64_facts.of_int_nonzero|].
  assert (f = 0 → ProcessedTable.star_to_fork_ratio out !! i = Some (of_int s))
    as Hzero.
  { intros Hf0. rewrite Hi. unfold divisor. rewrite decide_True by done.
    by rewrite float64_facts.truediv_of_int_one. }
  split; [done|].
  intros Hf0 Hsmall. exists (of_int s). split; [by apply Hzero|].
  by apply float64_facts.float_value_of_int.
Qed.

Lemma C6_star_to_fork_ratio_witness :
  dates_parse sample_to_datetime sample_now sample_raw_data ∧
  ∃ out tr',
    process_data sample_to_datetime sample_now sample_raw_data [] = (Return out, tr')
    ∧ ∀ (i : nat) (s f : Z),
        RawTable.stars sample_raw_data !! i = Some s →
        RawTable.forks sample_raw_data !! i = Some f →
        int64.in_range s →
        int64.in_range f →
        let divisor := if decide (f = 0) then 1 else f in
        ProcessedTable.star_to_fork_ratio out !! i
        = Some (truediv (of_int s) (of_int divisor))
        ∧ divisor ≠ 0
        ∧ (∃ m e, of_int divisor = S754_finite (bool_decide (divisor < 0)) m e)
        ∧ (f = 0 → ProcessedTable.star_to_fork_ratio out !! i = Some (of_int s))
        ∧ (f = 0 → Z.abs s < 2 ^ 53 →
           ∃ ratio,
             ProcessedTable.star_to_fork_ratio out !! i = Some ratio
             ∧ float_value ratio = Some (Qc_of_Z s)).
Proof.
  assert (dates_parse sample_to_datetime sample_now sample_raw_data) as Hdates
    by sample_dates.
  split; [exact Hdates|].
  exact (C6_star_to_fork_ratio sample_to_datetime sample_now sample_raw_data [] Hdates).
Defined.

(** C6, where the claim as stated fails: with 2^53 + 1 stars and no fork
    the ratio is not stars: it is the float64 number 2^53. *)
Lemma C6_ratio_is_rounded :
  ∃ out tr' ratio,
    process_data sample_to_datetime sample_now odd_raw_data [] = (Return out, tr')
    ∧ RawTable.stars odd_raw_data !! 0%nat = Some (2 ^ 53 + 1)
    ∧ RawTable.forks odd_raw_data !! 0%nat = Some 0
    ∧ ProcessedTable.star_to_fork_ratio out !! 0%nat = Some ratio
    ∧ ratio = of_int (2 ^ 53)
    ∧ float_value ratio = Some (Qc_of_Z (2 ^ 53))
    ∧ float_value ratio ≠ Some (Qc_of_Z (2 ^ 53 + 1)).
Proof.
  eexists _, _, _. split; [vm_compute; reflexivity|]. split; [done|]. split; [done|].
  split; [reflexivity|]. split; [reflexivity|].
  assert (float_value (of_int (2 ^ 53)) = Some (Qc_of_Z (2 ^ 53))) as Hv
    by (apply float64_facts.float_value_of_int_2_53).
  split; [exact Hv|].
  change (float_value (of_int (2 ^ 53)) ≠ Some (Qc_of_Z (2 ^ 53 + 1))).
  rewrite Hv. by intros [= Heq%Z2Qc_inj].
Qed.

(** C7: a row whose language is missing gets the language "Unknown" and
    language_known = false; a row whose language is a string other than
    "Unknown" keeps it and gets language_known = true. *)
Theorem C7_language_sentinel
    (to_datetime : list string → option Datetimes.t) (now : Timestamp)
    (df : RawTable.t) (tr : trace) :
  dates_parse to_datetime now df →
  ∃ out tr',
    process_data to_datetime now df tr = (Return out, tr')
    ∧ (∀ i : nat,
         RawTable.language df !! i = Some None →
         ProcessedTable.language out !! i = Some "Unknown"
         ∧ ProcessedTable.language_known out !! i = Some false)
    ∧ (∀ (i : nat) (l : string),
         RawTable.language df !! i = Some (Some l) →
         l ≠ "Unknown" →
         ProcessedTable.language out !! i = Some l
         ∧ ProcessedTable.language_known out !! i = Some true).
Proof.
  intros Hdates. run_process_data to_datetime now df tr Hdates.
  split.
  - intros i Hi. rewrite Hknown, Hlanguage, !list_lookup_fmap, Hi. done.
  - intros i l Hi Hl. rewrite Hknown, Hlanguage, !list_lookup_fmap, Hi. simpl.
    by rewrite bool_decide_eq_true_2.
Qed.

Lemma C7_language_sentinel_witness :
  dates_parse sample_to_datetime sample_now sample_raw_data ∧
  ∃ out tr',
    process_data sample_to_datetime sample_now sample_raw_data [] = (Return out, tr')
    ∧ (∀ i : nat,
         RawTable.language sample_raw_data !! i = Some None →
         ProcessedTable.language out !! i = Some "Unknown"
         ∧ ProcessedTable.language_known out !! i = Some false)
    ∧ (∀ (i : nat) (l : string),
         RawTable.language sample_raw_data !! i = Some (Some l) →
         l ≠ "Unknown" →
         ProcessedTable.language out !! i = Some l
         ∧ ProcessedTable.language_known out !! i = Some true).
Proof.
  assert (dates_parse sample_to_datetime sample_now sample_raw_data) as Hdates
    by sample_dates.
  split; [exact Hdates|].
  exact (C7_language_sentinel sample_to_datetime sample_now sample_raw_data [] Hdates).
Defined.

(** C10: in every row days_since_last_commit is the number of whole days
    from the last commit to now, and is_active is true exactly when that
    number is at most 180. *)
Theorem C10_is_active_180_days
    (to_datetime : list string → option Datetimes.t) (now : Timestamp)
    (df : RawTable.t) (tr : trace) :
  dates_parse to_datetime now df →
  ∃ out tr' last,
    process_data to_datetime now df tr = (Return out, tr')
    ∧ to_datetime (RawTable.last_commit_date df) = Some (Datetimes.mk true last)
    ∧ ∀ (i : nat) (date : string),
        RawTable.last_commit_date df !! i = Some date →
        ∃ (t : Timestamp) (b : bool),
          last !! i = Some t
          ∧ ProcessedTable.days_since_last_commit out !! i = Some (dt_days (now - t))
          ∧ ProcessedTable.is_active out !! i = Some b
          ∧ (b = true ↔ dt_days (now - t) ≤ 180).
Proof.
  intros Hdates.
  destruct (process_data_run to_datetime now df tr Hdates)
    as (out & creation & last & Hrun & Hcreation & Hlast & _ & _ & _ & _ & _ & _
        & _ & _ & _ & _ & Hdays & Hactive & _).
  destruct Hlast as (_ & Hparse & Hlen & _).
  exists out. eexists. exists last. split; [exact Hrun|]. split; [done|].
  intros i date Hi.
  assert (is_Some (last !! i)) as [t Ht].
  { apply lookup_lt_is_Some_2. rewrite Hlen. by eapply lookup_lt_Some. }
  exists t, (bool_decide (dt_days (now - t) ≤ 180)).
  split; [done|]. unfold Timestamp in *.
  assert (ProcessedTable.days_since_last_commit out !! i = Some (dt_days (now - t)))
    as Hd by (by rewrite Hdays, list_lookup_fmap, Ht).
  split; [done|]. split.
  - by rewrite Hactive, list_lookup_fmap, Hd.
  - apply bool_decide_eq_true.
Qed.




(** The two branches of the normalisation on concrete frames. *)
Example normalized_uniform :
  ProcessedTable.popularity_score_normalized
    <$> (match fst (process_data sample_to_datetime sample_now uniform_raw_data []) with
         | Return out => Some out
         | Raise _ => None
         end)
  = Some [Int 100; Int 100].
Proof. reflexivity. Qed.

Example normalized_sample :
  ProcessedTable.popularity_score_normalized
    <$> (match fst (process_data sample_to_datetime sample_now sample_raw_data []) with
         | Return out => Some out
         | Raise _ => None
         end)
  = Some [Float (of_int 100); Float (of_int 0)].
Proof. reflexivity. Qed.

(** In every row the category is the label of the interval the star count
    lies in, and no label when the count is not positive. *)
Lemma category_by_thresholds
    (to_datetime : list string → option Datetimes.t) (now : Timestamp)
    (df : RawTable.t) (tr : trace) :
  dates_parse to_datetime now df →
  ∃ out tr',
    process_data to_datetime now df tr = (Return out, tr')
    ∧ ∀ (i : nat) (s : Z),
        RawTable.stars df !! i = Some s →
        ProcessedTable.category out !! i
        = Some (if decide (s ≤ 0) then None
                else if decide (s ≤ 10000) then Some "Low Popularity"
                else if decide (s ≤ 50000) then Some "Moderate Popularity"
                else Some "High Popularity").
Proof.
  intros Hdates. run_process_data to_datetime now df tr Hdates.
  intros i s Hs. by rewrite Hcategory, list_lookup_fmap, Hs, <-cut_stars.
Qed.

(** C4, at the star count the code leaves out: for a repository with 0
    stars the category is missing, not one of the three labels. *)
Theorem C4_unstarred_has_no_category :
  ∃ out tr',
    process_data sample_to_datetime sample_now unstarred_raw_data [] = (Return out, tr')
    ∧ RawTable.stars unstarred_raw_data !! 0%nat = Some 0
    ∧ ProcessedTable.category out !! 0%nat = Some None.
Proof.
  destruct (category_by_thresholds sample_to_datetime sample_now unstarred_raw_data [])
    as (out & tr' & Hrun & Hcategory);
    [sample_dates|].
  exists out, tr'. split; [done|]. split; [done|].
  by apply (Hcategory 0%nat 0).
Qed.

Example category_unstarred :
  ProcessedTable.category
    <$> (match fst (process_data sample_to_datetime sample_now unstarred_raw_data []) with
         | Return out => Some out
         | Raise _ => None
         end)
  = Some [None].
Proof. reflexivity. Qed.

Lemma C10_is_active_180_days_witness :
  dates_parse sample_to_datetime sample_now sample_raw_data ∧
  ∃ out tr' last,
    process_data sample_to_datetime sample_now sample_raw_data [] = (Return out, tr')
    ∧ sample_to_datetime (RawTable.last_commit_date sample_raw_data)
      = Some (Datetimes.mk true last)
    ∧ ∀ (i : nat) (date : string),
        RawTable.last_commit_date sample_raw_data !! i = Some date →
        ∃ (t : Timestamp) (b : bool),
          last !! i = Some t
          ∧ ProcessedTable.days_since_last_commit out !! i
            = Some (dt_days (sample_now - t))
          ∧ ProcessedTable.is_active out !! i = Some b
          ∧ (b = true ↔ dt_days (sample_now - t) ≤ 180).
Proof.
  assert (dates_parse sample_to_datetime sample_now sample_raw_data) as Hdates
    by sample_dates.
  split; [exact Hdates|].
  exact (C10_is_active_180_days sample_to_datetime sample_now sample_raw_data [] Hdates).
Defined.

End process_data_spec.

(** * Further properties of the fetcher *)

Module fetch_data_more.
Import fetch_data pages.

Section any_server.
Context (srv : Server) (github_token : string).

Lemma goes_on_good_page p :
  goes_on srv github_token p = true ↔ good_page srv github_token p.
Proof.
  unfold goes_on, good_page. rewrite andb_true_iff, bool_decide_eq_true.
  destruct (page_items _) as [|x l].
  - split; intros [_ ?]; done.
  - split; intros [? _]; split; done.
Qed.

Lemma pages_passed_le (n : nat) p : (pages_passed srv github_token p n ≤ n)%nat.
Proof.
  revert p. induction n as [|n IH]; intros p; simpl; [done|].
  destruct (goes_on _ _ _); [|lia]. specialize (IH (p + 1)). lia.
Qed.

Lemma pages_passed_good (n : nat) p q :
  p ≤ q < p + Z.of_nat (pages_passed srv github_token p n) →
  good_page srv github_token q.
Proof.
  revert p. induction n as [|n IH]; intros p; simpl; [lia|].
  destruct (goes_on srv github_token p) eqn:Hp; [|lia].
  intros Hq. destruct (decide (q = p)) as [->|Hne]; [by apply goes_on_good_page|].
  apply (IH (p + 1)). lia.
Qed.

Lemma pages_passed_stop (n : nat) p :
  (pages_passed srv github_token p n < n)%nat →
  ¬ good_page srv github_token
      (p + Z.of_nat (pages_passed srv github_token p n)).
Proof.
  revert p. induction n as [|n IH]; intros p; simpl; [lia|].
  destruct (goes_on srv github_token p) eqn:Hp.
  - intros Hlt. rewrite Nat2Z.inj_succ, <-Z.add_succ_comm. apply IH. lia.
  - intros _. rewrite Z.add_0_r, <-goes_on_good_page. by rewrite Hp.
Qed.

(** Every event the loop appends is a request, an INFO line or an ERROR
    line. *)
Lemma while_page_no_warning (fuel : nat) :
  ∀ headers page params repos tr,
    ∃ events,
      (while_page srv headers fuel page params repos tr).2 = tr ++ events
      ∧ Forall (λ e, is_warning e = false) events.
Proof.
  induction fuel as [|fuel IH]; intros headers page params repos tr.
  - exists []. simpl. by destruct (bool_decide _); rewrite app_nil_r.
  - cbn [while_page]. destruct (bool_decide (page ≤ 10)).
    2:{ exists []. by rewrite app_nil_r. }
    unfold mbind, M_bind, logging.info, logging.error, emit, requests_get, mret, M_ret.
    destruct (bool_decide _).
    + destruct (github.items _) as [[|x l]|].
      * eexists [_; _; _]. rewrite <-!app_assoc. split; [done|]. by repeat constructor.
      * match goal with
        | |- ∃ _, (while_page _ _ _ ?p ?pa ?re ?t).2 = _ ∧ _ =>
          destruct (IH headers p pa re t) as (events & -> & Hev)
        end.
        eexists (_ :: _ :: _ :: events). rewrite <-!app_assoc. split; [done|].
        by repeat constructor.
      * eexists [_; _; _]. rewrite <-!app_assoc. split; [done|]. by repeat constructor.
    + eexists [_; _; _]. rewrite <-!app_assoc. split; [done|]. by repeat constructor.
Qed.
End any_server.

Lemma fetch_leading_pages
    (environ : string → option string) (srv : Server) (github_token : string)
    (fuel : nat) (tr : trace) :
  environ "GITHUB_TOKEN" = Some github_token →
  github_token ≠ EmptyString →
  (10 ≤ fuel)%nat →
  let k := pages_passed srv github_token 1 10 in
  ∃ tr',
    fetch_github_repos fuel environ srv tr
    = (Return (Some (pd_DataFrame
                       (concat (page_records srv github_token <$> page_range 1 k)))),
       tr')
    ∧ (k ≤ 10)%nat
    ∧ (∀ p, 1 ≤ p < 1 + Z.of_nat k → good_page srv github_token p)
    ∧ ((k < 10)%nat → ¬ good_page srv github_token (1 + Z.of_nat k))
    ∧ http_requests tr'
      = http_requests tr
        ++ (request_of github_token <$> page_range 1 (Nat.min (S k) 10)).
Proof.
  intros Henv Htok Hfuel k.
  pose proof (pages_passed_le srv github_token 10 1) as Hk. fold k in Hk.
  destruct (fetch_data_spec.while_page_run srv github_token k 1 params0 [] tr fuel)
    as (tr1 & Hrun & Htr1).
  - done.
  - lia.
  - intros p Hp. by apply (pages_passed_good srv github_token 10 1).
  - intros Hlt. apply (pages_passed_stop srv github_token 10 1). fold k. lia.
  - lia.
  - destruct (fetch_data_spec.fetch_github_repos_returns
                environ srv github_token fuel tr _ tr1 Henv Htok Hrun)
      as (tr' & Hret & Htr').
    exists tr'. split; [exact Hret|]. split; [done|]. split; [|split].
    + intros p Hp. by apply (pages_passed_good srv github_token 10 1).
    + intros Hlt. by apply (pages_passed_stop srv github_token 10 1).
    + rewrite Htr', Htr1. by case_decide; (replace (Nat.min (S k) 10) with (S k) by lia)
                             || (replace (Nat.min (S k) 10) with k by lia).
Qed.

(** X1: for every server: with a token the fetcher returns, never raises, and
    the frame holds the records of the pages the loop went past, that is of
    the pages before the first one (among pages 1..10) that is answered with
    another status than 200 or carries no item.  The requests are those for
    the pages 1, 2, ... up to that page, at most ten. *)
Theorem fetch_returns_leading_pages
    (environ : string → option string) (srv : Server) (github_token : string)
    (fuel : nat) (tr : trace) :
  environ "GITHUB_TOKEN" = Some github_token →
  github_token ≠ EmptyString →
  (10 ≤ fuel)%nat →
  let k := pages_passed srv github_token 1 10 in
  ∃ tr',
    fetch_github_repos fuel environ srv tr
    = (Return (Some (pd_DataFrame
                       (concat (page_records srv github_token <$> page_range 1 k)))),
       tr')
    ∧ (k ≤ 10)%nat
    ∧ (∀ p, 1 ≤ p < 1 + Z.of_nat k → good_page srv github_token p)
    ∧ ((k < 10)%nat → ¬ good_page srv github_token (1 + Z.of_nat k))
    ∧ http_requests tr'
      = http_requests tr
        ++ (request_of github_token <$> page_range 1 (Nat.min (S k) 10)).
Proof. apply fetch_leading_pages. Qed.

Lemma fetch_returns_leading_pages_witness :
  sample_environ "GITHUB_TOKEN" = Some "fake_token"
  ∧ "fake_token" ≠ EmptyString
  ∧ (10 ≤ 10)%nat
  ∧ let k := pages_passed limited_server "fake_token" 1 10 in
    ∃ tr',
      fetch_github_repos 10 sample_environ limited_server []
      = (Return (Some (pd_DataFrame
                         (concat (page_records limited_server "fake_token"
                                    <$> page_range 1 k)))),
         tr')
      ∧ (k ≤ 10)%nat
      ∧ (∀ p, 1 ≤ p < 1 + Z.of_nat k → good_page limited_server "fake_token" p)
      ∧ ((k < 10)%nat → ¬ good_page limited_server "fake_token" (1 + Z.of_nat k))
      ∧ http_requests tr'
        = http_requests []
          ++ (request_of "fake_token" <$> page_range 1 (Nat.min (S k) 10)).
Proof.
  assert (sample_environ "GITHUB_TOKEN" = Some "fake_token") as Henv by reflexivity.
  assert ("fake_token" ≠ EmptyString) as Htok by discriminate.
  assert (10 ≤ 10)%nat as Hfuel by lia.
  repeat (split; [assumption|]).
  exact (fetch_returns_leading_pages sample_environ limited_server "fake_token" 10 []
           Henv Htok Hfuel).
Defined.

Lemma raw_rows_pd_DataFrame repos : raw_rows (pd_DataFrame repos) (length repos).
Proof. unfold raw_rows. simpl. by rewrite !length_fmap. Qed.

Lemma empty_pd_DataFrame repos :
  RawTable.empty (pd_DataFrame repos) = bool_decide (repos = []).
Proof.
  unfold RawTable.empty. rewrite fetch_data_spec.len_pd_DataFrame.
  destruct repos; by simpl.
Qed.

(** X2: every row of the frame the fetcher returns is one item of a page that
    was answered with status 200, field by field: stargazers_count becomes
    stars, forks_count forks, created_at creation_date, pushed_at
    last_commit_date and html_url repo_url.  All seven columns have the
    frame's number of rows. *)
Theorem fetch_rows_are_items
    (environ : string → option string) (srv : Server) (github_token : string)
    (fuel : nat) (tr : trace) :
  environ "GITHUB_TOKEN" = Some github_token →
  github_token ≠ EmptyString →
  (10 ≤ fuel)%nat →
  ∃ df tr',
    fetch_github_repos fuel environ srv tr = (Return (Some df), tr')
    ∧ raw_rows df (RawTable.len df)
    ∧ ∀ i : nat,
        (i < RawTable.len df)%nat →
        ∃ (p : Z) (item : github.Repo),
          1 ≤ p ≤ 10
          ∧ requests.status_code (srv (request_of github_token p)) = 200
          ∧ item ∈ page_items (srv (request_of github_token p))
          ∧ RawTable.name df !! i = Some (github.name item)
          ∧ RawTable.language df !! i = Some (github.language item)
          ∧ RawTable.stars df !! i = Some (github.stargazers_count item)
          ∧ RawTable.forks df !! i = Some (github.forks_count item)
          ∧ RawTable.creation_date df !! i = Some (github.created_at item)
          ∧ RawTable.last_commit_date df !! i = Some (github.pushed_at item)
          ∧ RawTable.repo_url df !! i = Some (github.html_url item).
Proof.
  intros Henv Htok Hfuel.
  destruct (fetch_leading_pages environ srv github_token fuel tr Henv Htok Hfuel)
    as (tr' & Hrun & Hk & Hgood & _).
  set (k := pages_passed srv github_token 1 10) in *.
  set (repos := concat (page_records srv github_token <$> page_range 1 k)) in *.
  exists (pd_DataFrame repos), tr'. split; [done|].
  rewrite fetch_data_spec.len_pd_DataFrame. split; [apply raw_rows_pd_DataFrame|].
  intros i Hi. destruct (lookup_lt_is_Some_2 repos i Hi) as [r Hr].
  assert (r ∈ repos) as Hin by (by eapply list_elem_of_lookup_2).
  apply list_elem_of_In, in_concat in Hin as (records & Hrecords & Hin).
  apply list_elem_of_In, list_elem_of_fmap in Hrecords as (p & -> & Hp).
  apply fetch_data_spec.elem_of_page_range in Hp.
  apply list_elem_of_In, list_elem_of_fmap in Hin as (item & -> & Hitem).
  destruct (Hgood p Hp) as [Hstatus _].
  exists p, item. split; [lia|]. split; [done|]. split; [done|].
  simpl. rewrite !list_lookup_fmap, Hr. done.
Qed.

Lemma fetch_rows_are_items_witness :
  sample_environ "GITHUB_TOKEN" = Some "fake_token"
  ∧ "fake_token" ≠ EmptyString
  ∧ (10 ≤ 10)%nat
  ∧ ∃ df tr',
      fetch_github_repos 10 sample_environ sample_server [] = (Return (Some df), tr')
      ∧ raw_rows df (RawTable.len df)
      ∧ ∀ i : nat,
          (i < RawTable.len df)%nat →
          ∃ (p : Z) (item : github.Repo),
            1 ≤ p ≤ 10
            ∧ requests.status_code (sample_server (request_of "fake_token" p)) = 200
            ∧ item ∈ page_items (sample_server (request_of "fake_token" p))
            ∧ RawTable.name df !! i = Some (github.name item)
            ∧ RawTable.language df !! i = Some (github.language item)
            ∧ RawTable.stars df !! i = Some (github.stargazers_count item)
            ∧ RawTable.forks df !! i = Some (github.forks_count item)
            ∧ RawTable.creation_date df !! i = Some (github.created_at item)
            ∧ RawTable.last_commit_date df !! i = Some (github.pushed_at item)
            ∧ RawTable.repo_url df !! i = Some (github.html_url item).
Proof.
  assert (sample_environ "GITHUB_TOKEN" = Some "fake_token") as Henv by reflexivity.
  assert ("fake_token" ≠ EmptyString) as Htok by discriminate.
  assert (10 ≤ 10)%nat as Hfuel by lia.
  repeat (split; [assumption|]).
  exact (fetch_rows_are_items sample_environ sample_server "fake_token" 10 []
           Henv Htok Hfuel).
Defined.

(** A run with a token, with the frame it returns and what it appends to
    the trace. *)
Lemma fetch_run
    (environ : string → option string) (srv : Server) (github_token : string)
    (fuel : nat) (tr : trace) :
  environ "GITHUB_TOKEN" = Some github_token →
  github_token ≠ EmptyString →
  (10 ≤ fuel)%nat →
  let k := pages_passed srv github_token 1 10 in
  let df := pd_DataFrame (concat (page_records srv github_token <$> page_range 1 k)) in
  ∃ events,
    fetch_github_repos fuel environ srv tr = (Return (Some df), tr ++ events)
    ∧ http_requests events
      = request_of github_token <$> page_range 1 (Nat.min (S k) 10)
    ∧ if RawTable.empty df
      then ∃ before,
             events = before ++ [Log WARNING "No data fetched."]
             ∧ Forall (λ e, is_warning e = false) before
      else Forall (λ e, is_warning e = false) events.
Proof.
  intros Henv Htok Hfuel k df.
  destruct (fetch_leading_pages environ srv github_token fuel tr Henv Htok Hfuel)
    as (tr' & Hrun & _ & _ & _ & Hrequests).
  fold k in Hrun, Hrequests. fold df in Hrun.
  destruct (while_page_no_warning srv fuel (headers_of github_token) 1 params0 [] tr)
    as (events & Hevents & Hno).
  pose proof Hrun as Hrun'.
  rewrite (fetch_data_spec.fetch_github_repos_with_token srv github_token) in Hrun'
    by done.
  destruct (while_page _ _ _ _ _ _ _) as [[[[|r rs]|]|e] tr1];
    simpl in Hevents; subst tr1; try discriminate.
  - assert (pd_DataFrame [] = df) as Hdf by congruence.
    assert (tr' = (tr ++ events) ++ [Log WARNING "No data fetched."]) as ->
      by congruence.
    exists (events ++ [Log WARNING "No data fetched."]).
    rewrite Hrun, app_assoc. split; [done|].
    rewrite <-app_assoc, fetch_data_spec.http_requests_app in Hrequests.
    apply app_inv_head in Hrequests. split; [done|].
    rewrite <-Hdf. simpl. by exists events.
  - assert (pd_DataFrame (r :: rs) = df) as Hdf by congruence.
    assert (tr' = tr ++ events) as -> by congruence.
    exists events. rewrite Hrun. split; [done|].
    rewrite fetch_data_spec.http_requests_app in Hrequests.
    apply app_inv_head in Hrequests. split; [done|].
    rewrite <-Hdf. by rewrite empty_pd_DataFrame.
Qed.

(** X3: the fetcher warns exactly when it has nothing: when the frame it
    returns is empty, the last line it logs is the WARNING "No data
    fetched." and no other WARNING is logged; when the frame has rows, no
    WARNING is logged at all. *)
Theorem fetch_warns_iff_empty
    (environ : string → option string) (srv : Server) (github_token : string)
    (fuel : nat) (tr : trace) :
  environ "GITHUB_TOKEN" = Some github_token →
  github_token ≠ EmptyString →
  (10 ≤ fuel)%nat →
  ∃ df events,
    fetch_github_repos fuel environ srv tr = (Return (Some df), tr ++ events)
    ∧ if RawTable.empty df
      then ∃ before,
             events = before ++ [Log WARNING "No data fetched."]
             ∧ Forall (λ e, is_warning e = false) before
      else Forall (λ e, is_warning e = false) events.
Proof.
  intros Henv Htok Hfuel.
  destruct (fetch_run environ srv github_token fuel tr Henv Htok Hfuel)
    as (events & Hrun & _ & Hwarn).
  by eexists _, events.
Qed.

Lemma fetch_warns_iff_empty_witness :
  sample_environ "GITHUB_TOKEN" = Some "fake_token"
  ∧ "fake_token" ≠ EmptyString
  ∧ (10 ≤ 10)%nat
  ∧ ∃ df events,
      fetch_github_repos 10 sample_environ limited_server []
      = (Return (Some df), [] ++ events)
      ∧ if RawTable.empty df
        then ∃ before,
               events = before ++ [Log WARNING "No data fetched."]
               ∧ Forall (λ e, is_warning e = false) before
        else Forall (λ e, is_warning e = false) events.
Proof.
  assert (sample_environ "GITHUB_TOKEN" = Some "fake_token") as Henv by reflexivity.
  assert ("fake_token" ≠ EmptyString) as Htok by discriminate.
  assert (10 ≤ 10)%nat as Hfuel by lia.
  repeat (split; [assumption|]).
  exact (fetch_warns_iff_empty sample_environ limited_server "fake_token" 10 []
           Henv Htok Hfuel).
Defined.

End fetch_data_more.

(** * Further properties of the processor *)

Module process_data_more.
Import process_data.

Lemma dt_days_eq_0 (td : Timedelta) : dt_days td = 0 ↔ 0 ≤ td < ns_per_day.
Proof.
  unfold dt_days. assert (0 < ns_per_day) as Hpos by done.
  rewrite Z.div_small_iff by lia. lia.
Qed.

(** A count divided by an age of zero years. *)
Lemma truediv_by_zero (count : Z) :
  int64.in_range count →
  truediv (of_int count) (S754_zero false)
  = if decide (count = 0) then S754_nan
    else S754_infinity (bool_decide (count < 0)).
Proof.
  intros Hr. case_decide as Hc; [by subst|].
  destruct (float64_facts.of_int_nonzero count Hc Hr) as (m & e & ->).
  unfold truediv. simpl. by rewrite xorb_false_r.
Qed.

Section run.
Context (to_datetime : list string → option Datetimes.t) (now : Timestamp).

(** X5: the processor keeps the rows: on a frame of n rows it returns a table
    whose nineteen columns all have n cells, with the name, stars, forks and
    repo_url columns unchanged. *)
Theorem process_data_keeps_rows (df : RawTable.t) (n : nat) (tr : trace) :
  raw_rows df n →
  dates_parse to_datetime now df →
  ∃ out tr',
    process_data to_datetime now df tr = (Return out, tr')
    ∧ processed_rows out n
    ∧ ProcessedTable.name out = RawTable.name df
    ∧ ProcessedTable.stars out = RawTable.stars df
    ∧ ProcessedTable.forks out = RawTable.forks df
    ∧ ProcessedTable.repo_url out = RawTable.repo_url df.
Proof.
  intros (Hn_name & Hn_lang & Hn_stars & Hn_forks & Hn_creation & Hn_last & Hn_url)
         Hdates.
  process_data_spec.run_process_data to_datetime now df tr Hdates.
  split; [|done].
  destruct Hcreation as (_ & _ & Hclen & _). destruct Hlast as (_ & _ & Hllen & _).
  unfold Timestamp in *.
  assert (length (ProcessedTable.repo_age_years out) = n) as Hyears
    by (rewrite Hageyears, length_fmap; lia).
  assert (length (ProcessedTable.popularity_score out) = n) as Hps
    by (rewrite Hscore, length_zip_with; lia).
  unfold processed_rows.
  rewrite Hspy, Hfpy, Hengagement, Hratio, Hcategory, Hactive, Hknown, Hlanguage.
  rewrite Hname, Hstars, Hforks, Hurl, Hcdate, Hldate, Hagedays, Hdays.
  rewrite ?length_fmap, ?length_zip_with, ?length_fmap, ?length_zip_with.
  rewrite Hyears, Hps. unfold Timestamp in *.
  repeat (split; [lia|]).
  rewrite Hnormalized. cbn zeta.
  set (ps := ProcessedTable.popularity_score out) in *.
  destruct (val_eq (series_min ps) (series_max ps));
    [|destruct (series_min ps), (series_max ps)];
    rewrite length_fmap; lia.
Qed.

(** X7: with stars counted from 1 every row has exactly one of the three
    labels: Low Popularity up to 10000 stars, Moderate Popularity above
    10000 and up to 50000, High Popularity above 50000.  A row whose star
    count is not positive has no label. *)
Theorem category_of_starred (df : RawTable.t) (tr : trace) :
  dates_parse to_datetime now df →
  ∃ out tr',
    process_data to_datetime now df tr = (Return out, tr')
    ∧ ∀ (i : nat) (s : Z),
        RawTable.stars df !! i = Some s →
        (1 ≤ s →
         ∃ label,
           ProcessedTable.category out !! i = Some (Some label)
           ∧ label ∈ labels
           ∧ (label = "Low Popularity" ↔ s ≤ 10000)
           ∧ (label = "Moderate Popularity" ↔ 10000 < s ≤ 50000)
           ∧ (label = "High Popularity" ↔ 50000 < s))
        ∧ (s ≤ 0 → ProcessedTable.category out !! i = Some None).
Proof.
  intros Hdates.
  destruct (process_data_spec.category_by_thresholds to_datetime now df tr Hdates)
    as (out & tr' & Hrun & Hcategory).
  exists out, tr'. split; [done|]. intros i s Hs.
  rewrite (Hcategory i s Hs). split.
  - intros Hpos. rewrite decide_False by lia.
    destruct (decide (s ≤ 10000)); [|destruct (decide (s ≤ 50000))];
      eexists; (split; [done|]); (split; [set_solver|]); repeat split;
      intros; try done; lia.
  - intros Hle. by rewrite decide_True by lia.
Qed.

(** X8: the yearly rates divide by the age in years, the whole days since the
    creation divided by 365, and nothing guards that division: each rate is
    the float64 quotient of the count by the age, where the count of
    engagement_rate is stars + forks in 64 bits.  For a repository created
    less than a day before the run the age is the float zero, and the rate
    of an int64 count is infinite, or NaN when the count itself is 0; no
    exception is raised. *)
Theorem rates_per_year (df : RawTable.t) (tr : trace) :
  dates_parse to_datetime now df →
  ∃ out tr' creation,
    process_data to_datetime now df tr = (Return out, tr')
    ∧ to_datetime (RawTable.creation_date df) = Some (Datetimes.mk true creation)
    ∧ ∀ (i : nat) (date : string) (s f : Z),
        RawTable.creation_date df !! i = Some date →
        RawTable.stars df !! i = Some s →
        RawTable.forks df !! i = Some f →
        ∃ t : Timestamp,
          creation !! i = Some t
          ∧ let d := dt_days (now - t) in
            let years := truediv (of_int d) (of_int 365) in
            let rate := λ count : Z, truediv (of_int count) years in
            (d = 0 ↔ 0 ≤ now - t < ns_per_day)
            ∧ ProcessedTable.repo_age_days out !! i = Some d
            ∧ ProcessedTable.repo_age_years out !! i = Some years
            ∧ ProcessedTable.stars_per_year out !! i = Some (rate s)
            ∧ ProcessedTable.forks_per_year out !! i = Some (rate f)
            ∧ ProcessedTable.engagement_rate out !! i = Some (rate (int64.add s f))
            ∧ (d = 0 →
               years = S754_zero false
               ∧ ∀ count : Z,
                   int64.in_range count →
                   rate count
                   = if decide (count = 0) then S754_nan
                     else S754_infinity (bool_decide (count < 0))).
Proof.
  intros Hdates.
  destruct (process_data_spec.process_data_run to_datetime now df tr Hdates)
    as (out & creation & last & Hrun & Hcreation & _ & _ & _ & _ & _ & _ & _
        & _ & _ & Hagedays & Hageyears & _ & _ & Hspy & Hfpy & Hengagement & _).
  destruct Hcreation as (_ & Hparse & Hlen & _).
  exists out. eexists. exists creation. split; [exact Hrun|]. split; [done|].
  intros i date s f Hdate Hs Hf.
  assert (is_Some (creation !! i)) as [t Ht].
  { apply lookup_lt_is_Some_2. rewrite Hlen. by eapply lookup_lt_Some. }
  exists t. split; [done|]. unfold Timestamp in *. cbn zeta.
  split; [apply dt_days_eq_0|].
  assert (ProcessedTable.repo_age_years out !! i
          = Some (truediv (of_int (dt_days (now - t))) (of_int 365))) as Hyears
    by (by rewrite Hageyears, list_lookup_fmap, Ht).
  split; [by rewrite Hagedays, list_lookup_fmap, Ht|].
  split; [done|].
  split; [rewrite Hspy; apply lookup_zip_with_Some; by eexists _, _|].
  split; [rewrite Hfpy; apply lookup_zip_with_Some; by eexists _, _|].
  split.
  - rewrite Hengagement. apply lookup_zip_with_Some. eexists _, _.
    split; [done|]. split; [|done]. apply lookup_zip_with_Some. by exists s, f.
  - intros ->. split; [reflexivity|].
    intros count Hr. change (truediv (of_int 0) (of_int 365)) with (S754_zero false).
    by apply truediv_by_zero.
Qed.
End run.

Lemma category_of_starred_witness :
  dates_parse sample_to_datetime sample_now sample_raw_data
  ∧ ∃ out tr',
      process_data sample_to_datetime sample_now sample_raw_data [] = (Return out, tr')
      ∧ ∀ (i : nat) (s : Z),
          RawTable.stars sample_raw_data !! i = Some s →
          (1 ≤ s →
           ∃ label,
             ProcessedTable.category out !! i = Some (Some label)
             ∧ label ∈ labels
             ∧ (label = "Low Popularity" ↔ s ≤ 10000)
             ∧ (label = "Moderate Popularity" ↔ 10000 < s ≤ 50000)
             ∧ (label = "High Popularity" ↔ 50000 < s))
          ∧ (s ≤ 0 → ProcessedTable.category out !! i = Some None).
Proof.
  assert (dates_parse sample_to_datetime sample_now sample_raw_data) as Hdates
    by sample_dates.
  split; [exact Hdates|].
  exact (category_of_starred sample_to_datetime sample_now sample_raw_data [] Hdates).
Defined.

Lemma rates_per_year_witness :
  dates_parse sample_to_datetime sample_now sample_raw_data
  ∧ ∃ out tr' creation,
      process_data sample_to_datetime sample_now sample_raw_data [] = (Return out, tr')
      ∧ sample_to_datetime (RawTable.creation_date sample_raw_data)
        = Some (Datetimes.mk true creation)
      ∧ ∀ (i : nat) (date : string) (s f : Z),
          RawTable.creation_date sample_raw_data !! i = Some date →
          RawTable.stars sample_raw_data !! i = Some s →
          RawTable.forks sample_raw_data !! i = Some f →
          ∃ t : Timestamp,
            creation !! i = Some t
            ∧ let d := dt_days (sample_now - t) in
              let years := truediv (of_int d) (of_int 365) in
              let rate := λ count : Z, truediv (of_int count) years in
              (d = 0 ↔ 0 ≤ sample_now - t < ns_per_day)
              ∧ ProcessedTable.repo_age_days out !! i = Some d
              ∧ ProcessedTable.repo_age_years out !! i = Some years
              ∧ ProcessedTable.stars_per_year out !! i = Some (rate s)
              ∧ ProcessedTable.forks_per_year out !! i = Some (rate f)
              ∧ ProcessedTable.engagement_rate out !! i
                = Some (rate (int64.add s f))
              ∧ (d = 0 →
                 years = S754_zero false
                 ∧ ∀ count : Z,
                     int64.in_range count →
                     rate count
                     = if decide (count = 0) then S754_nan
                       else S754_infinity (bool_decide (count < 0))).
Proof.
  assert (dates_parse sample_to_datetime sample_now sample_raw_data) as Hdates
    by sample_dates.
  split; [exact Hdates|].
  exact (rates_per_year sample_to_datetime sample_now sample_raw_data [] Hdates).
Defined.

Lemma process_data_keeps_rows_witness :
  raw_rows sample_raw_data 2
  ∧ dates_parse sample_to_datetime sample_now sample_raw_data
  ∧ ∃ out tr',
      process_data sample_to_datetime sample_now sample_raw_data [] = (Return out, tr')
      ∧ processed_rows out 2
      ∧ ProcessedTable.name out = RawTable.name sample_raw_data
      ∧ ProcessedTable.stars out = RawTable.stars sample_raw_data
      ∧ ProcessedTable.forks out = RawTable.forks sample_raw_data
      ∧ ProcessedTable.repo_url out = RawTable.repo_url sample_raw_data.
Proof.
  assert (raw_rows sample_raw_data 2) as Hrows by (repeat split).
  assert (dates_parse sample_to_datetime sample_now sample_raw_data) as Hdates
    by sample_dates.
  repeat (split; [assumption|]).
  exact (process_data_keeps_rows sample_to_datetime sample_now sample_raw_data 2 []
           Hrows Hdates).
Defined.

End process_data_more.

(** * The file tree *)

Module os_facts.
Import os.

Lemma chain_from_longer (cur : path) (rest : list string) (p : path) :
  p ∈ chain_from cur rest → (length cur < length p)%nat.
Proof.
  revert cur. induction rest as [|c rest IH]; intros cur; simpl.
  - by intros ?%elem_of_nil.
  - intros [->|Hin]%elem_of_cons.
    + rewrite length_app. simpl. lia.
    + apply IH in Hin. rewrite length_app in Hin. simpl in Hin. lia.
Qed.

Lemma with_dirs_lookup_other (ps : list path) (t : tree) (p : path) :
  p ∉ ps → with_dirs ps t !! p = t !! p.
Proof.
  unfold with_dirs. revert t.
  induction ps as [|q ps IH]; intros t Hp; simpl; [done|].
  apply not_elem_of_cons in Hp as [Hne Hp].
  rewrite IH by done. by rewrite lookup_insert_ne.
Qed.

Lemma with_dirs_lookup (ps : list path) (t : tree) (p : path) :
  p ∈ ps → with_dirs ps t !! p = Some Dir.
Proof.
  revert t. induction ps as [|q ps IH]; intros t.
  - by intros ?%elem_of_nil.
  - intros Hin. change (with_dirs (q :: ps) t) with (with_dirs ps (<[q:=Dir]> t)).
    destruct (decide (p ∈ ps)) as [Hp|Hp].
    + by apply IH.
    + apply elem_of_cons in Hin as [->|?]; [|done].
      by rewrite with_dirs_lookup_other, lookup_insert_eq.
Qed.

Lemma with_dirs_id (ps : list path) (t : tree) :
  Forall (λ p, t !! p = Some Dir) ps → with_dirs ps t = t.
Proof.
  revert t. induction ps as [|q ps IH]; intros t Hall; [done|].
  change (with_dirs (q :: ps) t) with (with_dirs ps (<[q:=Dir]> t)).
  apply Forall_cons in Hall as [Hq Hall].
  rewrite insert_id by done. by apply IH.
Qed.

(** [makedirs] removes and overwrites nothing, whether it succeeds or
    not. *)
Lemma makedirs_from_preserves rest :
  ∀ cur (t : tree) p e,
    t !! p = Some e → (makedirs_from cur rest t).2 !! p = Some e.
Proof.
  induction rest as [|c rest IH]; intros cur t p e Hp; simpl; [done|].
  destruct (t !! (cur ++ [c])) as [[|content]|] eqn:Hc; [by apply IH|done|].
  apply IH. rewrite lookup_insert_ne; [done|]. by intros <-; simplify_eq.
Qed.

(** It touches no path outside the chain of directories it is asked for. *)
Lemma makedirs_from_other rest :
  ∀ cur (t : tree) p,
    p ∉ chain_from cur rest → (makedirs_from cur rest t).2 !! p = t !! p.
Proof.
  induction rest as [|c rest IH]; intros cur t p Hp; simpl; [done|].
  simpl in Hp. apply not_elem_of_cons in Hp as [Hne Hp].
  destruct (t !! (cur ++ [c])) as [[|content]|] eqn:Hc; [by apply IH|done|].
  rewrite IH by done. by rewrite lookup_insert_ne.
Qed.

(** With no file in the way it succeeds and the tree gains the
    directories of the chain. *)
Lemma makedirs_from_success rest :
  ∀ cur (t : tree),
    Forall (λ p, ∀ content, t !! p ≠ Some (File content)) (chain_from cur rest) →
    makedirs_from cur rest t = (None, with_dirs (chain_from cur rest) t).
Proof.
  induction rest as [|c rest IH]; intros cur t Hall; simpl; [done|].
  simpl in Hall. apply Forall_cons in Hall as [Hc Hall].
  assert (∀ t' : tree,
            (∀ p, p ≠ cur ++ [c] → t' !! p = t !! p) →
            Forall (λ p, ∀ content, t' !! p ≠ Some (File content))
                   (chain_from (cur ++ [c]) rest)) as Hrest.
  { intros t' Hsame. apply Forall_forall. intros p Hp content.
    rewrite Hsame; [by apply (proj1 (Forall_forall _ _) Hall)|].
    intros ->. apply chain_from_longer in Hp. lia. }
  destruct (t !! (cur ++ [c])) as [[|content]|] eqn:Hlook.
  - rewrite IH by (by apply Hrest).
    change (with_dirs ((cur ++ [c]) :: ?ps) t)
      with (with_dirs ps (<[cur ++ [c]:=Dir]> t)).
    by rewrite insert_id.
  - by destruct (Hc content).
  - rewrite IH; [done|]. apply Hrest. intros p Hne. by rewrite lookup_insert_ne.
Qed.

(** With a file in the way it raises. *)
Lemma makedirs_from_failure rest :
  ∀ cur (t : tree),
    Exists (λ p, ∃ content, t !! p = Some (File content)) (chain_from cur rest) →
    ∃ k, (makedirs_from cur rest t).1 = Some k.
Proof.
  induction rest as [|c rest IH]; intros cur t Hex; simpl.
  - by apply Exists_nil in Hex.
  - simpl in Hex. apply Exists_cons in Hex as [[content Hc]|Hex].
    + rewrite Hc. by eexists.
    + destruct (t !! (cur ++ [c])) as [[|content]|] eqn:Hlook.
      * by apply IH.
      * by eexists.
      * apply IH. apply Exists_exists in Hex as (p & Hp & content & Hfile).
        apply Exists_exists. exists p. split; [done|]. exists content.
        rewrite lookup_insert_ne; [done|].
        intros <-. apply chain_from_longer in Hp. lia.
Qed.

(** A path whose parent is a directory resolves, once an entry is put
    there, to that entry. *)
Lemma resolve_from_insert_last (t : tree) rest :
  ∀ cur e c x,
    resolve_from t cur e rest = inr Dir →
    resolve_from (<[cur ++ rest ++ [c] := x]> t) cur e (rest ++ [c]) = inr x.
Proof.
  induction rest as [|a rest IH]; intros cur e c x; simpl.
  - intros [= ->]. by rewrite lookup_insert_eq.
  - destruct e; [|done].
    destruct (t !! (cur ++ [a])) as [e'|] eqn:Ha; [|done].
    intros Hres. rewrite lookup_insert_ne.
    + rewrite Ha. specialize (IH (cur ++ [a]) e' c x Hres).
      by rewrite <-!app_assoc in IH.
    + intros Heq. apply (f_equal length) in Heq.
      rewrite !length_app in Heq. simpl in Heq. rewrite length_app in Heq.
      simpl in Heq. lia.
Qed.

Lemma parent_snoc (p : path) : p ≠ [] → ∃ c, p = parent p ++ [c].
Proof.
  intros Hne. induction p as [|c q _] using rev_ind; [done|].
  exists c. unfold parent. rewrite length_app. simpl.
  by rewrite Nat.add_sub, take_app_length.
Qed.

Lemma stat_insert (t : tree) (p : path) (x : entry) :
  p ≠ [] → isdir t (parent p) = true → stat (<[p := x]> t) p = inr x.
Proof.
  intros Hne Hdir. destruct (parent_snoc p Hne) as [c Hp].
  unfold isdir, stat in *.
  destruct (resolve_from t [] Dir (parent p)) as [k|[|content]] eqn:Hres; try done.
  rewrite Hp at 2. rewrite Hp at 1.
  by apply (resolve_from_insert_last t (parent p) [] Dir c x).
Qed.

Lemma components_nonempty (s cur : string) : components s cur ≠ [].
Proof.
  revert cur. induction s as [|c s IH]; intros cur; simpl; [done|].
  by case_decide.
Qed.

Lemma plain_path_of (s : string) :
  plain s → path_of s = components s EmptyString ∧ path_of s ≠ [].
Proof.
  intros [_ Hnames]. unfold path_of.
  assert (∀ l : list string,
            Forall (λ c, c ≠ EmptyString ∧ c ≠ "." ∧ c ≠ "..") l →
            filter (λ c, c ≠ EmptyString ∧ c ≠ ".") l = l) as Hfilter.
  { induction 1 as [|c l [H1 [H2 _]] _ IH]; [done|].
    rewrite filter_cons_True by done. by rewrite IH. }
  rewrite Hfilter by done. split; [done|]. apply components_nonempty.
Qed.

End os_facts.

(** * The scripts *)

Module scripts_more.
Import os os_facts.

Section scripts_facts.
Context (to_csv_raw : RawTable.t → string).
Context (to_csv_processed : ProcessedTable.t → string).
Context (read_csv : string → option RawTable.t).
Context (strerror : py.kind → string → string).

Lemma os_makedirs_effect (name : string) (w : world) (r : py.result ()) (w' : world) :
  os_makedirs strerror name w = (r, w') →
  logged w' = logged w
  ∧ (∀ p e, files w !! p = Some e → files w' !! p = Some e)
  ∧ (∀ p, p ∉ chain_from [] (path_of name) → files w' !! p = files w !! p).
Proof.
  unfold os_makedirs, makedirs. intros Hrun.
  pose proof (makedirs_from_preserves (path_of name) [] (files w)) as Hkeep.
  pose proof (makedirs_from_other (path_of name) [] (files w)) as Hother.
  destruct (makedirs_from [] (path_of name) (files w)) as [[k|] t];
    simplify_eq/=; done.
Qed.

Lemma os_makedirs_success (name : string) (w : world) :
  Forall (no_file (files w)) (chain_from [] (path_of name)) →
  os_makedirs strerror name w
  = (py.Ok (), {| files := with_dirs (chain_from [] (path_of name)) (files w);
                  logged := logged w |}).
Proof.
  intros Hall. unfold os_makedirs, makedirs.
  by rewrite (makedirs_from_success (path_of name) [] (files w) Hall).
Qed.

Lemma os_makedirs_failure (name : string) (w : world) :
  Exists (is_file (files w)) (chain_from [] (path_of name)) →
  ∃ k w', os_makedirs strerror name w = (py.Err (py.Error k (strerror k name)), w')
          ∧ (k = py.FileExistsError ∨ k = py.NotADirectoryError).
Proof.
  intros Hex. unfold os_makedirs, makedirs.
  destruct (makedirs_from_failure (path_of name) [] (files w) Hex) as [k Hk].
  assert (k = py.FileExistsError ∨ k = py.NotADirectoryError) as Hkind.
  { clear Hex. revert Hk. generalize (@nil string) (files w).
    induction (path_of name) as [|c rest IH]; intros cur t; simpl; [done|].
    destruct (t !! (cur ++ [c])) as [[|content]|]; [by apply IH| |by apply IH].
    simpl. intros [= <-]. destruct rest; [by left|by right]. }
  destruct (makedirs_from [] (path_of name) (files w)) as [[k'|] t];
    simplify_eq/=. by eexists _, _.
Qed.

Lemma ensure_directories_effect (w : world) (r : py.result ()) (w' : world) :
  ensure_directories strerror w = (r, w') →
  logged w' = logged w
  ∧ (∀ p e, files w !! p = Some e → files w' !! p = Some e)
  ∧ (∀ p, p ∉ [["logs"]; ["data"]; ["data"; "raw"]] → files w' !! p = files w !! p).
Proof.
  unfold ensure_directories, mbind, IO_bind.
  destruct (os_makedirs strerror "logs" w) as [[[]|e] w1] eqn:H1.
  - intros H2.
    destruct (os_makedirs_effect _ _ _ _ H1) as (Hl1 & Hk1 & Ho1).
    destruct (os_makedirs_effect _ _ _ _ H2) as (Hl2 & Hk2 & Ho2).
    split; [congruence|]. split; [by auto|].
    change (chain_from [] (path_of "logs")) with [["logs"]] in Ho1.
    change (chain_from [] (path_of "data/raw")) with [["data"]; ["data"; "raw"]] in Ho2.
    intros p Hp. rewrite Ho2, Ho1; [done| |];
      intros Hin; apply Hp; revert Hin;
      rewrite !elem_of_cons, !elem_of_nil; tauto.
  - intros [= <- <-].
    destruct (os_makedirs_effect _ _ _ _ H1) as (Hl1 & Hk1 & Ho1).
    change (chain_from [] (path_of "logs")) with [["logs"]] in Ho1.
    split; [done|]. split; [done|]. intros p Hp. apply Ho1.
    intros Hin; apply Hp; revert Hin.
    rewrite !elem_of_cons, !elem_of_nil; tauto.
Qed.

Lemma ensure_directories_success (w : world) :
  Forall (no_file (files w)) [["logs"]; ["data"]; ["data"; "raw"]] →
  ensure_directories strerror w
  = (py.Ok (),
     {| files := with_dirs [["logs"]; ["data"]; ["data"; "raw"]] (files w);
        logged := logged w |}).
Proof.
  intros Hall. unfold ensure_directories, mbind, IO_bind.
  apply Forall_cons in Hall as [Hlogs Hdata].
  rewrite os_makedirs_success by (by repeat constructor).
  rewrite os_makedirs_success; [done|].
  apply Forall_forall. intros p Hp content. cbn [files].
  change (chain_from [] (path_of "logs")) with [["logs"]].
  rewrite with_dirs_lookup_other.
  - by apply (proj1 (Forall_forall _ _) Hdata).
  - intros ->%list_elem_of_singleton.
    apply elem_of_cons in Hp as [?|Hp]; [done|].
    by apply list_elem_of_singleton in Hp.
Qed.

Lemma ensure_directories_failure (w : world) :
  Exists (is_file (files w)) [["logs"]; ["data"]; ["data"; "raw"]] →
  ∃ e w', ensure_directories strerror w = (py.Err e, w')
          ∧ py.is_OSError e = true.
Proof.
  intros Hex. unfold ensure_directories, mbind, IO_bind.
  assert (is_file (files w) ["logs"] ∨ no_file (files w) ["logs"]) as [Hlogs|Hlogs].
  { unfold is_file, no_file.
    destruct (files w !! ["logs"]) as [[|content]|]; [by right|left; by eexists|by right]. }
  - destruct (os_makedirs_failure "logs" w) as (k & w' & -> & Hk);
      [by apply Exists_cons_hd|].
    eexists _, _. split; [done|]. by destruct Hk as [-> | ->].
  - rewrite os_makedirs_success by (by repeat constructor).
    apply Exists_cons in Hex as [[content Hc]|Hex]; [by destruct (Hlogs content)|].
    destruct (os_makedirs_failure "data/raw"
                {| files := with_dirs (chain_from [] (path_of "logs")) (files w);
                   logged := logged w |}) as (k & w' & -> & Hk).
    + eapply Exists_impl; [exact Hex|]. intros p [content Hp]. exists content.
      cbn [files]. change (chain_from [] (path_of "logs")) with [["logs"]].
      rewrite with_dirs_lookup_other; [done|].
      intros ->%list_elem_of_singleton. by destruct (Hlogs content).
    + eexists _, _. split; [done|]. by destruct Hk as [-> | ->].
Qed.

(** X9: [ensure_directories] does what its docstring says.  It removes and
    overwrites nothing, touches no path but logs, data and data/raw, and
    logs nothing.  When none of the three is a file it returns with all
    three as directories, and calling it again changes nothing; when one of
    them is a file it raises an OSError. *)
Theorem ensure_directories_creates (w : world) :
  let dirs := [["logs"]; ["data"]; ["data"; "raw"]] in
  (∀ r w',
     ensure_directories strerror w = (r, w') →
     logged w' = logged w
     ∧ (∀ p e, files w !! p = Some e → files w' !! p = Some e)
     ∧ (∀ p, p ∉ dirs → files w' !! p = files w !! p))
  ∧ (Forall (no_file (files w)) dirs →
     let w1 := {| files := with_dirs dirs (files w); logged := logged w |} in
     ensure_directories strerror w = (py.Ok (), w1)
     ∧ Forall (λ p, files w1 !! p = Some Dir) dirs
     ∧ ensure_directories strerror w1 = (py.Ok (), w1))
  ∧ (Exists (is_file (files w)) dirs →
     ∃ e w', ensure_directories strerror w = (py.Err e, w')
             ∧ py.is_OSError e = true).
Proof.
  intros dirs. split; [|split].
  - apply ensure_directories_effect.
  - intros Hall w1. split; [by apply ensure_directories_success|].
    assert (Forall (λ p, files w1 !! p = Some Dir) dirs) as Hdirs.
    { apply Forall_forall. intros p Hp. by apply with_dirs_lookup. }
    split; [done|].
    rewrite ensure_directories_success.
    + subst w1 dirs. cbn [files logged].
      by rewrite (with_dirs_id _ (with_dirs _ (files w)) Hdirs).
    + eapply Forall_impl; [exact Hdirs|]. intros p Hp content. by rewrite Hp.
  - apply ensure_directories_failure.
Qed.

(** *** How the effects on the tree compose *)

Lemma touches_only_bind {A B : Type} (ps : list path) (m : IO A) (f : A → IO B) :
  touches_only ps m → (∀ a, touches_only ps (f a)) → touches_only ps (m ≫= f).
Proof.
  intros Hm Hf w r w' Hrun p Hp. unfold mbind, IO_bind in Hrun.
  destruct (m w) as [[a|e] w1] eqn:Hmw.
  - rewrite (Hf a w1 r w' Hrun p Hp). by apply (Hm w _ w1 Hmw).
  - simplify_eq. by apply (Hm w _ w' Hmw).
Qed.

Lemma touches_only_ret {A : Type} (ps : list path) (a : A) :
  touches_only ps (mret a : IO A).
Proof. by intros w r w' [= <- <-]. Qed.

Lemma touches_only_lift {A : Type} (ps : list path) (m : M A) :
  touches_only ps (lift strerror m).
Proof.
  intros w r w' Hrun p _. unfold lift in Hrun.
  by destruct (m (logged w)) as [[a|e] tr]; simplify_eq.
Qed.

Lemma touches_only_try_except {A : Type} (ps : list path) (body : IO A)
    (handles : py.error → bool) (handler : py.error → IO A) :
  touches_only ps body → (∀ e, touches_only ps (handler e)) →
  touches_only ps (try_except body handles handler).
Proof.
  intros Hbody Hhandler w r w' Hrun p Hp. unfold try_except in Hrun.
  destruct (body w) as [[a|e] w1] eqn:Hbw.
  - simplify_eq. by apply (Hbody w _ w' Hbw).
  - destruct (handles e).
    + rewrite (Hhandler e w1 r w' Hrun p Hp). by apply (Hbody w _ w1 Hbw).
    + simplify_eq. by apply (Hbody w _ w' Hbw).
Qed.

Lemma touches_only_makedirs (ps : list path) (name : string) :
  chain_from [] (path_of name) ⊆ ps → touches_only ps (os_makedirs strerror name).
Proof.
  intros Hsub w r w' Hrun p Hp.
  destruct (os_makedirs_effect name w r w' Hrun) as (_ & _ & Hother).
  apply Hother. intros Hin. by apply Hp, Hsub.
Qed.

Lemma touches_only_to_csv (ps : list path) (text path : string) :
  path_of path ∈ ps → touches_only ps (DataFrame_to_csv strerror text path).
Proof.
  intros Hin w r w' Hrun p Hp. unfold DataFrame_to_csv, write_file in Hrun.
  assert (p ≠ path_of path) as Hne by (by intros ->).
  destruct (isdir _ _); [|by simplify_eq].
  destruct (path_of path) as [|c q]; [by simplify_eq|].
  destruct (files w !! (c :: q)) as [[|content]|]; simplify_eq/=;
    by rewrite ?lookup_insert_ne.
Qed.

Lemma touches_only_read_csv (ps : list path) (path : string) :
  touches_only ps (pd_read_csv read_csv strerror path).
Proof.
  intros w r w' Hrun p _. unfold pd_read_csv in Hrun.
  destruct (read_file _ _) as [k|text]; [by simplify_eq|].
  by destruct (read_csv text); simplify_eq.
Qed.

Lemma touches_only_raise {A : Type} (ps : list path) (e : py.error) :
  touches_only ps (io_raise e : IO A).
Proof. by intros w r w' [= <- <-]. Qed.

(** [except Exception] with a handler that returns lets nothing escape. *)
Lemma try_except_Exception_returns {A : Type} (body : IO A)
    (handler : py.error → IO A) (w : world) :
  (∀ e w0, ∃ a w1, handler e w0 = (py.Ok a, w1)) →
  ∃ a w', try_except body py.is_Exception handler w = (py.Ok a, w').
Proof.
  intros Hhandler. unfold try_except.
  destruct (body w) as [[a|e] w1]; [by eexists _, _|]. apply Hhandler.
Qed.

(** *** Loading and saving *)

Lemma load_raw_data_missing (input_path : string) (w : world) :
  stat (files w) (path_of input_path) = inl py.FileNotFoundError →
  load_raw_data read_csv strerror input_path w
  = (py.Err (py.Error py.FileNotFoundError "Error loading raw data: File not found."),
     {| files := files w;
        logged := logged w
          ++ [Log INFO ("Loading raw data from " +:+ input_path +:+ "...");
              Log ERROR ("Error loading raw data: "
                         +:+ strerror py.FileNotFoundError input_path)] |}).
Proof.
  intros Hstat.
  unfold load_raw_data, try_except, mbind, IO_bind, lift, pd_read_csv, read_file.
  cbn -[String.append path_of]. rewrite Hstat. cbn -[String.append path_of].
  by rewrite <-app_assoc.
Qed.

(** X10: a missing input file: the library's FileNotFoundError is caught, its
    message is logged, and a new FileNotFoundError with the fixed message
    is raised, so the exception the caller sees no longer names the path.
    The tree is left as it is. *)
Theorem load_raw_data_missing_file (input_path : string) (w : world) :
  plain input_path →
  stat (files w) (path_of input_path) = inl py.FileNotFoundError →
  load_raw_data read_csv strerror input_path w
  = (py.Err (py.Error py.FileNotFoundError "Error loading raw data: File not found."),
     {| files := files w;
        logged := logged w
          ++ [Log INFO ("Loading raw data from " +:+ input_path +:+ "...");
              Log ERROR ("Error loading raw data: "
                         +:+ strerror py.FileNotFoundError input_path)] |}).
Proof. intros _. apply load_raw_data_missing. Qed.

Lemma load_raw_data_not_missing (input_path : string) (w : world) :
  stat (files w) (path_of input_path) ≠ inl py.FileNotFoundError →
  let w1 := {| files := files w;
               logged := logged w
                 ++ [Log INFO ("Loading raw data from " +:+ input_path +:+ "...")] |} in
  load_raw_data read_csv strerror input_path w
  = (match read_file (path_of input_path) (files w) with
     | inr text =>
       match read_csv text with
       | Some df => py.Ok df
       | None => py.Err (py.Error py.ValueError (strerror py.ValueError input_path))
       end
     | inl k => py.Err (py.Error k (strerror k input_path))
     end, w1).
Proof.
  intros Hstat w1.
  unfold load_raw_data, try_except, mbind, IO_bind, lift, pd_read_csv, read_file in *.
  cbn -[String.append path_of].
  destruct (stat (files w) (path_of input_path)) as [k|[|text]]; cbn -[String.append].
  - by destruct k.
  - done.
  - by destruct (read_csv text).
Qed.

(** X11: every other case is left to pandas: after the one INFO line the
    function returns the frame the file's text parses to, and a text that
    pandas rejects, a directory at the path or a file in the way of the
    path raises the library's exception as it is. *)
Theorem load_raw_data_found (input_path : string) (w : world) :
  plain input_path →
  stat (files w) (path_of input_path) ≠ inl py.FileNotFoundError →
  let w1 := {| files := files w;
               logged := logged w
                 ++ [Log INFO ("Loading raw data from " +:+ input_path +:+ "...")] |} in
  load_raw_data read_csv strerror input_path w
  = (match read_file (path_of input_path) (files w) with
     | inr text =>
       match read_csv text with
       | Some df => py.Ok df
       | None => py.Err (py.Error py.ValueError (strerror py.ValueError input_path))
       end
     | inl k => py.Err (py.Error k (strerror k input_path))
     end, w1).
Proof. intros _. apply load_raw_data_not_missing. Qed.

Lemma save_processed_data_run
    (df : ProcessedTable.t) (output_path : string) (w : world) :
  let p := path_of output_path in
  let started := Log INFO ("Saving processed data to " +:+ output_path +:+ "...") in
  (isdir (files w) (parent p) = true → p ≠ [] → files w !! p ≠ Some Dir →
   save_processed_data to_csv_processed strerror df output_path w
   = (py.Ok (),
      {| files := <[p := File (to_csv_processed df)]> (files w);
         logged := logged w
           ++ [started; Log INFO "Processed data saved successfully."] |}))
  ∧ (isdir (files w) (parent p) = false ∨ p = [] ∨ files w !! p = Some Dir →
     ∃ detail,
       save_processed_data to_csv_processed strerror df output_path w
       = (py.Err (py.Error py.OSError
                    "Error saving processed data: Invalid file path."),
          {| files := files w;
             logged := logged w
               ++ [started; Log ERROR ("Error saving processed data: " +:+ detail)] |})).
Proof.
  intros p started. subst started.
  unfold save_processed_data, try_except, mbind, IO_bind, lift, DataFrame_to_csv,
    write_file.
  cbn -[String.append path_of]. fold p. split.
  - intros -> Hne Hdir.
    destruct p as [|c p']; [done|].
    destruct (files w !! (c :: p')) as [[|content]|]; [done| |];
      cbn -[String.append]; by rewrite <-app_assoc.
  - intros Hfail.
    destruct (isdir (files w) (parent p)) eqn:Hparent.
    + destruct Hfail as [?|[->|Hdir]]; [done| |].
      * eexists. cbn -[String.append]. by rewrite <-app_assoc.
      * eexists. destruct p as [|c p']; [|rewrite Hdir];
          cbn -[String.append]; by rewrite <-app_assoc.
    + eexists. cbn -[String.append]. by rewrite <-app_assoc.
Qed.

(** X12: saving writes the text of the frame at the path and no other entry
    of the tree, when the path lies in a directory and is not itself a
    directory; otherwise the tree is left as it is, the library's message is
    logged and an OSError with the fixed message is raised. *)
Theorem save_processed_data_effect
    (df : ProcessedTable.t) (output_path : string) (w : world) :
  plain output_path →
  let p := path_of output_path in
  let started := Log INFO ("Saving processed data to " +:+ output_path +:+ "...") in
  (isdir (files w) (parent p) = true → files w !! p ≠ Some Dir →
   save_processed_data to_csv_processed strerror df output_path w
   = (py.Ok (),
      {| files := <[p := File (to_csv_processed df)]> (files w);
         logged := logged w
           ++ [started; Log INFO "Processed data saved successfully."] |}))
  ∧ (isdir (files w) (parent p) = false ∨ files w !! p = Some Dir →
     ∃ detail,
       save_processed_data to_csv_processed strerror df output_path w
       = (py.Err (py.Error py.OSError
                    "Error saving processed data: Invalid file path."),
          {| files := files w;
             logged := logged w
               ++ [started; Log ERROR ("Error saving processed data: " +:+ detail)] |})).
Proof.
  intros Hplain p started.
  destruct (plain_path_of output_path Hplain) as [_ Hne].
  destruct (save_processed_data_run df output_path w) as [Hsave Hfail].
  split.
  - intros Hparent Hdir. by apply Hsave.
  - intros [Hparent|Hdir]; apply Hfail; [by left|by right; right].
Qed.

(** X13: saving and loading compose: after a save that succeeded, loading the
    same path finds the file and returns what pandas parses from the text
    that was written; the two wrappers add nothing but their log lines. *)
Theorem save_then_load (df : ProcessedTable.t) (path : string) (w : world) :
  plain path →
  isdir (files w) (parent (path_of path)) = true →
  files w !! path_of path ≠ Some Dir →
  ∃ w1,
    save_processed_data to_csv_processed strerror df path w = (py.Ok (), w1)
    ∧ load_raw_data read_csv strerror path w1
      = (match read_csv (to_csv_processed df) with
         | Some raw => py.Ok raw
         | None => py.Err (py.Error py.ValueError (strerror py.ValueError path))
         end,
         {| files := files w1;
            logged := logged w1
              ++ [Log INFO ("Loading raw data from " +:+ path +:+ "...")] |}).
Proof.
  intros Hplain Hparent Hdir.
  destruct (plain_path_of path Hplain) as [_ Hne].
  destruct (save_processed_data_run df path w) as [Hsave _].
  eexists. split; [by apply Hsave|].
  pose proof (stat_insert (files w) (path_of path) (File (to_csv_processed df))
                Hne Hparent) as Hstat.
  rewrite load_raw_data_not_missing; cbn [files logged]; [|by rewrite Hstat].
  unfold read_file. by rewrite Hstat.
Qed.


(** *** The two entry points *)

Lemma write_file_success (t : tree) (p : path) (text : string) :
  isdir t (parent p) = true → p ≠ [] → t !! p ≠ Some Dir →
  write_file p text t = (None, <[p := File text]> t).
Proof.
  intros Hparent Hne Hdir. unfold write_file. rewrite Hparent.
  destruct p as [|c q]; [done|].
  by destruct (t !! (c :: q)) as [[|content]|].
Qed.

Lemma isdir_two (t : tree) (a b : string) :
  t !! [a] = Some Dir → t !! [a; b] = Some Dir → isdir t [a; b] = true.
Proof. intros Ha Hb. unfold isdir, stat. simpl. by rewrite Ha, Hb. Qed.

Lemma fetch_without_token
    (environ : string → option string) (srv : Server) (fuel : nat) (tr : trace) :
  environ "GITHUB_TOKEN" = None ∨ environ "GITHUB_TOKEN" = Some EmptyString →
  fetch_data.fetch_github_repos fuel environ srv tr
  = (Raise (EnvironmentError "GitHub token not found."),
     tr ++ [Log ERROR
       "GitHub token not found. Please set the GITHUB_TOKEN environment variable."]).
Proof. intros Henv. unfold fetch_data.fetch_github_repos. by destruct Henv as [-> | ->]. Qed.

Lemma token_cases (environ : string → option string) :
  (environ "GITHUB_TOKEN" = None ∨ environ "GITHUB_TOKEN" = Some EmptyString)
  ∨ ∃ github_token,
      environ "GITHUB_TOKEN" = Some github_token ∧ github_token ≠ EmptyString.
Proof.
  destruct (environ "GITHUB_TOKEN") as [[|c s]|]; [by left; right| |by left; left].
  right. by eexists.
Qed.

Lemma fetch_data_main_touches (fuel : nat) (environ : string → option string)
    (srv : Server) :
  touches_only fetch_paths (fetch_data_main to_csv_raw strerror fuel environ srv).
Proof.
  unfold fetch_data_main, ensure_directories, logging_exception.
  apply touches_only_try_except.
  - apply touches_only_bind; [apply touches_only_bind|].
    + apply touches_only_makedirs. intros p. unfold fetch_paths.
      change (chain_from [] (path_of "logs")) with [["logs"]].
      rewrite !elem_of_cons, !elem_of_nil. tauto.
    + intros _. apply touches_only_makedirs. intros p. unfold fetch_paths.
      change (chain_from [] (path_of "data/raw")) with [["data"]; ["data"; "raw"]].
      rewrite !elem_of_cons, !elem_of_nil. tauto.
    + intros _. apply touches_only_bind; [apply touches_only_lift|].
      intros [df|]; [|apply touches_only_ret].
      destruct (negb (RawTable.empty df)).
      * apply touches_only_bind.
        -- apply touches_only_to_csv. unfold fetch_paths.
           rewrite !elem_of_cons. by do 3 right; left.
        -- intros _. apply touches_only_bind; [apply touches_only_lift|].
           intros _. apply touches_only_ret.
      * apply touches_only_bind; [apply touches_only_lift|].
        intros _. apply touches_only_ret.
  - intros e. apply touches_only_bind; [apply touches_only_lift|].
    intros _. apply touches_only_ret.
Qed.

(** X14: the fetcher's entry point lets no exception escape, whatever the
    environment, the server and the file tree are, and, the log file apart,
    changes no entry of the tree other than logs, data, data/raw and
    data/raw/github_repos.csv. *)
Theorem fetch_data_main_never_raises (fuel : nat)
    (environ : string → option string) (srv : Server) (w : world) :
  (10 ≤ fuel)%nat →
  ∃ w',
    fetch_data_main to_csv_raw strerror fuel environ srv w = (py.Ok (Some ()), w')
    ∧ ∀ p, p ∉ fetch_paths → files w' !! p = files w !! p.
Proof.
  intros Hfuel.
  assert (∃ w', fetch_data_main to_csv_raw strerror fuel environ srv w
                = (py.Ok (Some ()), w')) as [w' Hrun].
  { unfold fetch_data_main, try_except, logging_exception.
    destruct ((ensure_directories strerror ≫= _) w) as [[a|e] w1] eqn:Hbody;
      [|by eexists].
    exists w1. f_equal. f_equal.
    unfold mbind, IO_bind in Hbody.
    destruct (ensure_directories strerror w) as [[[]|e] w0]; [|done].
    destruct (token_cases environ) as [Hno|(github_token & Henv & Htok)].
    - unfold lift in Hbody. by rewrite (fetch_without_token _ _ _ _ Hno) in Hbody.
    - destruct (fetch_data_more.fetch_run environ srv github_token fuel (logged w0)
                  Henv Htok Hfuel) as (events & Hfetch & _).
      unfold lift in Hbody. rewrite Hfetch in Hbody.
      unfold logging.info, logging.warning, emit, mret, IO_ret in Hbody.
      destruct (negb _).
      + destruct (DataFrame_to_csv _ _ _ _) as [[[]|e] w2]; by simplify_eq/=.
      + by simplify_eq/=. }
  exists w'. split; [done|].
  intros p Hp. by apply (fetch_data_main_touches fuel environ srv w _ w' Hrun).
Qed.


(** X15: without a token, or with a file in the way of one of its directories,
    the fetcher's entry point sends no request and does not write the CSV
    file: it logs the failure as an ERROR line and returns. *)
Theorem fetch_data_main_stops_early (fuel : nat)
    (environ : string → option string) (srv : Server) (w : world) :
  (environ "GITHUB_TOKEN" = None ∨ environ "GITHUB_TOKEN" = Some EmptyString)
  ∨ Exists (is_file (files w)) [["logs"]; ["data"]; ["data"; "raw"]] →
  ∃ w' lines,
    fetch_data_main to_csv_raw strerror fuel environ srv w = (py.Ok (Some ()), w')
    ∧ logged w' = logged w ++ lines ++ [Log ERROR "An error occurred during execution."]
    ∧ http_requests (logged w') = http_requests (logged w)
    ∧ files w' !! ["data"; "raw"; "github_repos.csv"]
      = files w !! ["data"; "raw"; "github_repos.csv"].
Proof.
  intros Hwhy.
  unfold fetch_data_main, try_except, logging_exception, mbind, IO_bind.
  destruct (ensure_directories strerror w) as [[[]|e] w0] eqn:Hensure.
  - destruct (ensure_directories_effect w _ w0 Hensure) as (Hlog & _ & Hother).
    destruct Hwhy as [Hno|Hblocked].
    2:{ destruct (ensure_directories_failure w Hblocked) as (e & w1 & He & _).
        congruence. }
    unfold lift. rewrite (fetch_without_token _ _ _ _ Hno).
    unfold logging.error, emit. cbn -[String.append].
    eexists _, [_]. split; [done|]. cbn [files logged]. rewrite Hlog.
    split; [by rewrite <-app_assoc|]. split.
    + by rewrite !fetch_data_spec.http_requests_app,
        !fetch_data_spec.http_requests_log, fetch_data_spec.http_requests_nil,
        !app_nil_r.
    + apply Hother. rewrite !elem_of_cons, elem_of_nil.
      by intros [?|[?|[?|?]]].
  - destruct (ensure_directories_effect w _ w0 Hensure) as (Hlog & _ & Hother).
    unfold lift, logging.error, emit. cbn -[String.append].
    eexists _, []. split; [done|]. cbn [files logged]. rewrite Hlog.
    split; [done|]. split.
    + by rewrite !fetch_data_spec.http_requests_app,
        !fetch_data_spec.http_requests_log, fetch_data_spec.http_requests_nil,
        !app_nil_r.
    + apply Hother. rewrite !elem_of_cons, elem_of_nil.
      by intros [?|[?|[?|?]]].
Qed.

(** X16: with a token, directories that can be created and no directory at the
    place of the CSV file, the fetcher's entry point writes the frame it
    fetched to data/raw/github_repos.csv, unless the frame is empty: then it
    writes no file and the WARNING "No data fetched." is the last line
    logged.  The requests are those of [fetch_github_repos]. *)
Theorem fetch_data_main_saves (fuel : nat)
    (environ : string → option string) (srv : Server) (github_token : string)
    (w : world) :
  environ "GITHUB_TOKEN" = Some github_token →
  github_token ≠ EmptyString →
  (10 ≤ fuel)%nat →
  Forall (no_file (files w)) [["logs"]; ["data"]; ["data"; "raw"]] →
  files w !! ["data"; "raw"; "github_repos.csv"] ≠ Some Dir →
  let k := pages.pages_passed srv github_token 1 10 in
  let df := pd_DataFrame (concat (fetch_data.page_records srv github_token
                                    <$> fetch_data.page_range 1 k)) in
  let t1 := with_dirs [["logs"]; ["data"]; ["data"; "raw"]] (files w) in
  ∃ events,
    fetch_data_main to_csv_raw strerror fuel environ srv w
    = (py.Ok (Some ()),
       {| files := if RawTable.empty df then t1
                   else <[["data"; "raw"; "github_repos.csv"]
                            := File (to_csv_raw df)]> t1;
          logged := logged w ++ events
                    ++ [if RawTable.empty df
                        then Log WARNING "No data fetched."
                        else Log INFO "Data saved to data/raw/github_repos.csv"] |})
    ∧ http_requests events
      = fetch_data.request_of github_token
          <$> fetch_data.page_range 1 (Nat.min (S k) 10).
Proof.
  intros Henv Htok Hfuel Hdirs Hcsv k df t1.
  unfold fetch_data_main, try_except, mbind, IO_bind.
  rewrite ensure_directories_success by done. fold t1.
  destruct (fetch_data_more.fetch_run environ srv github_token fuel (logged w)
              Henv Htok Hfuel) as (events & Hfetch & Hrequests & _).
  fold k in Hfetch, Hrequests. fold df in Hfetch.
  unfold lift at 1. cbn [files logged]. rewrite Hfetch.
  destruct (RawTable.empty df) eqn:Hempty; cbn [negb].
  - unfold lift, logging.warning, emit, mret, IO_ret. cbn [files logged].
    exists events. split; [|by rewrite Hrequests].
    by rewrite <-app_assoc.
  - unfold DataFrame_to_csv. cbn [files logged].
    change (path_of "data/raw/github_repos.csv")
      with ["data"; "raw"; "github_repos.csv"].
    rewrite write_file_success.
    + unfold lift, logging.info, emit, mret, IO_ret. cbn -[String.append].
      exists events. split; [|by rewrite Hrequests].
      by rewrite <-app_assoc.
    + change (parent ["data"; "raw"; "github_repos.csv"]) with ["data"; "raw"].
      apply isdir_two; apply with_dirs_lookup;
        rewrite !elem_of_cons; by auto.
    + done.
    + subst t1. rewrite with_dirs_lookup_other; [done|].
      rewrite !elem_of_cons, elem_of_nil. by intros [?|[?|[?|?]]].
Qed.


Lemma touches_only_load (ps : list path) (input_path : string) :
  touches_only ps (load_raw_data read_csv strerror input_path).
Proof.
  unfold load_raw_data. apply touches_only_try_except.
  - apply touches_only_bind; [apply touches_only_lift|].
    intros _. apply touches_only_read_csv.
  - intros e. apply touches_only_bind; [apply touches_only_lift|].
    intros _. apply touches_only_raise.
Qed.

Lemma touches_only_save (ps : list path) (df : ProcessedTable.t) (output_path : string) :
  path_of output_path ∈ ps →
  touches_only ps (save_processed_data to_csv_processed strerror df output_path).
Proof.
  intros Hin. unfold save_processed_data. apply touches_only_try_except.
  - apply touches_only_bind; [apply touches_only_lift|].
    intros _. apply touches_only_bind; [by apply touches_only_to_csv|].
    intros _. apply touches_only_lift.
  - intros e. apply touches_only_bind; [apply touches_only_lift|].
    intros _. apply touches_only_raise.
Qed.

Lemma process_dirs_success (w : world) :
  Forall (no_file (files w)) [["logs"]; ["data"]; ["data"; "processed"]] →
  ∃ w0,
    os_makedirs strerror "logs" w = (py.Ok (), w0)
    ∧ os_makedirs strerror "data/processed" w0
      = (py.Ok (),
         {| files := with_dirs [["logs"]; ["data"]; ["data"; "processed"]] (files w);
            logged := logged w |}).
Proof.
  intros Hall. apply Forall_cons in Hall as [Hlogs Hdata].
  eexists. split; [by rewrite os_makedirs_success by (by repeat constructor)|].
  rewrite os_makedirs_success; [done|].
  apply Forall_forall. intros p Hp content. cbn [files].
  change (chain_from [] (path_of "logs")) with [["logs"]].
  rewrite with_dirs_lookup_other.
  - by apply (proj1 (Forall_forall _ _) Hdata).
  - intros ->%list_elem_of_singleton.
    apply elem_of_cons in Hp as [?|Hp]; [done|].
    by apply list_elem_of_singleton in Hp.
Qed.

(** X17: the processor's entry point lets no exception escape and, the log
    file apart, changes no entry of the tree other than logs, data,
    data/processed and data/processed/github_repos_processed.csv; in
    particular it never changes the raw file it reads. *)
Theorem process_data_main_never_raises
    (to_datetime : list string → option Datetimes.t) (now : Timestamp) (w : world) :
  ∃ w',
    process_data_main to_csv_processed read_csv strerror to_datetime now w
    = (py.Ok (), w')
    ∧ (∀ p, p ∉ process_paths → files w' !! p = files w !! p)
    ∧ files w' !! ["data"; "raw"; "github_repos.csv"]
      = files w !! ["data"; "raw"; "github_repos.csv"].
Proof.
  assert (touches_only process_paths
            (process_data_main to_csv_processed read_csv strerror to_datetime now))
    as Htouch.
  { unfold process_data_main, logging_exception. apply touches_only_try_except.
    - apply touches_only_bind.
      + apply touches_only_makedirs. intros p. unfold process_paths.
        change (chain_from [] (path_of "logs")) with [["logs"]].
        rewrite !elem_of_cons, !elem_of_nil. tauto.
      + intros _. apply touches_only_bind.
        * apply touches_only_makedirs. intros p. unfold process_paths.
          change (chain_from [] (path_of "data/processed"))
            with [["data"]; ["data"; "processed"]].
          rewrite !elem_of_cons, !elem_of_nil. tauto.
        * intros _. apply touches_only_bind; [apply touches_only_load|].
          intros raw. apply touches_only_bind; [apply touches_only_lift|].
          intros processed. apply touches_only_save. unfold process_paths.
          rewrite !elem_of_cons. by do 3 right; left.
    - intros e. apply touches_only_lift. }
  destruct (try_except_Exception_returns
              (os_makedirs strerror "logs" ≫= λ _,
               os_makedirs strerror "data/processed" ≫= λ _,
               load_raw_data read_csv strerror "data/raw/github_repos.csv" ≫= λ raw_data,
               lift strerror (process_data.process_data to_datetime now raw_data)
               ≫= λ processed_data,
               save_processed_data to_csv_processed strerror processed_data
                 "data/processed/github_repos_processed.csv")
              (λ e, logging_exception strerror "An error occurred during data processing.")
              w) as ([] & w' & Hrun).
  { intros e w0. by eexists _, _. }
  exists w'. split; [exact Hrun|].
  split.
  - intros p Hp. by apply (Htouch w _ w' Hrun).
  - apply (Htouch w _ w' Hrun). unfold process_paths.
    rewrite !elem_of_cons, elem_of_nil. by intros [?|[?|[?|[?|?]]]].
Qed.

(** X18: when the raw file is there and parses to a frame whose two date
    columns parse, and the output directories can be created, the
    processor's entry point writes the text of the processed table to
    data/processed/github_repos_processed.csv and logs its five INFO lines. *)
Theorem process_data_main_writes
    (to_datetime : list string → option Datetimes.t) (now : Timestamp) (w : world)
    (text : string) (raw : RawTable.t) :
  Forall (no_file (files w)) [["logs"]; ["data"]; ["data"; "processed"]] →
  files w !! ["data"; "raw"] = Some Dir →
  files w !! ["data"; "raw"; "github_repos.csv"] = Some (File text) →
  read_csv text = Some raw →
  process_data.dates_parse to_datetime now raw →
  files w !! ["data"; "processed"; "github_repos_processed.csv"] ≠ Some Dir →
  let loading := Log INFO "Loading raw data from data/raw/github_repos.csv..." in
  ∃ processed,
    process_data.process_data to_datetime now raw (logged w ++ [loading])
    = (Return processed,
       (logged w ++ [loading])
       ++ [Log INFO "Processing data..."; Log INFO "Data processing complete."])
    ∧ process_data_main to_csv_processed read_csv strerror to_datetime now w
      = (py.Ok (),
         {| files := <[["data"; "processed"; "github_repos_processed.csv"]
                         := File (to_csv_processed processed)]>
                       (with_dirs [["logs"]; ["data"]; ["data"; "processed"]] (files w));
            logged := logged w
              ++ [loading;
                  Log INFO "Processing data...";
                  Log INFO "Data processing complete.";
                  Log INFO "Saving processed data to data/processed/github_repos_processed.csv...";
                  Log INFO "Processed data saved successfully."] |}).
Proof.
  intros Hdirs Hraw Hinput Hparse Hdates Hout loading.
  destruct (process_data_spec.process_data_run to_datetime now raw
              (logged w ++ [loading]) Hdates) as (processed & _ & _ & Hrun & _).
  exists processed. split; [exact Hrun|].
  set (t1 := with_dirs [["logs"]; ["data"]; ["data"; "processed"]] (files w)).
  assert (t1 !! ["data"] = Some Dir) as Hdata
    by (apply with_dirs_lookup; rewrite !elem_of_cons; by auto).
  assert (t1 !! ["data"; "processed"] = Some Dir) as Hprocessed
    by (apply with_dirs_lookup; rewrite !elem_of_cons; by auto).
  assert (∀ p, p ∉ [["logs"]; ["data"]; ["data"; "processed"]] → t1 !! p = files w !! p)
    as Hother by (intros p Hp; by apply with_dirs_lookup_other).
  assert (t1 !! ["data"; "raw"] = Some Dir) as Hraw1.
  { rewrite Hother; [done|]. rewrite !elem_of_cons, elem_of_nil. by intros [?|[?|[?|?]]]. }
  assert (t1 !! ["data"; "raw"; "github_repos.csv"] = Some (File text)) as Hinput1.
  { rewrite Hother; [done|]. rewrite !elem_of_cons, elem_of_nil. by intros [?|[?|[?|?]]]. }
  assert (t1 !! ["data"; "processed"; "github_repos_processed.csv"] ≠ Some Dir) as Hout1.
  { rewrite Hother; [done|]. rewrite !elem_of_cons, elem_of_nil. by intros [?|[?|[?|?]]]. }
  destruct (process_dirs_success w Hdirs) as (w0 & Hlogs & Hmade). fold t1 in Hmade.
  unfold process_data_main, try_except.
  unfold mbind at 1. unfold IO_bind at 1. rewrite Hlogs.
  unfold mbind at 1. unfold IO_bind at 1. rewrite Hmade.
  unfold mbind at 1. unfold IO_bind at 1.
  rewrite load_raw_data_not_missing; cbn [files logged].
  2:{ change (path_of "data/raw/github_repos.csv")
        with ["data"; "raw"; "github_repos.csv"].
      unfold stat. simpl. by rewrite Hdata, Hraw1, Hinput1. }
  change (path_of "data/raw/github_repos.csv") with ["data"; "raw"; "github_repos.csv"].
  assert (read_file ["data"; "raw"; "github_repos.csv"] t1 = inr text) as ->.
  { unfold read_file, stat. simpl. by rewrite Hdata, Hraw1, Hinput1. }
  rewrite Hparse.
  unfold mbind at 1. unfold IO_bind at 1.
  unfold lift at 1. cbn [files logged].
  match goal with
  | |- context [process_data.process_data _ _ _ ?tr] =>
    change tr with (logged w ++ [loading])
  end.
  rewrite Hrun.
  destruct (save_processed_data_run processed
              "data/processed/github_repos_processed.csv"
              {| files := t1;
                 logged := (logged w ++ [loading])
                           ++ [Log INFO "Processing data...";
                               Log INFO "Data processing complete."] |})
    as [Hsave _].
  rewrite Hsave; cbn [files logged].
  - change (path_of "data/processed/github_repos_processed.csv")
      with ["data"; "processed"; "github_repos_processed.csv"].
    by rewrite <-!app_assoc.
  - change (path_of "data/processed/github_repos_processed.csv")
      with ["data"; "processed"; "github_repos_processed.csv"].
    change (parent _) with ["data"; "processed"]. by apply isdir_two.
  - done.
  - done.
Qed.

(** X19: when the raw file is missing the processor's entry point writes no
    output: it creates its directories, logs the failed load twice, once
    with the library's message and once as the failure of the run, and
    returns. *)
Theorem process_data_main_missing_input
    (to_datetime : list string → option Datetimes.t) (now : Timestamp) (w : world) :
  Forall (no_file (files w)) [["logs"]; ["data"]; ["data"; "processed"]] →
  no_file (files w) ["data"; "raw"] →
  files w !! ["data"; "raw"; "github_repos.csv"] = None →
  process_data_main to_csv_processed read_csv strerror to_datetime now w
  = (py.Ok (),
     {| files := with_dirs [["logs"]; ["data"]; ["data"; "processed"]] (files w);
        logged := logged w
          ++ [Log INFO "Loading raw data from data/raw/github_repos.csv...";
              Log ERROR ("Error loading raw data: "
                         +:+ strerror py.FileNotFoundError "data/raw/github_repos.csv");
              Log ERROR "An error occurred during data processing."] |}).
Proof.
  intros Hdirs Hraw Hinput.
  set (t1 := with_dirs [["logs"]; ["data"]; ["data"; "processed"]] (files w)).
  assert (t1 !! ["data"] = Some Dir) as Hdata
    by (apply with_dirs_lookup; rewrite !elem_of_cons; by auto).
  assert (∀ p, p ∉ [["logs"]; ["data"]; ["data"; "processed"]] → t1 !! p = files w !! p)
    as Hother by (intros p Hp; by apply with_dirs_lookup_other).
  assert (stat t1 ["data"; "raw"; "github_repos.csv"] = inl py.FileNotFoundError)
    as Hstat.
  { unfold stat. simpl. rewrite Hdata.
    rewrite (Hother ["data"; "raw"])
      by (rewrite !elem_of_cons, elem_of_nil; by intros [?|[?|[?|?]]]).
    rewrite (Hother ["data"; "raw"; "github_repos.csv"])
      by (rewrite !elem_of_cons, elem_of_nil; by intros [?|[?|[?|?]]]).
    destruct (files w !! ["data"; "raw"]) as [[|content]|] eqn:Hlook.
    - by rewrite Hinput.
    - by destruct (Hraw content).
    - done. }
  destruct (process_dirs_success w Hdirs) as (w0 & Hlogs & Hmade). fold t1 in Hmade.
  unfold process_data_main, try_except.
  unfold mbind at 1. unfold IO_bind at 1. rewrite Hlogs.
  unfold mbind at 1. unfold IO_bind at 1. rewrite Hmade.
  unfold mbind at 1. unfold IO_bind at 1.
  rewrite load_raw_data_missing by done.
  unfold py.is_Exception, logging_exception, lift, logging.error, emit.
  cbn -[String.append with_dirs]. by rewrite <-app_assoc.
Qed.

End scripts_facts.

Lemma no_file_empty (p : path) : no_file ∅ p.
Proof. intros content. by rewrite lookup_empty. Qed.

Lemma load_raw_data_missing_file_witness :
  plain "non_existent_file.csv"
  ∧ stat (files (World ∅ [])) (path_of "non_existent_file.csv") = inl py.FileNotFoundError
  ∧ load_raw_data sample_read_csv sample_strerror "non_existent_file.csv" (World ∅ [])
    = (py.Err (py.Error py.FileNotFoundError "Error loading raw data: File not found."),
       {| files := files (World ∅ []);
          logged := logged (World ∅ [])
            ++ [Log INFO ("Loading raw data from " +:+ "non_existent_file.csv" +:+ "...");
                Log ERROR ("Error loading raw data: "
                           +:+ sample_strerror py.FileNotFoundError
                                 "non_existent_file.csv")] |}).
Proof.
  assert (stat (files (World ∅ [])) (path_of "non_existent_file.csv")
          = inl py.FileNotFoundError) as Hstat by reflexivity.
  assert (plain "non_existent_file.csv") as Hplain
    by (apply (bool_decide_unpack _); vm_compute; exact I).
  split; [exact Hplain|]. split; [exact Hstat|].
  exact (load_raw_data_missing_file sample_read_csv sample_strerror
           "non_existent_file.csv" (World ∅ []) Hplain Hstat).
Defined.

Lemma load_raw_data_found_witness :
  plain "data/raw/github_repos.csv"
  ∧ stat (files (World sample_tree [])) (path_of "data/raw/github_repos.csv")
  ≠ inl py.FileNotFoundError
  ∧ let w1 := {| files := files (World sample_tree []);
                 logged := logged (World sample_tree [])
                   ++ [Log INFO ("Loading raw data from "
                                 +:+ "data/raw/github_repos.csv" +:+ "...")] |} in
    load_raw_data sample_read_csv sample_strerror "data/raw/github_repos.csv"
      (World sample_tree [])
    = (match read_file (path_of "data/raw/github_repos.csv")
               (files (World sample_tree [])) with
       | inr text =>
         match sample_read_csv text with
         | Some df => py.Ok df
         | None =>
           py.Err (py.Error py.ValueError
                     (sample_strerror py.ValueError "data/raw/github_repos.csv"))
         end
       | inl k => py.Err (py.Error k (sample_strerror k "data/raw/github_repos.csv"))
       end, w1).
Proof.
  assert (stat (files (World sample_tree [])) (path_of "data/raw/github_repos.csv")
          ≠ inl py.FileNotFoundError) as Hstat by (vm_compute; discriminate).
  assert (plain "data/raw/github_repos.csv") as Hplain
    by (apply (bool_decide_unpack _); vm_compute; exact I).
  split; [exact Hplain|]. split; [exact Hstat|].
  exact (load_raw_data_found sample_read_csv sample_strerror
           "data/raw/github_repos.csv" (World sample_tree []) Hplain Hstat).
Defined.

Lemma save_then_load_witness :
  plain "output.csv"
  ∧ isdir (files (World ∅ [])) (parent (path_of "output.csv")) = true
  ∧ files (World ∅ []) !! path_of "output.csv" ≠ Some Dir
  ∧ ∃ w1,
      save_processed_data sample_to_csv_processed sample_strerror
        (ProcessedTable.mk ["repo1"] [] [] [] [] [] [] [] [] [] [] [] [] [] [] [] [] [] [])
        "output.csv" (World ∅ []) = (py.Ok (), w1)
      ∧ load_raw_data sample_read_csv sample_strerror "output.csv" w1
        = (match sample_read_csv
                   (sample_to_csv_processed
                      (ProcessedTable.mk ["repo1"] [] [] [] [] [] [] [] [] [] [] [] []
                         [] [] [] [] [] [])) with
           | Some raw => py.Ok raw
           | None =>
             py.Err (py.Error py.ValueError (sample_strerror py.ValueError "output.csv"))
           end,
           {| files := files w1;
              logged := logged w1
                ++ [Log INFO ("Loading raw data from " +:+ "output.csv" +:+ "...")] |}).
Proof.
  assert (isdir (files (World ∅ [])) (parent (path_of "output.csv")) = true)
    as Hparent by reflexivity.
  assert (plain "output.csv") as Hplain
    by (apply (bool_decide_unpack _); vm_compute; exact I).
  assert (files (World ∅ []) !! path_of "output.csv" ≠ Some Dir) as Hdir
    by (simpl; rewrite lookup_empty; discriminate).
  repeat (split; [assumption|]).
  exact (save_then_load sample_to_csv_processed sample_read_csv sample_strerror
           _ "output.csv" (World ∅ []) Hplain Hparent Hdir).
Defined.

Lemma save_processed_data_effect_witness :
  plain "output.csv"
  ∧ let p := path_of "output.csv" in
    let df := ProcessedTable.mk ["repo1"] [] [] [] [] [] [] [] [] [] [] [] [] [] []
                [] [] [] [] in
    let started := Log INFO ("Saving processed data to " +:+ "output.csv" +:+ "...") in
    (isdir (files (World ∅ [])) (parent p) = true →
     files (World ∅ []) !! p ≠ Some Dir →
     save_processed_data sample_to_csv_processed sample_strerror df "output.csv"
       (World ∅ [])
     = (py.Ok (),
        {| files := <[p := File (sample_to_csv_processed df)]> (files (World ∅ []));
           logged := logged (World ∅ [])
             ++ [started; Log INFO "Processed data saved successfully."] |}))
    ∧ (isdir (files (World ∅ [])) (parent p) = false
       ∨ files (World ∅ []) !! p = Some Dir →
       ∃ detail,
         save_processed_data sample_to_csv_processed sample_strerror df "output.csv"
           (World ∅ [])
         = (py.Err (py.Error py.OSError
                      "Error saving processed data: Invalid file path."),
            {| files := files (World ∅ []);
               logged := logged (World ∅ [])
                 ++ [started;
                     Log ERROR ("Error saving processed data: " +:+ detail)] |})).
Proof.
  assert (plain "output.csv") as Hplain
    by (apply (bool_decide_unpack _); vm_compute; exact I).
  split; [exact Hplain|].
  exact (save_processed_data_effect sample_to_csv_processed sample_strerror
           _ "output.csv" (World ∅ []) Hplain).
Defined.

Lemma fetch_data_main_never_raises_witness :
  (10 ≤ 10)%nat
  ∧ ∃ w',
      fetch_data_main sample_to_csv_raw sample_strerror 10
        fetch_data.sample_environ fetch_data.sample_server (World ∅ [])
      = (py.Ok (Some ()), w')
      ∧ ∀ p, p ∉ fetch_paths → files w' !! p = files (World ∅ []) !! p.
Proof.
  assert (10 ≤ 10)%nat as Hfuel by lia.
  split; [exact Hfuel|].
  exact (fetch_data_main_never_raises sample_to_csv_raw sample_strerror 10
           fetch_data.sample_environ fetch_data.sample_server (World ∅ []) Hfuel).
Defined.

Lemma fetch_data_main_stops_early_witness :
  ((fetch_data.blank_environ "GITHUB_TOKEN" = None
    ∨ fetch_data.blank_environ "GITHUB_TOKEN" = Some EmptyString)
   ∨ Exists (is_file (files (World ∅ []))) [["logs"]; ["data"]; ["data"; "raw"]])
  ∧ ∃ w' lines,
      fetch_data_main sample_to_csv_raw sample_strerror 10
        fetch_data.blank_environ fetch_data.sample_server (World ∅ [])
      = (py.Ok (Some ()), w')
      ∧ logged w' = logged (World ∅ []) ++ lines
                    ++ [Log ERROR "An error occurred during execution."]
      ∧ http_requests (logged w') = http_requests (logged (World ∅ []))
      ∧ files w' !! ["data"; "raw"; "github_repos.csv"]
        = files (World ∅ []) !! ["data"; "raw"; "github_repos.csv"].
Proof.
  assert ((fetch_data.blank_environ "GITHUB_TOKEN" = None
           ∨ fetch_data.blank_environ "GITHUB_TOKEN" = Some EmptyString)
          ∨ Exists (is_file (files (World ∅ []))) [["logs"]; ["data"]; ["data"; "raw"]])
    as Hwhy by (left; right; reflexivity).
  split; [exact Hwhy|].
  exact (fetch_data_main_stops_early sample_to_csv_raw sample_strerror 10
           fetch_data.blank_environ fetch_data.sample_server (World ∅ []) Hwhy).
Defined.

Lemma fetch_data_main_saves_witness :
  fetch_data.sample_environ "GITHUB_TOKEN" = Some "fake_token"
  ∧ "fake_token" ≠ EmptyString
  ∧ (10 ≤ 10)%nat
  ∧ Forall (no_file (files (World ∅ []))) [["logs"]; ["data"]; ["data"; "raw"]]
  ∧ files (World ∅ []) !! ["data"; "raw"; "github_repos.csv"] ≠ Some Dir
  ∧ let k := pages.pages_passed fetch_data.sample_server "fake_token" 1 10 in
    let df := pd_DataFrame (concat (fetch_data.page_records fetch_data.sample_server
                                      "fake_token" <$> fetch_data.page_range 1 k)) in
    let t1 := with_dirs [["logs"]; ["data"]; ["data"; "raw"]] (files (World ∅ [])) in
    ∃ events,
      fetch_data_main sample_to_csv_raw sample_strerror 10
        fetch_data.sample_environ fetch_data.sample_server (World ∅ [])
      = (py.Ok (Some ()),
         {| files := if RawTable.empty df then t1
                     else <[["data"; "raw"; "github_repos.csv"]
                              := File (sample_to_csv_raw df)]> t1;
            logged := logged (World ∅ []) ++ events
                      ++ [if RawTable.empty df
                          then Log WARNING "No data fetched."
                          else Log INFO "Data saved to data/raw/github_repos.csv"] |})
      ∧ http_requests events
        = fetch_data.request_of "fake_token"
            <$> fetch_data.page_range 1 (Nat.min (S k) 10).
Proof.
  assert (fetch_data.sample_environ "GITHUB_TOKEN" = Some "fake_token") as Henv
    by reflexivity.
  assert ("fake_token" ≠ EmptyString) as Htok by discriminate.
  assert (10 ≤ 10)%nat as Hfuel by lia.
  assert (Forall (no_file (files (World ∅ []))) [["logs"]; ["data"]; ["data"; "raw"]])
    as Hdirs by (repeat constructor; apply no_file_empty).
  assert (files (World ∅ []) !! ["data"; "raw"; "github_repos.csv"] ≠ Some Dir) as Hcsv
    by (simpl; rewrite lookup_empty; discriminate).
  repeat (split; [assumption|]).
  exact (fetch_data_main_saves sample_to_csv_raw sample_strerror 10
           fetch_data.sample_environ fetch_data.sample_server "fake_token" (World ∅ [])
           Henv Htok Hfuel Hdirs Hcsv).
Defined.

Lemma process_data_main_writes_witness :
  Forall (no_file (files (World sample_tree [])))
         [["logs"]; ["data"]; ["data"; "processed"]]
  ∧ files (World sample_tree []) !! ["data"; "raw"] = Some Dir
  ∧ files (World sample_tree []) !! ["data"; "raw"; "github_repos.csv"]
    = Some (File "repo1,repo2")
  ∧ sample_read_csv "repo1,repo2" = Some process_data.sample_raw_data
  ∧ process_data.dates_parse process_data.sample_to_datetime process_data.sample_now
      process_data.sample_raw_data
  ∧ files (World sample_tree []) !! ["data"; "processed"; "github_repos_processed.csv"]
    ≠ Some Dir
  ∧ let loading := Log INFO "Loading raw data from data/raw/github_repos.csv..." in
    ∃ processed,
      process_data.process_data process_data.sample_to_datetime process_data.sample_now
        process_data.sample_raw_data (logged (World sample_tree []) ++ [loading])
      = (Return processed,
         (logged (World sample_tree []) ++ [loading])
         ++ [Log INFO "Processing data..."; Log INFO "Data processing complete."])
      ∧ process_data_main sample_to_csv_processed sample_read_csv sample_strerror
          process_data.sample_to_datetime process_data.sample_now (World sample_tree [])
        = (py.Ok (),
           {| files := <[["data"; "processed"; "github_repos_processed.csv"]
                           := File (sample_to_csv_processed processed)]>
                         (with_dirs [["logs"]; ["data"]; ["data"; "processed"]]
                            (files (World sample_tree [])));
              logged := logged (World sample_tree [])
                ++ [loading;
                    Log INFO "Processing data...";
                    Log INFO "Data processing complete.";
                    Log INFO "Saving processed data to data/processed/github_repos_processed.csv...";
                    Log INFO "Processed data saved successfully."] |}).
Proof.
  assert (Forall (no_file (files (World sample_tree [])))
                 [["logs"]; ["data"]; ["data"; "processed"]]) as Hdirs
    by (repeat constructor; intros content; vm_compute; discriminate).
  assert (files (World sample_tree []) !! ["data"; "raw"] = Some Dir) as Hraw
    by reflexivity.
  assert (files (World sample_tree []) !! ["data"; "raw"; "github_repos.csv"]
          = Some (File "repo1,repo2")) as Hinput by reflexivity.
  assert (sample_read_csv "repo1,repo2" = Some process_data.sample_raw_data) as Hparse
    by reflexivity.
  assert (process_data.dates_parse process_data.sample_to_datetime
            process_data.sample_now process_data.sample_raw_data) as Hdates
    by sample_dates.
  assert (files (World sample_tree []) !! ["data"; "processed"; "github_repos_processed.csv"]
          ≠ Some Dir) as Hout by (vm_compute; discriminate).
  repeat (split; [assumption|]).
  exact (process_data_main_writes sample_to_csv_processed sample_read_csv sample_strerror
           process_data.sample_to_datetime process_data.sample_now
           (World sample_tree []) "repo1,repo2" process_data.sample_raw_data
           Hdirs Hraw Hinput Hparse Hdates Hout).
Defined.

Lemma process_data_main_missing_input_witness :
  Forall (no_file (files (World ∅ []))) [["logs"]; ["data"]; ["data"; "processed"]]
  ∧ no_file (files (World ∅ [])) ["data"; "raw"]
  ∧ files (World ∅ []) !! ["data"; "raw"; "github_repos.csv"] = None
  ∧ process_data_main sample_to_csv_processed sample_read_csv sample_strerror
      process_data.sample_to_datetime process_data.sample_now (World ∅ [])
    = (py.Ok (),
       {| files := with_dirs [["logs"]; ["data"]; ["data"; "processed"]]
                     (files (World ∅ []));
          logged := logged (World ∅ [])
            ++ [Log INFO "Loading raw data from data/raw/github_repos.csv...";
                Log ERROR ("Error loading raw data: "
                           +:+ sample_strerror py.FileNotFoundError
                                 "data/raw/github_repos.csv");
                Log ERROR "An error occurred during data processing."] |}).
Proof.
  assert (Forall (no_file (files (World ∅ [])))
                 [["logs"]; ["data"]; ["data"; "processed"]]) as Hdirs
    by (repeat constructor; apply no_file_empty).
  assert (no_file (files (World ∅ [])) ["data"; "raw"]) as Hraw
    by apply no_file_empty.
  assert (files (World ∅ []) !! ["data"; "raw"; "github_repos.csv"] = None) as Hinput
    by (simpl; apply lookup_empty).
  repeat (split; [assumption|]).
  exact (process_data_main_missing_input sample_to_csv_processed sample_read_csv
           sample_strerror process_data.sample_to_datetime process_data.sample_now
           (World ∅ []) Hdirs Hraw Hinput).
Defined.

End scripts_more.

